(** * dnscontrol: the Cloudflare and OVH reconciliation passes and the SPF parser

    A shallow embedding of
    - [providers/cloudflare/cloudflareProvider.go],
    - the OVH provider ([GetDomainCorrections], [nativeToRecord], and the
      functions of the registrar),
    - [pkg/spflib/parse.go],
    followed by the properties of the reconciliation engine that the
    specification states about them, and by properties of the rest of the
    code. *)

From Stdlib Require Import ZArith String Ascii List Bool Lia Permutation.
From Stdlib Require Import DecimalString.
From Stdlib Require OrderedTypeEx.
From stdpp Require Import gmap strings list.

Local Open Scope Z_scope.
Local Open Scope string_scope.

(** ** Go's [strings] and [fmt] helpers, as far as the sources use them *)

Module GoStrings.

(** [strings.HasPrefix(s, prefix)]. *)
Definition HasPrefix (s prefix : string) : bool := String.prefix prefix s.

(** [strings.HasSuffix(s, suffix)]:
    [len(s) >= len(suffix) && s[len(s)-len(suffix):] == suffix]. *)
Definition HasSuffix (s suffix : string) : bool :=
  (String.length suffix <=? String.length s)%nat
  && String.eqb
       (String.substring (String.length s - String.length suffix)
                         (String.length suffix) s)
       suffix.

(** [strings.TrimPrefix(s, prefix)]. *)
Definition TrimPrefix (s prefix : string) : string :=
  if HasPrefix s prefix
  then String.substring (String.length prefix)
                        (String.length s - String.length prefix) s
  else s.

(** [strings.Split(s, sep)] for the one-byte separators the sources pass
    ([","] and [" "]): one more field than there are separators. *)
Fixpoint Split (s : string) (sep : ascii) : list string :=
  match s with
  | EmptyString => [EmptyString]
  | String ch rest =>
      if Ascii.eqb ch sep then EmptyString :: Split rest sep
      else match Split rest sep with
           | [] => [String ch EmptyString]
           | field :: fields => String ch field :: fields
           end
  end.

Definition lowerByte (ch : ascii) : ascii :=
  let n := nat_of_ascii ch in
  if ((65 <=? n) && (n <=? 90))%nat then ascii_of_nat (n + 32) else ch.

(** [strings.ToLower] on a string of ASCII bytes: the letters [A-Z] are
    lowered and every other byte is kept.  Go's [ToLower] also lowers the
    letters outside ASCII, so on a string with such bytes this is the
    program's result only as far as the sources compare it with [on], [off]
    and [full]: no letter outside ASCII has [o], [n], [f], [u] or [l] as its
    lower case.  The statements that show the lowered value itself are made
    for ASCII values. *)
Fixpoint ToLower (s : string) : string :=
  match s with
  | EmptyString => EmptyString
  | String ch rest => String (lowerByte ch) (ToLower rest)
  end.

(** The verb [%d] of [fmt.Sprintf]. *)
Definition Itoa (z : Z) : string := NilZero.string_of_int (Z.to_int z).

(** Go's [int] is 64 bits wide on the supported platforms. *)
Definition maxInt : Z := 2 ^ 63 - 1.
Definition wrapInt (z : Z) : Z := (z + 2 ^ 63) mod 2 ^ 64 - 2 ^ 63.
Definition wrapUint32 (z : Z) : Z := z mod 2 ^ 32.
Definition wrapUint16 (z : Z) : Z := z mod 2 ^ 16.

(** [strings.Join(elems, sep)]. *)
Fixpoint Join (elems : list string) (sep : string) : string :=
  match elems with
  | [] => ""
  | e :: rest =>
      match rest with
      | [] => e
      | _ :: _ => e ++ sep ++ Join rest sep
      end
  end.

(** The line feed and the tabulator of the format strings. *)
Definition newline : string := String "010"%char "".
Definition tab : string := String "009"%char "".

End GoStrings.
Import GoStrings.

(** ** Go's [sort.Strings]

    The slice in increasing order, strings compared byte by byte as Go's
    [<] does.  Equal strings cannot be told apart, so the result does not
    depend on the sorting algorithm; insertion is used here. *)

Module GoSort.

Fixpoint insertString (x : string) (l : list string) : list string :=
  match l with
  | [] => [x]
  | y :: rest =>
      if String.leb x y then x :: y :: rest else y :: insertString x rest
  end.

Fixpoint Strings (l : list string) : list string :=
  match l with
  | [] => []
  | x :: rest => insertString x (Strings rest)
  end.

End GoSort.

(** ** Errors and outcomes

    A Go function of these sources ends in one of four ways: it returns a
    value, it returns a non-nil [error], it panics, or it calls
    [log.Fatalf], which prints and exits the process. *)

Inductive error : Type :=
| ErrExternal (msg : string)
    (* an error returned by code outside the files modelled here *)
| ErrNotListed (name : string)
    (* "%s not listed in zones for cloudflare account" *)
| ErrBadProxyVal (v : string)
    (* "Bad metadata value for cloudflare_proxy: '%s'. Use on/off/full" *)
| ErrBadUniversalSSL (u : string)
    (* "Bad metadata value for %s: '%s'. Use on/off." *)
| ErrProxyOnRecord (rtype label val : string)
    (* "cloudflare_proxy set on %v record: %#v cloudflare_proxy=%#v" *)
| ErrManageRedirects
    (* "you must add 'manage_redirects: true' metadata to cloudflare provider ..." *)
| ErrInvalidRedirect
    (* "Invalid data specified for cloudflare redirect record" *)
| ErrInvalidIP (target : string)
    (* "%s is not a valid ip address" *)
| ErrMetadataNotSet
    (* "Metadata not set." *)
| ErrUniversalSSLState
    (* "error receiving universal ssl state:" *)
| ErrNoExist (domain : string)
    (* ovh: errNoExist{domain} *)
| ErrNotSPF
    (* "Not an spf record" *)
| ErrMustBeLast (part : string)
    (* "%s must be last item" *)
| ErrInIncluded (cause : error)
    (* "In included spf: %s" *)
| ErrUnsupportedPart (part : string)
    (* "Unsupported spf part %s" *)
| ErrWrap (cause : error) (msg : string)
    (* errors.Wrap(cause, msg) *)
| ErrNilDereference
    (* runtime panic: nil pointer dereference *)
| ErrTypeAssertion
    (* runtime panic: interface conversion *).

Inductive fatal : Type :=
| FatalIgnoredLabel (label : string) (ignored : list string)
    (* "FATAL: dnsconfig contains label that matches ignored_labels: %#v is in %v)" *).

Inductive result (A : Type) : Type :=
| Ok (a : A)
| Err (e : error)
| Panic (e : error)
| Fatal (f : fatal).

Arguments Ok {A} a.
Arguments Err {A} e.
Arguments Panic {A} e.
Arguments Fatal {A} f.

Definition bind {A B : Type} (m : result A) (k : A -> result B) : result B :=
  match m with
  | Ok a => k a
  | Err e => Err e
  | Panic e => Panic e
  | Fatal f => Fatal f
  end.

Notation "'let*' x ':=' m 'in' k" :=
  (bind m (fun x => k))
    (at level 10, x name, m at level 100, k at level 200).
Notation "'let*' ' pat ':=' m 'in' k" :=
  (bind m (fun x => match x with pat => k end))
    (at level 10, pat pattern, m at level 100, k at level 200).

(** A loop body with an early [return err], run over a slice front to back. *)
Fixpoint mapM {A B : Type} (f : A -> result B) (l : list A) : result (list B) :=
  match l with
  | [] => Ok []
  | a :: rest =>
      let* b := f a in
      let* bs := mapM f rest in
      Ok (b :: bs)
  end.

(** Whether a value is returned. *)
Definition isOk {A : Type} (m : result A) : bool :=
  match m with Ok _ => true | _ => false end.

(** The errors made by the functions that set up a provider or deal with
    the nameservers of a zone, and the error of a call they pass on.  These
    functions return a value or an error; none of them panics. *)
Inductive accountError : Type :=
| ErrKeysMissing
    (* "cloudflare apikey and apiuser must be provided" *)
| ErrAccountHalfSet
    (* "either both cloudflare accountid and accountname must be provided or neither" *)
| ErrNameserversNotFound (domain : string)
    (* "Nameservers for %s not found in cloudflare account" *)
| ErrNotInZones (domain : string)
    (* "%s not listed in zones for ovh account" *)
| ErrFrom (e : error)
    (* the error of a call, returned as it is *).

Inductive answer (A : Type) : Type :=
| Answer (a : A)
| Refused (e : accountError).

Arguments Answer {A} a.
Arguments Refused {A} e.

(** ** The data model *)

(** [cfRecData]: the fields of the JSON [data] object that [nativeToRecord]
    reads (those of an SRV record). *)
Record cfRecData : Type := mkCfRecData {
  dTarget : string;
  dPriority : Z;
  dWeight : Z;
  dPort : Z
}.

(** [cfRecord], the record as Cloudflare reports it.  The two time stamps
    are left out: no function here reads them. *)
Record cfRecord : Type := mkCfRecord {
  cfID : string;
  cfType : string;
  cfName : string;
  cfContent : string;
  cfProxiable : bool;
  cfProxied : bool;
  cfTTL : Z;
  cfLocked : bool;
  cfZoneID : string;
  cfZoneName : string;
  cfData : option cfRecData;
  cfPriority : string  (* json.Number *)
}.

(** Modelled from the spec: the page rule and the OVH [Record] structs are
    declared in files that are not part of these sources.  Each is the
    "opaque native handle" of the specification; the fields below are the
    ones the sources select. *)
Record pageRule : Type := mkPageRule {
  prID : string
}.

Record OvhRecord : Type := mkOvhRecord {
  ovhID : Z;
  FieldType : string;
  SubDomain : string;
  ovhTarget : string;
  ovhTTL : Z   (* a signed 64-bit integer *)
}.

(** What [RecordConfig.Original] points at: nothing, or a provider's record. *)
Inductive Original : Type :=
| NoOriginal
| CfOriginal (r : cfRecord)
| PageRuleOriginal (p : pageRule)
| OvhOriginal (r : OvhRecord).

(** Modelled from the spec: [models.RecordConfig], the canonical record
    [{ label, type, target, ttl, metadata, nativeHandle }].  [Name] is what
    [GetLabel] returns, [NameFQDN] what [GetLabelFQDN] returns, [Target] what
    [GetTargetField] returns and [SetTarget] stores.  [TTL] is a [uint32].
    A nil [Metadata] map reads like the empty map, and [preprocessConfig]
    replaces nil by the empty map before its first write, so both are the
    empty [gmap] here. *)
Record RecordConfig : Type := mkRecordConfig {
  Type_ : string;
  Name : string;
  NameFQDN : string;
  Target : string;
  TTL : Z;
  Metadata : gmap string string;
  Original_ : Original
}.

Definition GetLabel (rec : RecordConfig) : string := Name rec.
Definition GetLabelFQDN (rec : RecordConfig) : string := NameFQDN rec.
Definition GetTargetField (rec : RecordConfig) : string := Target rec.

Definition setType (t : string) (rec : RecordConfig) : RecordConfig :=
  mkRecordConfig t (Name rec) (NameFQDN rec) (Target rec) (TTL rec)
                 (Metadata rec) (Original_ rec).
Definition SetTarget (target : string) (rec : RecordConfig) : RecordConfig :=
  mkRecordConfig (Type_ rec) (Name rec) (NameFQDN rec) target (TTL rec)
                 (Metadata rec) (Original_ rec).
Definition setTTL (ttl : Z) (rec : RecordConfig) : RecordConfig :=
  mkRecordConfig (Type_ rec) (Name rec) (NameFQDN rec) (Target rec) ttl
                 (Metadata rec) (Original_ rec).
Definition setMetadata (m : gmap string string) (rec : RecordConfig)
  : RecordConfig :=
  mkRecordConfig (Type_ rec) (Name rec) (NameFQDN rec) (Target rec) (TTL rec)
                 m (Original_ rec).

(** [m[key]] on a Go [map[string]string]: the empty string when absent. *)
Definition getMeta (m : gmap string string) (key : string) : string :=
  default "" (m !! key).

(** [rec.Metadata[key] = v]. *)
Definition putMeta (key v : string) (rec : RecordConfig) : RecordConfig :=
  setMetadata (<[key := v]> (Metadata rec)) rec.

(** Modelled from the spec: [models.DomainConfig], the zone's desired state
    [{ name, records, metadata }].  [Records] is a slice of pointers to
    distinct records; the in-place updates of the sources become updates
    of the list's elements. *)
Record DomainConfig : Type := mkDomainConfig {
  dcName : string;
  Records : list RecordConfig;
  dcMetadata : gmap string string
}.

Definition setRecords (recs : list RecordConfig) (dc : DomainConfig)
  : DomainConfig :=
  mkDomainConfig (dcName dc) recs (dcMetadata dc).

(** Modelled from the spec: [diff.Correlation], one entry of a change set.
    A delete has no desired record and a create no existing one. *)
Record Correlation : Type := mkCorrelation {
  Existing : option RecordConfig;
  Desired : option RecordConfig
}.

Definition Changeset : Type := list Correlation.

(** The deferred action of a correction: which provider call the closure
    makes, with the values it captured. *)
Inductive Action : Type :=
| deletePageRule (ex : RecordConfig) (id : string)
| createPageRule (id : string) (des : RecordConfig)
| updatePageRule (ex : option RecordConfig) (id : string) (rec : RecordConfig)
| modifyRecord (id : string) (e : cfRecord) (proxy : bool) (rec : RecordConfig)
| changeUniversalSSL (id : string) (newState : bool)
| deleteRecordFunc (recID : Z) (fqdn : string)
| createRecordFunc (rec : option RecordConfig) (fqdn : string)
| updateRecordFunc (old : OvhRecord) (new : option RecordConfig) (fqdn : string)
| refreshZone (fqdn : string)
| restCall (descr : string)
    (* a closure built by a function outside these sources *).

(** [models.Correction]. *)
Record Correction : Type := mkCorrection {
  Msg : string;
  F : Action
}.

(** Modelled from the spec: [models.Nameserver]; package [models] is not
    part of these sources.  The zone's desired state has [nameservers], and
    the sources select the field [Name] of each. *)
Record Nameserver : Type := mkNameserver {
  nsName : string
}.

(** The struct that [newCloudflare] decodes the provider's metadata into. *)
Record ParsedMeta : Type := mkParsedMeta {
  IPConversions : string;
  IgnoredLabels : list string;
  ManageRedirects : bool
}.

(** The correction of [GetRegistrarCorrections]: its message, and the call
    [updateNS(domain, expected)] of its closure. *)
Record NameserverCorrection : Type := mkNameserverCorrection {
  nsMsg : string;
  nsDomain : string;
  nsExpected : list string
}.

(** ** Code outside these sources

    The functions of the repository and of its libraries that the sources
    call but that are declared elsewhere: packages [models], [diff],
    [transform], [dnsutil], [net], [encoding/json], and the REST half of the
    Cloudflare provider.  The development is parametric in them. *)

Class Externals : Type := {
  (* models: the setters are given by the fields they store.  [SetLabel]
     and [SetLabelFromFQDN] yield the label and its FQDN;
     [PopulateFromString], [SetTargetMX] and [SetTargetSRV] yield the type
     and the target, or an error. *)
  SetLabel : string -> string -> string * string;
  SetLabelFromFQDN : string -> string -> string * string;
  PopulateFromString : string -> string -> string -> result (string * string);
  SetTargetMX : Z -> string -> result (string * string);
  SetTargetSRV : Z -> Z -> Z -> string -> result (string * string);
  PostProcessRecords : list RecordConfig -> list RecordConfig;
  Punycode : DomainConfig -> DomainConfig;
  (* diff: [diff.New(dc, extraValues...).IncrementalDiff(existing)] yields
     [(unchanged, create, toDelete, modify)]; [CorrelationString] is the
     [String] method of a correlation. *)
  IncrementalDiff :
    DomainConfig ->
    list (RecordConfig -> result (option (gmap string string))) ->
    list RecordConfig -> Changeset * Changeset * Changeset * Changeset;
  CorrelationString : Correlation -> string;
  (* dnsutil *)
  TrimDomainName : string -> string -> string;
  AddOrigin : string -> string -> string;
  (* net and transform *)
  IP : Type;
  IpConversion : Type;
  ParseIP : string -> option IP;
  IPString : IP -> string;
  TransformIP : IP -> list IpConversion -> result IP;
  (* json.Number.Int64 *)
  NumberInt64 : string -> result Z;
  (* cloudflare, rest.go *)
  deleteRec : cfRecord -> string -> Correction;
  createRec : RecordConfig -> string -> list Correction
}.

(** What the functions of the account call outside these sources:
    [models.StringsToNameservers], [json.Unmarshal] into [ParsedMeta], and
    [transform.DecodeTransformTable]. *)
Class AccountExternals `{EXT : Externals} : Type := {
  StringsToNameservers : list string -> list Nameserver;
  Unmarshal : string -> error + ParsedMeta;
  DecodeTransformTable : string -> error + list IpConversion
}.

Definition setLabels (l : string * string) (rec : RecordConfig) : RecordConfig :=
  mkRecordConfig (Type_ rec) (fst l) (snd l) (Target rec) (TTL rec)
                 (Metadata rec) (Original_ rec).

Definition setContents (ct : string * string) (rec : RecordConfig)
  : RecordConfig :=
  setType (fst ct) (SetTarget (snd ct) rec).

(** The category of a correction: the loop of [GetDomainCorrections] that
    appended it. *)
Inductive Category : Type := CatDelete | CatCreate | CatModify | CatZone.

Definition rank (k : Category) : nat :=
  match k with CatDelete => 0 | CatCreate => 1 | CatModify => 2 | CatZone => 3 end.

Definition tagged (k : Category) (cs : list Correction)
  : list (Category * Correction) := map (pair k) cs.

(** ** The Cloudflare provider *)

Module Cloudflare.

Section WithExternals.
Context `{EXT : Externals}.

(** [CloudflareApi]; a nil [domainIndex] is [None]. *)
Record CloudflareApi : Type := mkCloudflareApi {
  ApiKey : string;
  ApiUser : string;
  AccountID : string;
  AccountName : string;
  domainIndex : option (gmap string string);
  nameservers : gmap string (list string);
  ipConversions : list IpConversion;
  ignoredLabels : list string;
  manageRedirects : bool
}.

(** What the Cloudflare API answers during one pass. *)
Record World : Type := mkWorld {
  fetchDomainList : result (gmap string string);
  getRecordsForDomain : string -> string -> result (list RecordConfig);
  getPageRules : string -> string -> result (list RecordConfig);
  getUniversalSSL : string -> result bool
}.

Definition metaProxy : string := "cloudflare_proxy".
Definition metaProxyDefault : string := metaProxy ++ "_default".
Definition metaOriginalIP : string := "original_ip".
Definition metaUniversalSSL : string := "cloudflare_universalssl".
Definition metaIPConversions : string := "ip_conversions".

Definition labelMatches (label : string) (matches : list string) : bool :=
  existsb (String.eqb label) matches.

Definition checkProxyVal (v : string) : result string :=
  let v := ToLower v in
  if negb (String.eqb v "on") && negb (String.eqb v "off")
     && negb (String.eqb v "full")
  then Err (ErrBadProxyVal v)
  else Ok v.

(** The types whose records may carry a proxy setting. *)
Definition proxiable (t : string) : bool :=
  String.eqb t "A" || String.eqb t "CNAME" || String.eqb t "AAAA"
  || String.eqb t "ALIAS".

Definition isRedirect (t : string) : bool :=
  String.eqb t "CF_REDIRECT" || String.eqb t "CF_TEMP_REDIRECT".

(** Lines 303-308: automatic TTL for 0 and 300, then the floor of 120. *)
Definition normalizeTTL (ttl : Z) : Z :=
  let ttl := if (ttl =? 0)%Z || (ttl =? 300)%Z then 1 else ttl in
  if negb (ttl =? 1)%Z && (ttl <? 120)%Z then 120 else ttl.

(** Lines 310-326: the proxy setting of one record. *)
Definition normalizeProxy (defProxy : string) (rec : RecordConfig)
  : result RecordConfig :=
  if negb (proxiable (Type_ rec)) then
    if negb (String.eqb (getMeta (Metadata rec) metaProxy) "") then
      Err (ErrProxyOnRecord (Type_ rec) (GetLabel rec)
                            (getMeta (Metadata rec) metaProxy))
    else Ok (putMeta metaProxy "off" rec)
  else
    let val := getMeta (Metadata rec) metaProxy in
    if String.eqb val "" then Ok (putMeta metaProxy defProxy rec)
    else
      let* val := checkProxyVal val in
      Ok (putMeta metaProxy val rec).

Definition redirectCode (t : string) : Z :=
  if String.eqb t "CF_TEMP_REDIRECT" then 302 else 301.

(** Lines 329-344: a redirect becomes a page rule [from,to,priority,code]. *)
Definition encodeRedirect (c : CloudflareApi) (currentPrPrio : Z)
  (rec : RecordConfig) : result (RecordConfig * Z) :=
  if isRedirect (Type_ rec) then
    if negb (manageRedirects c) then Err ErrManageRedirects
    else
      let parts := Split (GetTargetField rec) "," in
      if negb (length parts =? 2)%nat then Err ErrInvalidRedirect
      else
        let code := redirectCode (Type_ rec) in
        let rec :=
          SetTarget (GetTargetField rec ++ "," ++ Itoa currentPrPrio ++ ","
                     ++ Itoa code) rec in
        Ok (setType "PAGE_RULE" rec, wrapInt (currentPrPrio + 1))
  else Ok (rec, currentPrPrio).

(** One iteration of the first loop of [preprocessConfig]. *)
Definition preprocessRecord (c : CloudflareApi) (defProxy : string)
  (currentPrPrio : Z) (rec : RecordConfig) : result (RecordConfig * Z) :=
  let rec := setTTL (normalizeTTL (TTL rec)) rec in
  let* rec := normalizeProxy defProxy rec in
  encodeRedirect c currentPrPrio rec.

(** The first loop, [for i := len(dc.Records) - 1; i >= 0; i--]: the tail of
    the slice is handled before its head, and [currentPrPrio] starts at 1. *)
Fixpoint preprocessRecords (c : CloudflareApi) (defProxy : string)
  (recs : list RecordConfig) : result (list RecordConfig * Z) :=
  match recs with
  | [] => Ok ([], 1)
  | rec :: rest =>
      let* '(rest', currentPrPrio) := preprocessRecords c defProxy rest in
      let* '(rec', currentPrPrio') :=
        preprocessRecord c defProxy currentPrPrio rec in
      Ok (rec' :: rest', currentPrPrio')
  end.

(** One iteration of the second loop: the address of a "full" A record. *)
Definition transformRecord (c : CloudflareApi) (rec : RecordConfig)
  : result RecordConfig :=
  if negb (String.eqb (Type_ rec) "A") then Ok rec
  else if negb (String.eqb (getMeta (Metadata rec) metaProxy) "full")
  then Ok rec
  else
    match ParseIP (GetTargetField rec) with
    | None => Err (ErrInvalidIP (GetTargetField rec))
    | Some ip =>
        let* newIP := TransformIP ip (ipConversions c) in
        let rec := putMeta metaOriginalIP (GetTargetField rec) rec in
        Ok (SetTarget (IPString newIP) rec)
    end.

Definition defaultProxy (dc : DomainConfig) : result string :=
  let defProxy := getMeta (dcMetadata dc) metaProxyDefault in
  if String.eqb defProxy "" then Ok "off" else checkProxyVal defProxy.

Definition checkUniversalSSLSetting (dc : DomainConfig) : result unit :=
  let u := getMeta (dcMetadata dc) metaUniversalSSL in
  if negb (String.eqb u "") then
    let u := ToLower u in
    if negb (String.eqb u "on") && negb (String.eqb u "off")
    then Err (ErrBadUniversalSSL u)
    else Ok tt
  else Ok tt.

(** [preprocessConfig] updates [dc] in place and returns an error or nil;
    here it returns the updated [dc].  What it has written into [dc] before
    an error is lost: its only caller returns at once. *)
Definition preprocessConfig (c : CloudflareApi) (dc : DomainConfig)
  : result DomainConfig :=
  let* defProxy := defaultProxy dc in
  let* _ := checkUniversalSSLSetting dc in
  let* '(recs, _) := preprocessRecords c defProxy (Records dc) in
  let* recs := mapM (transformRecord c) recs in
  Ok (setRecords recs dc).

(** [checkNSModifications]: the new record list, and the targets for which
    the warning is printed. *)
Definition isApexNS (dc : DomainConfig) (rec : RecordConfig) : bool :=
  String.eqb (Type_ rec) "NS" && String.eqb (GetLabelFQDN rec) (dcName dc).

Fixpoint checkNSLoop (dc : DomainConfig) (recs : list RecordConfig)
  : list RecordConfig * list string :=
  match recs with
  | [] => ([], [])
  | rec :: rest =>
      let '(newList, warned) := checkNSLoop dc rest in
      if isApexNS dc rec then
        if negb (HasSuffix (GetTargetField rec) ".ns.cloudflare.com.")
        then (newList, GetTargetField rec :: warned)
        else (newList, warned)
      else (rec :: newList, warned)
  end.

Definition checkNSModifications (dc : DomainConfig)
  : DomainConfig * list string :=
  let '(newList, warned) := checkNSLoop dc (Records dc) in
  (setRecords newList dc, warned).

(** [checkUniversalSSL]: [(changed, newState)] or an error. *)
Definition checkUniversalSSL (w : World) (dc : DomainConfig) (id : string)
  : result (bool * bool) :=
  let expected_str := getMeta (dcMetadata dc) metaUniversalSSL in
  if String.eqb expected_str "" then Err ErrMetadataNotSet
  else
    match getUniversalSSL w id with
    | Ok actual =>
        let expected := negb (String.eqb expected_str "off") in
        if negb (Bool.eqb actual expected) then Ok (true, expected)
        else Ok (false, expected)
    | Err _ => Err ErrUniversalSSLState
    | Panic e => Panic e
    | Fatal f => Fatal f
    end.

(** The type assertion of [rec.Original] to a pointer to [cfRecord]. *)
Definition asCfRecord (o : Original) : result cfRecord :=
  match o with CfOriginal r => Ok r | _ => Panic ErrTypeAssertion end.

Definition getProxyMetadata (r : RecordConfig)
  : result (option (gmap string string)) :=
  if negb (String.eqb (Type_ r) "A") && negb (String.eqb (Type_ r) "AAAA")
     && negb (String.eqb (Type_ r) "CNAME")
  then Ok None
  else
    let* proxied :=
      match Original_ r with
      | NoOriginal =>
          Ok (negb (String.eqb (getMeta (Metadata r) metaProxy) "off"))
      | o => let* cf := asCfRecord o in Ok (cfProxied cf)
      end in
    Ok (Some {[ "proxy" := if proxied then "true" else "false" ]}).

(** Lines 97-105: the zone's id in the account. *)
Definition lookupDomain (c : CloudflareApi) (w : World) (name : string)
  : result string :=
  let* index :=
    match domainIndex c with
    | None => fetchDomainList w
    | Some index => Ok index
    end in
  match index !! name with
  | Some id => Ok id
  | None => Err (ErrNotListed name)
  end.

(** Lines 115-122, [for i := len(records) - 1; i >= 0; i--]: the records
    whose name, trimmed of the zone's, is an ignored label are cut out. *)
Fixpoint dropIgnored (c : CloudflareApi) (dc : DomainConfig)
  (records : list RecordConfig) : result (list RecordConfig) :=
  match records with
  | [] => Ok []
  | rec :: rest =>
      let* rest' := dropIgnored c dc rest in
      let* cf := asCfRecord (Original_ rec) in
      if labelMatches (TrimDomainName (cfName cf) (dcName dc))
                      (ignoredLabels c)
      then Ok rest'
      else Ok (rec :: rest')
  end.

(** Lines 111-130: the actual records, and the page rules after them. *)
Definition fetchActual (c : CloudflareApi) (w : World) (dc : DomainConfig)
  (id : string) : result (list RecordConfig) :=
  let* records := getRecordsForDomain w id (dcName dc) in
  let* records := dropIgnored c dc records in
  if manageRedirects c then
    let* prs := getPageRules w id (dcName dc) in
    Ok (records ++ prs)%list
  else Ok records.

(** Lines 132-145, one desired record. *)
Definition forceDesired (c : CloudflareApi) (rec : RecordConfig)
  : result RecordConfig :=
  let rec :=
    if String.eqb (Type_ rec) "ALIAS" then setType "CNAME" rec else rec in
  let rec :=
    if negb (String.eqb (getMeta (Metadata rec) metaProxy) "off")
    then setTTL 1 rec else rec in
  if labelMatches (GetLabel rec) (ignoredLabels c)
  then Fatal (FatalIgnoredLabel (GetLabel rec) (ignoredLabels c))
  else Ok rec.

(** Lines 97-147: the zone's id, the desired records as the differ is
    given them, and the actual records before [PostProcessRecords]. *)
Definition gatherInputs (c : CloudflareApi) (w : World) (dc : DomainConfig)
  : result (string * DomainConfig * list RecordConfig) :=
  let* id := lookupDomain c w (dcName dc) in
  let* dc := preprocessConfig c dc in
  let* records := fetchActual c w dc id in
  let* desired := mapM (forceDesired c) (Records dc) in
  let dc := fst (checkNSModifications (setRecords desired dc)) in
  Ok (id, dc, records).

(** Lines 97-150: what the differ is given, with the zone's id. *)
Definition diffInputs (c : CloudflareApi) (w : World) (dc : DomainConfig)
  : result (string * DomainConfig * list RecordConfig) :=
  let* '(id, dc, records) := gatherInputs c w dc in
  Ok (id, dc, PostProcessRecords records).

(** Lines 156-167, one iteration. *)
Definition deleteCorrection (id : string) (d : Correlation)
  : result Correction :=
  match Existing d with
  | None => Panic ErrNilDereference
  | Some ex =>
      if String.eqb (Type_ ex) "PAGE_RULE"
      then Ok (mkCorrection (CorrelationString d) (deletePageRule ex id))
      else
        let* cf := asCfRecord (Original_ ex) in
        Ok (deleteRec cf id)
  end.

(** Lines 168-178, one iteration. *)
Definition createCorrections (id : string) (d : Correlation)
  : result (list Correction) :=
  match Desired d with
  | None => Panic ErrNilDereference
  | Some des =>
      if String.eqb (Type_ des) "PAGE_RULE"
      then Ok [mkCorrection (CorrelationString d) (createPageRule id des)]
      else Ok (createRec des id)
  end.

(** Lines 180-196, one iteration. *)
Definition modifyCorrection (id : string) (d : Correlation)
  : result Correction :=
  match Desired d with
  | None => Panic ErrNilDereference
  | Some rec =>
      if String.eqb (Type_ rec) "PAGE_RULE"
      then Ok (mkCorrection (CorrelationString d)
                            (updatePageRule (Existing d) id rec))
      else
        match Existing d with
        | None => Panic ErrNilDereference
        | Some ex =>
            let* e := asCfRecord (Original_ ex) in
            let proxy :=
              cfProxiable e
              && negb (String.eqb (getMeta (Metadata rec) metaProxy) "off") in
            Ok (mkCorrection (CorrelationString d)
                             (modifyRecord id e proxy rec))
        end
  end.

(** Lines 154-196: the three loops, each correction with its category. *)
Definition recordCorrections (id : string) (create del modify : Changeset)
  : result (list (Category * Correction)) :=
  let* dels := mapM (deleteCorrection id) del in
  let* creates := mapM (createCorrections id) create in
  let* mods := mapM (modifyCorrection id) modify in
  Ok (tagged CatDelete dels ++ tagged CatCreate (concat creates)
      ++ tagged CatModify mods)%list.

(** Lines 198-210. *)
Definition universalSSLCorrection (w : World) (dc : DomainConfig)
  (id : string) : result (list (Category * Correction)) :=
  match checkUniversalSSL w dc id with
  | Ok (true, newState) =>
      let newStateString := if newState then "enabled" else "disabled" in
      Ok [(CatZone,
           mkCorrection
             ("Universal SSL will be " ++ newStateString
              ++ " for this domain.")
             (changeUniversalSSL id newState))]
  | Ok (false, _) => Ok []
  | Err _ => Ok []
  | Panic e => Panic e
  | Fatal f => Fatal f
  end.

(** Lines 152-212, on what [diffInputs] yields. *)
Definition planCorrections (w : World) (id : string) (dc : DomainConfig)
  (records : list RecordConfig) : result (list (Category * Correction)) :=
  let '(_, create, del, modify) :=
    IncrementalDiff dc [getProxyMetadata] records in
  let* corrections := recordCorrections id create del modify in
  let* ssl := universalSSLCorrection w dc id in
  Ok (corrections ++ ssl)%list.

Definition categorizedCorrections (c : CloudflareApi) (w : World)
  (dc : DomainConfig) : result (list (Category * Correction)) :=
  let* '(id, dc, records) := diffInputs c w dc in
  planCorrections w id dc records.

(** [GetDomainCorrections]. *)
Definition GetDomainCorrections (c : CloudflareApi) (w : World)
  (dc : DomainConfig) : result (list Correction) :=
  let* corrections := categorizedCorrections c w dc in
  Ok (map snd corrections).

(** [cfRecord.nativeToRecord]: the conversion of a record Cloudflare
    reports.  The receiver is updated in place, and [Original] points at
    it: the record returned carries the updated receiver. *)
Definition nativeToRecord (c : cfRecord) (domain : string)
  : result RecordConfig :=
  let content :=
    if String.eqb (cfType c) "CNAME" || String.eqb (cfType c) "MX"
       || String.eqb (cfType c) "NS" || String.eqb (cfType c) "SRV"
    then AddOrigin (cfContent c ++ ".") domain
    else cfContent c in
  let rType := if String.eqb (cfType c) "SPF" then "TXT" else cfType c in
  let c' :=
    mkCfRecord (cfID c) rType (cfName c) content (cfProxiable c)
               (cfProxied c) (cfTTL c) (cfLocked c) (cfZoneID c)
               (cfZoneName c) (cfData c) (cfPriority c) in
  let rc := mkRecordConfig "" "" "" "" (cfTTL c) ∅ (CfOriginal c') in
  let rc := setLabels (SetLabelFromFQDN (cfName c) domain) rc in
  if String.eqb rType "MX" then
    let* priority :=
      if String.eqb (cfPriority c) "" then Ok 0
      else
        match NumberInt64 (cfPriority c) with
        | Ok p => Ok (wrapUint16 p)
        | Err err =>
            Panic (ErrWrap err "error decoding priority from cloudflare record")
        | Panic e => Panic e
        | Fatal f => Fatal f
        end in
    match SetTargetMX priority content with
    | Ok ct => Ok (setContents ct rc)
    | Err err =>
        Panic (ErrWrap err "unparsable MX record received from cloudflare")
    | Panic e => Panic e
    | Fatal f => Fatal f
    end
  else if String.eqb rType "SRV" then
    match cfData c with
    | None => Panic ErrNilDereference
    | Some data =>
        match SetTargetSRV (dPriority data) (dWeight data) (dPort data)
                           (AddOrigin (dTarget data ++ ".") domain) with
        | Ok ct => Ok (setContents ct rc)
        | Err err =>
            Panic (ErrWrap err "unparsable SRV record received from cloudflare")
        | Panic e => Panic e
        | Fatal f => Fatal f
        end
    end
  else
    match PopulateFromString rType content domain with
    | Ok ct => Ok (setContents ct rc)
    | Err err =>
        Panic (ErrWrap err "unparsable record received from cloudflare")
    | Panic e => Panic e
    | Fatal f => Fatal f
    end.

End WithExternals.
(** *** The account: [newCloudflare], [GetNameservers], [EnsureDomainExists] *)

Section Account.
Context `{EXT : Externals} {AEXT : @AccountExternals EXT}.

(** What [fetchDomainList] stores in [c.domainIndex] and in
    [c.nameservers] when it succeeds. *)
Record DomainList : Type := mkDomainList {
  listedIDs : gmap string string;
  listedNameservers : gmap string (list string)
}.

(** What the Cloudflare API answers to the calls of these functions:
    [fetchDomainList], and [createZone], which returns an id and an error
    or nil. *)
Record Account : Type := mkAccount {
  listDomains : error + DomainList;
  createZone : string -> string * option error
}.

(** [GetNameservers]. *)
Definition GetNameservers (c : CloudflareApi) (a : Account) (domain : string)
  : answer (list Nameserver) :=
  let fetched :=
    match domainIndex c with
    | None =>
        match listDomains a with
        | inl err => Refused (ErrFrom err)
        | inr l => Answer (listedNameservers l)
        end
    | Some _ => Answer (nameservers c)
    end in
  match fetched with
  | Refused e => Refused e
  | Answer known =>
      match known !! domain with
      | None => Refused (ErrNameserversNotFound domain)
      | Some ns => Answer (StringsToNameservers ns)
      end
  end.

(** [EnsureDomainExists]: the lines it prints, and the error or nil it
    returns.  Reading a nil [domainIndex] finds nothing. *)
Definition EnsureDomainExists (c : CloudflareApi) (a : Account)
  (domain : string) : list string * option error :=
  match default ∅ (domainIndex c) !! domain with
  | Some _ => ([], None)
  | None =>
      let '(id, err) := createZone a domain in
      (["Added zone for " ++ domain ++ " to Cloudflare account: " ++ id
        ++ newline],
       err)
  end.

Definition ignoredLabelsWarning : string :=
  "Cloudflare 'ignored_labels' configuration is deprecated and might be removed. Please use the IGNORE domain directive to achieve the same effect."
  ++ newline.

(** [newCloudflare]: the warnings it prints, and the provider or an error.
    [m] holds the credentials and [metadata] is the raw JSON text. *)
Definition newCloudflare (m : gmap string string) (metadata : string)
  (a : Account) : list string * answer CloudflareApi :=
  let apiUser := getMeta m "apiuser" in
  let apiKey := getMeta m "apikey" in
  if String.eqb apiKey "" || String.eqb apiUser "" then
    ([], Refused ErrKeysMissing)
  else
    let accountID := getMeta m "accountid" in
    let accountName := getMeta m "accountname" in
    if (negb (String.eqb accountID "") && String.eqb accountName "")
       || (String.eqb accountID "" && negb (String.eqb accountName ""))
    then ([], Refused ErrAccountHalfSet)
    else
      match listDomains a with
      | inl err => ([], Refused (ErrFrom err))
      | inr l =>
          let api conversions ignored redirects :=
            mkCloudflareApi apiKey apiUser accountID accountName
                            (Some (listedIDs l)) (listedNameservers l)
                            conversions ignored redirects in
          if (0 <? String.length metadata)%nat then
            match Unmarshal metadata with
            | inl err => ([], Refused (ErrFrom err))
            | inr parsedMeta =>
                let ignored := IgnoredLabels parsedMeta in
                let warned :=
                  if (0 <? length ignored)%nat then [ignoredLabelsWarning]
                  else [] in
                if (0 <? String.length (IPConversions parsedMeta))%nat then
                  match DecodeTransformTable (IPConversions parsedMeta) with
                  | inl err => (warned, Refused (ErrFrom err))
                  | inr conversions =>
                      (warned,
                       Answer (api conversions ignored
                                   (ManageRedirects parsedMeta)))
                  end
                else
                  (warned,
                   Answer (api [] ignored (ManageRedirects parsedMeta)))
            end
          else ([], Answer (api [] [] false))
      end.

End Account.
End Cloudflare.

(** ** The OVH provider *)

Module Ovh.

Section WithExternals.
Context `{EXT : Externals}.

(** [ovhProvider]: the zones of the account.  The API client is the
    [World] below. *)
Record ovhProvider : Type := mkOvhProvider {
  zones : gmap string bool
}.

Record World : Type := mkWorld {
  fetchRecords : string -> result (list OvhRecord)
}.

(** The record type of a native record: OVH has types of its own for SPF
    and DKIM. *)
Definition rtypeOf (r : OvhRecord) : string :=
  let rtype := FieldType r in
  if String.eqb rtype "SPF" || String.eqb rtype "DKIM" then "TXT" else rtype.

(** [nativeToRecord]: [None] is the nil it returns for an SOA record. *)
Definition nativeToRecord (r : OvhRecord) (origin : string)
  : result (option RecordConfig) :=
  if String.eqb (FieldType r) "SOA" then Ok None
  else
    let rec :=
      mkRecordConfig "" "" "" "" (wrapUint32 (ovhTTL r)) ∅ (OvhOriginal r) in
    let rtype := rtypeOf r in
    let rec := setLabels (SetLabel (SubDomain r) origin) rec in
    match PopulateFromString rtype (ovhTarget r) origin with
    | Ok ct =>
        let rec := setContents ct rec in
        let rec := if (TTL rec =? 0)%Z then setTTL 3600 rec else rec in
        Ok (Some rec)
    | Err err => Panic (ErrWrap err "unparsable record received from ovh")
    | Panic e => Panic e
    | Fatal f => Fatal f
    end.

(** Lines 96-102: the records that are not nil are collected. *)
Fixpoint toActual (records : list OvhRecord) (origin : string)
  : result (list RecordConfig) :=
  match records with
  | [] => Ok []
  | r :: rest =>
      let* rec := nativeToRecord r origin in
      let* actual := toActual rest origin in
      Ok (match rec with
          | Some rec => rec :: actual
          | None => actual
          end)
  end.

(** The type assertion of [Existing.Original] to a pointer to [Record]. *)
Definition asOvhRecord (d : Correlation) : result OvhRecord :=
  match Existing d with
  | None => Panic ErrNilDereference
  | Some ex =>
      match Original_ ex with
      | OvhOriginal r => Ok r
      | _ => Panic ErrTypeAssertion
      end
  end.

Definition deleteCorrection (dc : DomainConfig) (del : Correlation)
  : result Correction :=
  let* rec := asOvhRecord del in
  Ok (mkCorrection (CorrelationString del)
                   (deleteRecordFunc (ovhID rec) (dcName dc))).

Definition createCorrection (dc : DomainConfig) (cre : Correlation)
  : Correction :=
  mkCorrection (CorrelationString cre)
               (createRecordFunc (Desired cre) (dcName dc)).

Definition modifyCorrection (dc : DomainConfig) (m : Correlation)
  : result Correction :=
  let* oldR := asOvhRecord m in
  Ok (mkCorrection (CorrelationString m)
                   (updateRecordFunc oldR (Desired m) (dcName dc))).

(** Lines 110-135: the three loops, each correction with its category. *)
Definition recordCorrections (dc : DomainConfig)
  (create delete modify : Changeset) : result (list (Category * Correction)) :=
  let* dels := mapM (deleteCorrection dc) delete in
  let creates := map (createCorrection dc) create in
  let* mods := mapM (modifyCorrection dc) modify in
  Ok (tagged CatDelete dels ++ tagged CatCreate creates
      ++ tagged CatModify mods)%list.

(** Lines 137-144. *)
Definition refreshCorrection (dc : DomainConfig)
  (corrections : list (Category * Correction))
  : list (Category * Correction) :=
  if (0 <? length corrections)%nat
  then [(CatZone,
         mkCorrection ("REFRESH zone " ++ dcName dc) (refreshZone (dcName dc)))]
  else [].

(** Lines 91-102: the actual records before [PostProcessRecords]. *)
Definition convertRecords (w : World) (dc : DomainConfig)
  : result (list RecordConfig) :=
  let* records := fetchRecords w (dcName dc) in
  toActual records (dcName dc).

(** Lines 91-105: the records the differ is given. *)
Definition actualRecords (w : World) (dc : DomainConfig)
  : result (list RecordConfig) :=
  let* actual := convertRecords w dc in
  Ok (PostProcessRecords actual).

Definition planCorrections (dc : DomainConfig) (actual : list RecordConfig)
  : result (list (Category * Correction)) :=
  let '(_, create, delete, modify) := IncrementalDiff dc [] actual in
  let* corrections := recordCorrections dc create delete modify in
  Ok (corrections ++ refreshCorrection dc corrections)%list.

Definition categorizedCorrections (c : ovhProvider) (w : World)
  (dc : DomainConfig) : result (list (Category * Correction)) :=
  let dc := Punycode dc in
  if negb (default false (zones c !! dcName dc))
  then Err (ErrNoExist (dcName dc))
  else
    let* actual := actualRecords w dc in
    planCorrections dc actual.

(** [GetDomainCorrections]. *)
Definition GetDomainCorrections (c : ovhProvider) (w : World)
  (dc : DomainConfig) : result (list Correction) :=
  let* corrections := categorizedCorrections c w dc in
  Ok (map snd corrections).

End WithExternals.
(** *** The registrar: [GetNameservers], [GetRegistrarCorrections] *)

Section Registrar.
Context `{EXT : Externals} {AEXT : @AccountExternals EXT}.

(** What the OVH API answers to [fetchRegistrarNS]. *)
Record Registrar : Type := mkRegistrar {
  fetchRegistrarNS : string -> error + list string
}.

(** [GetNameservers]. *)
Definition GetNameservers (c : ovhProvider) (w : Registrar) (domain : string)
  : answer (list Nameserver) :=
  match zones c !! domain with
  | None => Refused (ErrNotInZones domain)
  | Some _ =>
      match fetchRegistrarNS w domain with
      | inl err => Refused (ErrFrom err)
      | inr ns => Answer (StringsToNameservers ns)
      end
  end.

(** [errNoExist.Error]. *)
Definition errNoExistError (domain : string) : string :=
  "Domain " ++ domain ++ " not found in your ovh account".

(** [GetRegistrarCorrections]; [nameservers] is [dc.Nameservers]. *)
Definition GetRegistrarCorrections (w : Registrar) (dc : DomainConfig)
  (nameservers : list Nameserver) : answer (list NameserverCorrection) :=
  match fetchRegistrarNS w (dcName dc) with
  | inl err => Refused (ErrFrom err)
  | inr actualNs =>
      let expectedNs := map nsName nameservers in
      let actualNs := GoSort.Strings actualNs in
      let actual := Join actualNs "," in
      let expectedNs := GoSort.Strings expectedNs in
      let expected := Join expectedNs "," in
      if negb (String.eqb actual expected) then
        Answer [mkNameserverCorrection
                  ("Change Nameservers from '" ++ actual ++ "' to '"
                   ++ expected ++ "'")
                  (dcName dc) expectedNs]
      else Answer []
  end.

End Registrar.
End Ovh.

(** ** The SPF parser *)

Module Spflib.

(** [SPFRecord] and [SPFPart]. *)
Inductive SPFRecord : Type :=
| mkSPFRecord (Parts : list SPFPart)
with SPFPart : Type :=
| mkSPFPart (Text : string) (IsLookup : bool)
            (IncludeRecord : option SPFRecord) (IncludeDomain : string).

(** The [Resolver] interface. *)
Class Resolver : Type := {
  GetSPF : string -> result string
}.

Definition qualifiers (b : ascii) : bool :=
  Ascii.eqb b "?" || Ascii.eqb b "~" || Ascii.eqb b "-" || Ascii.eqb b "+".

(** [if qualifiers[part[0]] { part = part[1:] }], for a part that is not
    empty. *)
Definition stripQualifier (part : string) : string :=
  match part with
  | String b rest => if qualifiers b then rest else part
  | EmptyString => part
  end.

(** The loop of [Parse] over [parts[1:]]: [pi] is the index, [nparts] is
    [len(parts)], [acc] is [rec.Parts].  [parse] is the recursive call; it
    answers [None] when the depth allowed to it is used up. *)
Fixpoint parseParts (parse : string -> option (result SPFRecord))
  (dnsres : option Resolver) (nparts pi : nat) (parts : list string)
  (acc : list SPFPart) : option (result (list SPFPart)) :=
  match parts with
  | [] => Some (Ok acc)
  | text :: rest =>
      let continue acc' := parseParts parse dnsres nparts (S pi) rest acc' in
      if String.eqb text "" then continue acc
      else
        let part := stripQualifier text in
        if String.eqb part "all"
        then Some (Ok (acc ++ [mkSPFPart text false None ""])%list)
        else if HasPrefix part "a" || HasPrefix part "mx"
        then continue (acc ++ [mkSPFPart text true None ""])%list
        else if HasPrefix part "ip4:" || HasPrefix part "ip6:"
        then continue (acc ++ [mkSPFPart text false None ""])%list
        else if HasPrefix part "include:" || HasPrefix part "redirect:"
        then
          if HasPrefix part "redirect:" && negb (pi + 2 =? nparts)%nat
          then Some (Err (ErrMustBeLast part))
          else
            let domain :=
              if HasPrefix part "redirect:" then TrimPrefix part "redirect:"
              else TrimPrefix part "include:" in
            match dnsres with
            | None => continue (acc ++ [mkSPFPart text true None domain])%list
            | Some res =>
                match @GetSPF res domain with
                | Ok subRecord =>
                    match parse subRecord with
                    | None => None
                    | Some (Ok sub) =>
                        continue
                          (acc ++ [mkSPFPart text true (Some sub) domain])%list
                    | Some (Err err) => Some (Err (ErrInIncluded err))
                    | Some (Panic e) => Some (Panic e)
                    | Some (Fatal f) => Some (Fatal f)
                    end
                | Err err => Some (Err err)
                | Panic e => Some (Panic e)
                | Fatal f => Some (Fatal f)
                end
            end
        else if HasPrefix part "exists:" || HasPrefix part "ptr:"
        then continue (acc ++ [mkSPFPart text true None ""])%list
        else Some (Err (ErrUnsupportedPart part))
  end.

(** [Parse], with the depth of recursion it may use: [None] when a call
    deeper than [depth] would be needed. *)
Fixpoint Parse (depth : nat) (text : string) (dnsres : option Resolver)
  : option (result SPFRecord) :=
  match depth with
  | O => None
  | S depth' =>
      if negb (HasPrefix text "v=spf1 ") then Some (Err ErrNotSPF)
      else
        let parts := Split text " " in
        match parseParts (fun sub => Parse depth' sub dnsres) dnsres
                         (length parts) 0 (tl parts) [] with
        | None => None
        | Some (Ok ps) => Some (Ok (mkSPFRecord ps))
        | Some (Err e) => Some (Err e)
        | Some (Panic e) => Some (Panic e)
        | Some (Fatal f) => Some (Fatal f)
        end
  end.

(** The fields of a part. *)
Definition Text (p : SPFPart) : string :=
  match p with mkSPFPart text _ _ _ => text end.
Definition IsLookup (p : SPFPart) : bool :=
  match p with mkSPFPart _ isLookup _ _ => isLookup end.
Definition IncludeRecord (p : SPFPart) : option SPFRecord :=
  match p with mkSPFPart _ _ includeRecord _ => includeRecord end.
Definition IncludeDomain (p : SPFPart) : string :=
  match p with mkSPFPart _ _ _ includeDomain => includeDomain end.
Definition Parts (s : SPFRecord) : list SPFPart :=
  match s with mkSPFRecord parts => parts end.

(** [Lookups]: [count] is an [int]. *)
Fixpoint Lookups (s : SPFRecord) : Z :=
  match s with
  | mkSPFRecord parts =>
      (fix loop (ps : list SPFPart) (count : Z) {struct ps} : Z :=
         match ps with
         | [] => count
         | mkSPFPart _ isLookup includeRecord _ :: rest =>
             let count := if isLookup then wrapInt (count + 1) else count in
             let count :=
               match includeRecord with
               | Some sub => wrapInt (count + Lookups sub)
               | None => count
               end in
             loop rest count
         end) parts 0
  end.

(** [dump]: what it writes to [w]. *)
Fixpoint dump (rec : SPFRecord) (indent : string) : string :=
  match rec with
  | mkSPFRecord parts =>
      (indent ++ "Total Lookups: " ++ Itoa (Lookups rec) ++ newline)
      ++ (indent ++ "v=spf1")
      ++ String.concat "" (map (fun p => " " ++ Text p) parts)
      ++ newline
      ++ (fix lines (ps : list SPFPart) {struct ps} : string :=
            match ps with
            | [] => ""
            | mkSPFPart text isLookup includeRecord _ :: rest =>
                (if isLookup then (indent ++ tab) ++ text ++ newline else "")
                ++ match includeRecord with
                   | Some sub => dump sub ((indent ++ tab) ++ tab)
                   | None => ""
                   end
                ++ lines rest
            end) parts
  end.

(** [Print]. *)
Definition Print (s : SPFRecord) : string := dump s "".

End Spflib.

(** ** The differ of the specification *)

Module SpecDiff.

#[global] Instance error_eq_dec : EqDecision error.
Proof. solve_decision. Defined.

#[global] Instance fatal_eq_dec : EqDecision fatal.
Proof. solve_decision. Defined.

#[global] Instance result_eq_dec {A : Type} `{EqDecision A} :
  EqDecision (result A).
Proof. solve_decision. Defined.

(** The matching key [(label, type, value)]. *)
Definition sameKey (a b : RecordConfig) : bool :=
  String.eqb (Name a) (Name b) && String.eqb (Type_ a) (Type_ b)
  && String.eqb (Target a) (Target b).

(** The comparable attributes that are not part of the key: the TTL and what
    the provider's comparators report. *)
Definition sameContent
  (extra : list (RecordConfig -> result (option (gmap string string))))
  (a d : RecordConfig) : bool :=
  (TTL a =? TTL d)%Z && forallb (fun f => bool_decide (f a = f d)) extra.

(** The first actual record with the key of [d], and the others. *)
Fixpoint takeMatch (d : RecordConfig) (actual : list RecordConfig)
  : option (RecordConfig * list RecordConfig) :=
  match actual with
  | [] => None
  | a :: rest =>
      if sameKey a d then Some (a, rest)
      else match takeMatch d rest with
           | Some (m, rest') => Some (m, a :: rest')
           | None => None
           end
  end.

(** Exact-value matching of the desired records against the actual ones:
    [(unchanged, create, modify, unmatched actual records)]. *)
Fixpoint matchRecords
  (extra : list (RecordConfig -> result (option (gmap string string))))
  (desired actual : list RecordConfig)
  : Changeset * Changeset * Changeset * list RecordConfig :=
  match desired with
  | [] => ([], [], [], actual)
  | d :: ds =>
      match takeMatch d actual with
      | Some (a, actual') =>
          let '(unchanged, create, modify, rest) :=
            matchRecords extra ds actual' in
          let pair := mkCorrelation (Some a) (Some d) in
          if sameContent extra a d
          then (pair :: unchanged, create, modify, rest)
          else (unchanged, create, pair :: modify, rest)
      | None =>
          let '(unchanged, create, modify, rest) :=
            matchRecords extra ds actual in
          (unchanged, mkCorrelation None (Some d) :: create, modify, rest)
      end
  end.

(** The order of the keys, field by field. *)
Definition keyOf (d : Correlation) : string * string * string :=
  match Desired d, Existing d with
  | Some r, _ => (Name r, Type_ r, Target r)
  | None, Some r => (Name r, Type_ r, Target r)
  | None, None => ("", "", "")
  end.

Definition keyLeb (x y : string * string * string) : bool :=
  let '(l1, t1, v1) := x in
  let '(l2, t2, v2) := y in
  if String.eqb l1 l2 then
    if String.eqb t1 t2 then String.leb v1 v2 else String.leb t1 t2
  else String.leb l1 l2.

Fixpoint insertByKey (d : Correlation) (l : Changeset) : Changeset :=
  match l with
  | [] => [d]
  | e :: rest =>
      if keyLeb (keyOf d) (keyOf e) then d :: l else e :: insertByKey d rest
  end.

Definition sortByKey (l : Changeset) : Changeset :=
  foldr insertByKey [] l.

(** Modelled from the spec: [diff.IncrementalDiff]; package [diff] is not
    part of these sources.  Section 4.2: the desired and the actual records
    are grouped by [(label, type)] and matched on their exact value (here:
    on the key [(label, type, value)]); a matched pair is a modify when its
    TTL or the comparators' values differ, and unchanged otherwise; the
    desired records left are creates, the actual records left are deletes;
    each category is sorted by [(label, type, value)].  The result is
    [(unchanged, create, toDelete, modify)]. *)
Definition IncrementalDiff (dc : DomainConfig)
  (extra : list (RecordConfig -> result (option (gmap string string))))
  (existing : list RecordConfig)
  : Changeset * Changeset * Changeset * Changeset :=
  let '(unchanged, create, modify, rest) :=
    matchRecords extra (Records dc) existing in
  (sortByKey unchanged, sortByKey create,
   sortByKey (map (fun a => mkCorrelation (Some a) None) rest),
   sortByKey modify).

End SpecDiff.

(** ** An instance of the code outside these sources

    Simple stand-ins on which the embedding can be run: the differ of the
    specification, a [PopulateFromString] that knows a handful of record
    types, addresses as their text, and an address table as a list of
    pairs. *)

Module Sample.

Definition knownType (t : string) : bool :=
  existsb (String.eqb t) ["A"; "AAAA"; "CNAME"; "MX"; "NS"; "TXT"; "SRV"; "CAA"].

Definition trimDomainName (s origin : string) : string :=
  if String.eqb s origin then "@"
  else if HasSuffix s ("." ++ origin)
       then String.substring 0 (String.length s - String.length origin - 1) s
       else s.

#[export] Instance externals : Externals := {|
  SetLabel short origin :=
    (short, if String.eqb short "@" then origin else short ++ "." ++ origin);
  SetLabelFromFQDN fqdn origin := (trimDomainName fqdn origin, fqdn);
  PopulateFromString rtype contents origin :=
    if knownType rtype then Ok (rtype, contents)
    else Err (ErrExternal ("unknown rtype " ++ rtype));
  SetTargetMX pref target := Ok ("MX", target);
  SetTargetSRV prio weight port target := Ok ("SRV", target);
  PostProcessRecords records := records;
  Punycode dc := dc;
  IncrementalDiff := SpecDiff.IncrementalDiff;
  CorrelationString d :=
    match Existing d, Desired d with
    | Some ex, None => "DELETE " ++ Type_ ex ++ " " ++ Name ex ++ " " ++ Target ex
    | None, Some de => "CREATE " ++ Type_ de ++ " " ++ Name de ++ " " ++ Target de
    | Some ex, Some de =>
        "MODIFY " ++ Type_ de ++ " " ++ Name de ++ " " ++ Target ex
        ++ " ttl=" ++ Itoa (TTL ex) ++ " -> ttl=" ++ Itoa (TTL de)
    | None, None => ""
    end;
  TrimDomainName := trimDomainName;
  AddOrigin s origin := if HasSuffix s "." then s else s ++ "." ++ origin;
  IP := string;
  IpConversion := (string * string)%type;
  ParseIP s := if String.eqb s "" then None else Some s;
  IPString ip := ip;
  TransformIP ip table :=
    Ok (default ip (snd <$> List.find (fun p => String.eqb (fst p) ip) table));
  NumberInt64 s :=
    match NilEmpty.int_of_string s with
    | Some i => Ok (Z.of_int i)
    | None => Err (ErrExternal "invalid number")
    end;
  deleteRec cf id :=
    mkCorrection ("DELETE record: " ++ cfName cf ++ " " ++ cfType cf ++ " "
                  ++ cfContent cf)
                 (restCall ("deleteRec " ++ cfID cf));
  createRec rec id :=
    [mkCorrection ("CREATE record: " ++ Name rec ++ " " ++ Type_ rec ++ " "
                   ++ Target rec)
                  (restCall ("createRec " ++ id))]
|}.

(** The metadata the stand-in decodes: [null] and the empty object, which
    leave the struct as it is. *)
#[export] Instance accountExternals : AccountExternals := {|
  StringsToNameservers ns := map mkNameserver ns;
  Unmarshal text :=
    if String.eqb text "null" || String.eqb text "{}"
    then inr (mkParsedMeta "" [] false)
    else inl (ErrExternal "invalid character");
  DecodeTransformTable text :=
    inl (ErrExternal "transform table not in the right format")
|}.

End Sample.

(** * The vocabulary of the properties *)

(** ** Outcomes *)

(** The outcomes that return nothing to the caller: a panic, or the exit of
    the process. *)
Definition isAbort {A : Type} (m : result A) : bool :=
  match m with Panic _ | Fatal _ => true | _ => false end.

(** Outcomes that are alike: values related by [R], or the same failure. *)
Definition resultRel {A : Type} (R : A -> A -> Prop) (x y : result A) : Prop :=
  match x, y with
  | Ok a, Ok b => R a b
  | Err e, Err e' => e = e'
  | Panic e, Panic e' => e = e'
  | Fatal f, Fatal f' => f = f'
  | _, _ => False
  end.

(** The value of an outcome, changed by [f]; a failure is kept. *)
Definition mapOk {A B : Type} (f : A -> B) (m : result A) : result B :=
  match m with
  | Ok a => Ok (f a)
  | Err e => Err e
  | Panic e => Panic e
  | Fatal f => Fatal f
  end.

(** ** Plans *)

(** A correction of a lower category is never behind one of a higher
    category: deletes, then creates, then modifies, then the zone. *)
Definition inOrder (cs : list (Category * Correction)) : Prop :=
  forall (i j : nat) (x y : Category * Correction),
    cs !! i = Some x -> cs !! j = Some y ->
    (rank (fst x) < rank (fst y))%nat -> (i < j)%nat.

(** The corrections of the records, and those of the zone. *)
Definition isZone (k : Category) : bool :=
  match k with CatZone => true | _ => false end.

Definition recordLevel (cs : list (Category * Correction))
  : list (Category * Correction) :=
  List.filter (fun x => negb (isZone (fst x))) cs.

Definition zoneLevel (cs : list (Category * Correction))
  : list (Category * Correction) :=
  List.filter (fun x => isZone (fst x)) cs.



(** ** Records *)


(** The same record but for its TTL. *)
Definition sameButTTL (rec rec' : RecordConfig) : Prop :=
  rec' = setTTL (TTL rec') rec.

(** The redirects among some records, and the counter [currentPrPrio] after
    so many of them. *)
Definition countRedirects (recs : list RecordConfig) : nat :=
  length (List.filter (fun rec => Cloudflare.isRedirect (Type_ rec)) recs).

Definition prioAfter (n : nat) : Z :=
  Nat.iter n (fun prio => wrapInt (prio + 1)) 1.

Section Vocabulary.
Context `{EXT : Externals}.

(** The Universal SSL setting a zone is configured with: none when the
    metadata is absent, and otherwise disabled for [off] and enabled for
    [on], in the mixes of upper and lower case that [preprocessConfig]
    accepts. *)
Definition configuredUniversalSSL (dc : DomainConfig) : option bool :=
  let u := getMeta (dcMetadata dc) Cloudflare.metaUniversalSSL in
  if String.eqb u "" then None
  else if String.eqb (ToLower u) "off" then Some false
  else if String.eqb (ToLower u) "on" then Some true
  else None.

(** The correction that sets Universal SSL. *)
Definition universalSSLChange (id : string) (newState : bool) : Correction :=
  mkCorrection
    ("Universal SSL will be " ++ (if newState then "enabled" else "disabled")
     ++ " for this domain.")
    (changeUniversalSSL id newState).

(** An actual record of Cloudflare is ignored when its name, trimmed of the
    zone's, is one of the ignored labels. *)
Definition ignoredActual (c : Cloudflare.CloudflareApi) (dc : DomainConfig)
  (rec : RecordConfig) : bool :=
  match Original_ rec with
  | CfOriginal cf =>
      Cloudflare.labelMatches (TrimDomainName (cfName cf) (dcName dc))
                              (Cloudflare.ignoredLabels c)
  | _ => false
  end.

(** The records whose [Original] is a record of Cloudflare. *)
Definition hasCfOriginal (rec : RecordConfig) : bool :=
  match Original_ rec with CfOriginal _ => true | _ => false end.




End Vocabulary.

Section NormalizerVocabulary.
Context `{EXT : Externals}.
Import Cloudflare.

(** The proxy setting the normalizer gives a record, when it accepts it:
    [off] for the types that cannot be proxied, the zone's default when the
    record has none, and the record's own in lower case. *)
Definition userProxy (defProxy : string) (rec : RecordConfig) : string :=
  if proxiable (Type_ rec) then
    if String.eqb (getMeta (Metadata rec) metaProxy) "" then defProxy
    else ToLower (getMeta (Metadata rec) metaProxy)
  else "off".

(** After the normalizer, a record is proxied when its setting is not
    [off]. *)
Definition proxied (rec : RecordConfig) : Prop :=
  getMeta (Metadata rec) metaProxy <> "off".

(** Before and after the normalizer: the TTLs agree, or the record is
    proxied. *)
Definition retimedInput (defProxy : string) (rec rec' : RecordConfig) : Prop :=
  sameButTTL rec rec' /\ (TTL rec' = TTL rec \/ userProxy defProxy rec <> "off").

Definition retimed (rec rec' : RecordConfig) : Prop :=
  sameButTTL rec rec' /\ (TTL rec' = TTL rec \/ proxied rec).

(** What the first loop makes of a redirect. *)
Definition encoded (prio : Z) (rec : RecordConfig) : RecordConfig :=
  setType "PAGE_RULE"
    (SetTarget (Target rec ++ "," ++ Itoa prio ++ ","
                ++ Itoa (redirectCode (Type_ rec)))
       (putMeta metaProxy "off" (setTTL (normalizeTTL (TTL rec)) rec))).

(** What the normalizer leaves behind on every record. *)
Definition normalizedRecord (rec : RecordConfig) : Prop :=
  normalizeTTL (TTL rec) = TTL rec
  /\ (proxiable (Type_ rec) = true ->
      getMeta (Metadata rec) metaProxy = "on"
      \/ getMeta (Metadata rec) metaProxy = "off"
      \/ getMeta (Metadata rec) metaProxy = "full")
  /\ (proxiable (Type_ rec) = false ->
      getMeta (Metadata rec) metaProxy = "off").

(** The records on which a second run is the identity. *)
Definition stable (rec : RecordConfig) : Prop :=
  proxiable (Type_ rec) = true
  /\ ~ (Type_ rec = "A" /\ getMeta (Metadata rec) metaProxy = "full").

End NormalizerVocabulary.

(** ** The rest of the code *)

(** The value that [getProxyMetadata] gives the differ for a record that is
    proxied or not. *)
Definition proxyValue (b : bool) : gmap string string :=
  {[ "proxy" := if b then "true" else "false" ]}.

(** A string of ASCII bytes. *)
Fixpoint isASCII (s : string) : bool :=
  match s with
  | EmptyString => true
  | String b rest => (nat_of_ascii b <? 128)%nat && isASCII rest
  end.

(** Whether the byte [ch] occurs in [s]. *)
Fixpoint hasByte (ch : ascii) (s : string) : bool :=
  match s with
  | EmptyString => false
  | String b rest => Ascii.eqb b ch || hasByte ch rest
  end.

(** The name of a nameserver: not empty, and without a comma. *)
Definition hostName (s : string) : Prop := s <> "" /\ hasByte "," s = false.

Fixpoint sumZ (l : list Z) : Z :=
  match l with
  | [] => 0
  | x :: rest => x + sumZ rest
  end.

Section SpfVocabulary.
Import Spflib.

(** The mechanism [all], with or without a qualifier, and the address
    mechanisms. *)
Definition isAll (part : string) : bool :=
  String.eqb (stripQualifier part) "all".

Definition isIP (part : string) : bool :=
  HasPrefix (stripQualifier part) "ip4:" || HasPrefix (stripQualifier part) "ip6:".

(** The fields of an SPF text after [v=spf1], the empty ones left out; and
    the fields of a list up to the first [all]. *)
Definition fields (text : string) : list string :=
  List.filter (fun part => negb (String.eqb part "")) (tl (Split text " ")).

Fixpoint upToAll (parts : list string) : list string :=
  match parts with
  | [] => []
  | part :: rest => if isAll part then [part] else part :: upToAll rest
  end.

(** A part whose [IsLookup] is the one of its text. *)
Definition flagged (p : SPFPart) : Prop :=
  IsLookup p = negb (isAll (Text p) || isIP (Text p)).

(** The lookups of one part: its own, and those of the record it
    includes. *)
Definition partLookups (p : SPFPart) : Z :=
  (if IsLookup p then 1 else 0)
  + match IncludeRecord p with
    | Some sub => Lookups sub
    | None => 0
    end.

(** The loop of [Lookups], from a count. *)
Definition lookupsLoop : list SPFPart -> Z -> Z :=
  fix loop (ps : list SPFPart) (count : Z) {struct ps} : Z :=
    match ps with
    | [] => count
    | mkSPFPart _ isLookup includeRecord _ :: rest =>
        let count := if isLookup then wrapInt (count + 1) else count in
        let count :=
          match includeRecord with
          | Some sub => wrapInt (count + Lookups sub)
          | None => count
          end in
        loop rest count
    end.

End SpfVocabulary.

(** ** A sample zone *)

Definition sampleRecord (rtype label target : string) (ttl : Z)
  (metadata : gmap string string) : RecordConfig :=
  mkRecordConfig rtype label
    (if String.eqb label "@" then "example.com" else label ++ ".example.com")
    target ttl metadata NoOriginal.

Definition sampleConversions : list (@IpConversion Sample.externals) :=
  ([("1.2.3.4", "5.6.7.8")] : list (string * string)).

Definition sampleApi (redirects : bool)
  : @Cloudflare.CloudflareApi Sample.externals :=
  Cloudflare.mkCloudflareApi "key" "user" "" ""
    (Some {[ "example.com" := "zone1" ]}) ∅ sampleConversions
    ["ignored"] redirects.

Definition sampleZone (records : list RecordConfig) : DomainConfig :=
  mkDomainConfig "example.com" records ∅.

(** A resolver whose answers include each other. *)
Definition cyclicResolver : Spflib.Resolver := {|
  Spflib.GetSPF domain :=
    if String.eqb domain "a.example" then Ok "v=spf1 include:b.example -all"
    else if String.eqb domain "b.example" then Ok "v=spf1 include:a.example -all"
    else Err (ErrExternal "no such domain")
|}.


Definition sampleOvhWorld (records : list OvhRecord) : Ovh.World :=
  Ovh.mkWorld (fun _ => Ok records).



Definition sampleCf (id rtype name content : string) (ttl : Z)
  (proxied : bool) : cfRecord :=
  mkCfRecord id rtype name content true proxied ttl false "zone1"
             "example.com" None "".

(** The canonical record of a record Cloudflare reports. *)
Definition sampleActual (cf : cfRecord) : RecordConfig :=
  match Cloudflare.nativeToRecord (EXT := Sample.externals) cf "example.com" with
  | Ok rc => rc
  | _ => sampleRecord "" "" "" 0 ∅
  end.

Definition sampleWorld (records : list RecordConfig) : Cloudflare.World :=
  Cloudflare.mkWorld (Err (ErrExternal "no account")) (fun _ _ => Ok records)
                     (fun _ _ => Ok []) (fun _ => Ok true).


(** A zone without records at Cloudflare, with Universal SSL disabled; and
    the zone without records that configures Universal SSL. *)
Definition sslDisabledWorld : Cloudflare.World :=
  Cloudflare.mkWorld (Err (ErrExternal "no account")) (fun _ _ => Ok [])
                     (fun _ _ => Ok []) (fun _ => Ok false).

Definition sslZone (value : string) : DomainConfig :=
  mkDomainConfig "example.com" [] {[ "cloudflare_universalssl" := value ]}.

Definition wwwActual : RecordConfig :=
  sampleActual (sampleCf "r1" "A" "www.example.com" "1.2.3.4" 1 false).
Definition oldActual : RecordConfig :=
  sampleActual (sampleCf "r2" "TXT" "old.example.com" "bye" 120 false).

Definition wwwDesired (ttl : Z) (proxy : string) : RecordConfig :=
  sampleRecord "A" "www" "1.2.3.4" ttl {[ "cloudflare_proxy" := proxy ]}.

Definition redirectZone : DomainConfig :=
  sampleZone [sampleRecord "CF_REDIRECT" "@" "a.example.com/*,https://b/" 1 ∅;
              wwwDesired 300 "on";
              sampleRecord "CF_TEMP_REDIRECT" "@" "c.example.com/*,https://d/"
                           1 ∅].

(** An account with one zone, its credentials, and a registrar. *)
Definition sampleCredentials : gmap string string :=
  {[ "apikey" := "key"; "apiuser" := "user" ]}.

Definition sampleAccount : Cloudflare.Account :=
  Cloudflare.mkAccount
    (inr (Cloudflare.mkDomainList
            {[ "example.com" := "zone1" ]}
            {[ "example.com" := ["amy.ns.cloudflare.com";
                                 "bob.ns.cloudflare.com"] ]}))
    (fun domain => ("new-" ++ domain, None)).

Definition sampleRegistrar (ns : list string) : Ovh.Registrar :=
  Ovh.mkRegistrar (fun _ => inr ns).

(** * Properties *)

(** ** The helpers of [strings] and [fmt] *)

Example HasSuffix_cloudflare :
  HasSuffix "amy.ns.cloudflare.com." ".ns.cloudflare.com." = true
  /\ HasSuffix "ns1.example.com." ".ns.cloudflare.com." = false
  /\ HasSuffix "com." ".ns.cloudflare.com." = false.
Proof. repeat split; reflexivity. Qed.

Example Split_examples :
  Split "a,b" "," = ["a"; "b"]
  /\ Split "" "," = [""]
  /\ Split "a,,b," "," = ["a"; ""; "b"; ""]
  /\ Split "v=spf1 a  -all" " " = ["v=spf1"; "a"; ""; "-all"].
Proof. repeat split; reflexivity. Qed.

Example Itoa_examples :
  Itoa 0 = "0" /\ Itoa 301 = "301" /\ Itoa (-7) = "-7" /\ ToLower "FuLl" = "full".
Proof. repeat split; reflexivity. Qed.

(** ** Outcomes *)

Lemma bind_Ok {A B : Type} (m : result A) (k : A -> result B) (b : B) :
  bind m k = Ok b -> exists a, m = Ok a /\ k a = Ok b.
Proof. destruct m; simpl; intros H; try discriminate; eauto. Qed.

Ltac inv_bind H :=
  let a := fresh "a" in
  let Ha := fresh "H" a in
  apply bind_Ok in H; destruct H as (a & Ha & H).

Lemma mapM_Forall2 {A B : Type} (f : A -> result B) (l : list A) (l' : list B) :
  mapM f l = Ok l' -> Forall2 (fun a b => f a = Ok b) l l'.
Proof.
  revert l'; induction l as [|a l IH]; simpl; intros l' H.
  - injection H as <-. constructor.
  - inv_bind H. inv_bind H. injection H as <-. constructor; auto.
Qed.

(** ** Cloudflare: the normalizer, record by record *)

Section CloudflareNormalizer.
Context `{EXT : Externals}.
Import Cloudflare.

Lemma normalizeTTL_cases (ttl : Z) :
  (ttl = 0 \/ ttl = 300 -> normalizeTTL ttl = 1)
  /\ (ttl <> 0 -> ttl <> 1 -> ttl < 120 -> normalizeTTL ttl = 120)
  /\ (ttl = 1 \/ (120 <= ttl /\ ttl <> 300) -> normalizeTTL ttl = ttl).
Proof.
  unfold normalizeTTL. repeat split.
  - intros [-> | ->]; reflexivity.
  - intros H0 H1 Hlt.
    destruct (Z.eqb_spec ttl 0); [lia|].
    destruct (Z.eqb_spec ttl 300); [lia|]. simpl.
    destruct (Z.eqb_spec ttl 1); [lia|].
    destruct (Z.ltb_spec ttl 120); [reflexivity | lia].
  - intros [-> | [Hge Hne]]; [reflexivity|].
    destruct (Z.eqb_spec ttl 0); [lia|].
    destruct (Z.eqb_spec ttl 300); [lia|]. simpl.
    destruct (Z.eqb_spec ttl 1); [reflexivity|].
    destruct (Z.ltb_spec ttl 120); [lia | reflexivity].
Qed.

Lemma normalizeTTL_idempotent (ttl : Z) :
  normalizeTTL (normalizeTTL ttl) = normalizeTTL ttl.
Proof.
  unfold normalizeTTL.
  destruct (Z.eqb_spec ttl 0) as [->|]; [reflexivity|].
  destruct (Z.eqb_spec ttl 300) as [->|]; [reflexivity|]. simpl.
  destruct (Z.eqb_spec ttl 1) as [->|]; [reflexivity|]. simpl.
  destruct (Z.ltb_spec ttl 120); simpl; [reflexivity|].
  destruct (Z.eqb_spec ttl 0); [lia|].
  destruct (Z.eqb_spec ttl 300); [lia|]. simpl.
  destruct (Z.eqb_spec ttl 1); [lia|].
  destruct (Z.ltb_spec ttl 120); [lia | reflexivity].
Qed.

(** [normalizeProxy] writes the proxy setting and nothing else. *)
Lemma normalizeProxy_Ok (defProxy : string) (rec rec' : RecordConfig) :
  normalizeProxy defProxy rec = Ok rec' ->
  exists v, rec' = putMeta metaProxy v rec
    /\ (proxiable (Type_ rec) = false ->
        v = "off" /\ getMeta (Metadata rec) metaProxy = "")
    /\ (proxiable (Type_ rec) = true ->
        (getMeta (Metadata rec) metaProxy = "" /\ v = defProxy)
        \/ (getMeta (Metadata rec) metaProxy <> ""
            /\ checkProxyVal (getMeta (Metadata rec) metaProxy) = Ok v)).
Proof.
  unfold normalizeProxy. intros H.
  destruct (proxiable (Type_ rec)) eqn:Hp; simpl in H.
  - destruct (String.eqb_spec (getMeta (Metadata rec) metaProxy) "") as [He|Hne].
    + injection H as <-. exists defProxy.
      split; [reflexivity|]. split; [discriminate|]. intros _. left. auto.
    + inv_bind H. injection H as <-. exists a.
      split; [reflexivity|]. split; [discriminate|]. intros _. right. auto.
  - destruct (String.eqb_spec (getMeta (Metadata rec) metaProxy) "") as [He|Hne];
      simpl in H; [|discriminate].
    injection H as <-. exists "off".
    split; [reflexivity|]. split; [auto | discriminate].
Qed.

(** [encodeRedirect] on a record that is no redirect, and on one that is. *)
Lemma encodeRedirect_other (c : CloudflareApi) (prio : Z) (rec : RecordConfig) :
  isRedirect (Type_ rec) = false -> encodeRedirect c prio rec = Ok (rec, prio).
Proof. unfold encodeRedirect. intros ->. reflexivity. Qed.

Lemma encodeRedirect_Ok (c : CloudflareApi) (prio prio' : Z)
  (rec rec' : RecordConfig) :
  isRedirect (Type_ rec) = true ->
  encodeRedirect c prio rec = Ok (rec', prio') ->
  manageRedirects c = true
  /\ length (Split (Target rec) ",") = 2%nat
  /\ rec' = setType "PAGE_RULE"
              (SetTarget (Target rec ++ "," ++ Itoa prio ++ ","
                          ++ Itoa (redirectCode (Type_ rec))) rec)
  /\ prio' = wrapInt (prio + 1).
Proof.
  unfold encodeRedirect, GetTargetField. intros -> H.
  destruct (manageRedirects c); simpl in H; [|discriminate].
  destruct (Nat.eqb_spec (length (Split (Target rec) ",")) 2) as [Hl|Hl];
    simpl in H; [|discriminate].
  injection H as <- <-. auto.
Qed.

Lemma encodeRedirect_frame (c : CloudflareApi) (prio prio' : Z)
  (rec rec' : RecordConfig) :
  encodeRedirect c prio rec = Ok (rec', prio') ->
  TTL rec' = TTL rec /\ Metadata rec' = Metadata rec /\ Name rec' = Name rec
  /\ NameFQDN rec' = NameFQDN rec /\ Original_ rec' = Original_ rec
  /\ proxiable (Type_ rec') = proxiable (Type_ rec).
Proof.
  intros H. destruct (isRedirect (Type_ rec)) eqn:Hr.
  - pose proof Hr as Hr'.
    apply (encodeRedirect_Ok c prio prio' rec rec') in Hr'; [|exact H].
    destruct Hr' as (_ & _ & -> & _). simpl. repeat split.
    unfold isRedirect in Hr. unfold proxiable.
    destruct (String.eqb_spec (Type_ rec) "CF_REDIRECT") as [->|];
      [reflexivity|].
    destruct (String.eqb_spec (Type_ rec) "CF_TEMP_REDIRECT") as [->|];
      [reflexivity | discriminate].
  - rewrite encodeRedirect_other in H by exact Hr. injection H as <- <-.
    repeat split.
Qed.

Lemma transformRecord_frame (c : CloudflareApi) (rec rec' : RecordConfig) :
  transformRecord c rec = Ok rec' ->
  TTL rec' = TTL rec /\ Type_ rec' = Type_ rec /\ Name rec' = Name rec
  /\ NameFQDN rec' = NameFQDN rec /\ Original_ rec' = Original_ rec
  /\ getMeta (Metadata rec') metaProxy = getMeta (Metadata rec) metaProxy
  /\ (Type_ rec <> "A" -> rec' = rec).
Proof.
  unfold transformRecord. intros H.
  destruct (String.eqb_spec (Type_ rec) "A") as [Ha|Ha]; simpl in H.
  - destruct (String.eqb (getMeta (Metadata rec) metaProxy) "full");
      simpl in H.
    + destruct (ParseIP (GetTargetField rec)); [|discriminate].
      inv_bind H. injection H as <-. simpl. repeat split; try congruence.
      unfold getMeta. rewrite lookup_insert_ne; [reflexivity | discriminate].
    + injection H as <-. repeat split.
  - injection H as <-. repeat split.
Qed.

Lemma preprocessRecord_TTL (c : CloudflareApi) (defProxy : string)
  (prio prio' : Z) (rec rec' : RecordConfig) :
  preprocessRecord c defProxy prio rec = Ok (rec', prio') ->
  TTL rec' = normalizeTTL (TTL rec).
Proof.
  unfold preprocessRecord. intros H. inv_bind H.
  apply normalizeProxy_Ok in Ha. destruct Ha as (v & -> & _).
  apply encodeRedirect_frame in H. destruct H as (-> & _). reflexivity.
Qed.

Lemma preprocessRecords_TTL (c : CloudflareApi) (defProxy : string)
  (recs recs' : list RecordConfig) (prio : Z) :
  preprocessRecords c defProxy recs = Ok (recs', prio) ->
  map TTL recs' = map normalizeTTL (map TTL recs).
Proof.
  revert recs' prio. induction recs as [|rec rest IH]; simpl; intros recs' prio H.
  - injection H as <- <-. reflexivity.
  - inv_bind H. destruct a as [rest' p]. inv_bind H. destruct a as [rec' p'].
    injection H as <- <-. simpl.
    erewrite preprocessRecord_TTL by eassumption.
    erewrite IH by eassumption. reflexivity.
Qed.

Lemma mapM_transformRecord_TTL (c : CloudflareApi)
  (recs recs' : list RecordConfig) :
  mapM (transformRecord c) recs = Ok recs' -> map TTL recs' = map TTL recs.
Proof.
  intros H. apply mapM_Forall2 in H.
  induction H as [|a b l l' Hab _ IH]; simpl; [reflexivity|].
  apply transformRecord_frame in Hab. destruct Hab as (-> & _).
  rewrite IH. reflexivity.
Qed.

Lemma preprocessConfig_Ok (c : CloudflareApi) (dc dc' : DomainConfig) :
  preprocessConfig c dc = Ok dc' ->
  exists defProxy recs prio,
    defaultProxy dc = Ok defProxy
    /\ checkUniversalSSLSetting dc = Ok tt
    /\ preprocessRecords c defProxy (Records dc) = Ok (recs, prio)
    /\ mapM (transformRecord c) recs = Ok (Records dc')
    /\ dcName dc' = dcName dc /\ dcMetadata dc' = dcMetadata dc.
Proof.
  unfold preprocessConfig. intros H.
  inv_bind H. inv_bind H. destruct a0. inv_bind H. destruct a0 as [recs prio].
  inv_bind H. injection H as <-. exists a, recs, prio. simpl.
  repeat split; assumption.
Qed.

End CloudflareNormalizer.

(** ** TTL normalization *)

Lemma ovh_nativeToRecord_TTL `{EXT : Externals} (r : OvhRecord)
  (origin : string) (rec : RecordConfig) :
  Ovh.nativeToRecord r origin = Ok (Some rec) ->
  TTL rec = if (wrapUint32 (ovhTTL r) =? 0)%Z then 3600
            else wrapUint32 (ovhTTL r).
Proof.
  unfold Ovh.nativeToRecord. intros H.
  destruct (String.eqb (FieldType r) "SOA"); [discriminate|].
  destruct (PopulateFromString _ _ _) as [ct| | |]; try discriminate.
  injection H as <-. simpl.
  destruct (wrapUint32 (ovhTTL r) =? 0)%Z; reflexivity.
Qed.

(** C2.  In Cloudflare's normalizer a TTL of 0 or 300 becomes 1 and any
    other TTL below 120, 1 excepted, becomes 120; when [preprocessConfig]
    succeeds, the TTL of every desired record is [normalizeTTL] of the TTL
    it had, a function of that TTL alone.  In OVH's conversion of an actual
    record, the TTL is a function of the native TTL alone, and a native
    TTL of 0 becomes 3600. *)
Theorem C2_ttl_normalization `{EXT : Externals} :
  (forall ttl : Z,
      (ttl = 0 \/ ttl = 300 -> Cloudflare.normalizeTTL ttl = 1)
      /\ (ttl <> 0 -> ttl <> 1 -> ttl < 120 ->
          Cloudflare.normalizeTTL ttl = 120))
  /\ (forall (c : Cloudflare.CloudflareApi) (dc dc' : DomainConfig),
         Cloudflare.preprocessConfig c dc = Ok dc' ->
         map TTL (Records dc')
         = map Cloudflare.normalizeTTL (map TTL (Records dc)))
  /\ (forall (r : OvhRecord) (origin : string) (rec : RecordConfig),
         Ovh.nativeToRecord r origin = Ok (Some rec) ->
         TTL rec = (if (wrapUint32 (ovhTTL r) =? 0)%Z then 3600
                    else wrapUint32 (ovhTTL r))
         /\ (ovhTTL r = 0 -> TTL rec = 3600)).
Proof.
  split; [|split].
  - intros ttl. destruct (normalizeTTL_cases ttl) as (H1 & H2 & _). auto.
  - intros c dc dc' H.
    apply preprocessConfig_Ok in H.
    destruct H as (defProxy & recs & prio & _ & _ & Hrecs & Htr & _).
    rewrite (mapM_transformRecord_TTL _ _ _ Htr).
    exact (preprocessRecords_TTL _ _ _ _ _ Hrecs).
  - intros r origin rec H. pose proof (ovh_nativeToRecord_TTL _ _ _ H) as Httl.
    split; [exact Httl|]. intros H0. rewrite Httl, H0. reflexivity.
Qed.

Lemma C2_ttl_normalization_witness :
  Cloudflare.normalizeTTL 300 = 1
  /\ Cloudflare.normalizeTTL 60 = 120
  /\ (exists dc',
         Cloudflare.preprocessConfig (sampleApi false)
           (sampleZone [sampleRecord "A" "www" "1.2.3.4" 300 ∅;
                        sampleRecord "TXT" "t" "hello" 60 ∅]) = Ok dc'
         /\ map TTL (Records dc') = [1; 120])
  /\ (exists rec,
         Ovh.nativeToRecord (EXT := Sample.externals)
           (mkOvhRecord 7 "A" "www" "1.2.3.4" 0) "example.com" = Ok (Some rec)
         /\ TTL rec = 3600).
Proof.
  destruct (C2_ttl_normalization (EXT := Sample.externals)) as (H1 & H2 & H3).
  split; [apply (H1 300); right; reflexivity|].
  split; [apply (H1 60); lia|].
  split.
  - assert (E : exists dc',
               Cloudflare.preprocessConfig (sampleApi false)
                 (sampleZone [sampleRecord "A" "www" "1.2.3.4" 300 ∅;
                              sampleRecord "TXT" "t" "hello" 60 ∅]) = Ok dc')
      by (eexists; vm_compute; reflexivity).
    destruct E as [dc' E]. exists dc'. split; [exact E|].
    rewrite (H2 _ _ _ E). reflexivity.
  - assert (E : exists rec,
               Ovh.nativeToRecord (EXT := Sample.externals)
                 (mkOvhRecord 7 "A" "www" "1.2.3.4" 0) "example.com"
               = Ok (Some rec))
      by (eexists; vm_compute; reflexivity).
    destruct E as [rec E]. exists rec. split; [exact E|].
    apply (H3 _ _ _ E). reflexivity.
Defined.

(** ** The apex NS records *)

Lemma checkNSLoop_spec (dc : DomainConfig) (recs : list RecordConfig) :
  Cloudflare.checkNSLoop dc recs
  = (List.filter (fun rec => negb (Cloudflare.isApexNS dc rec)) recs,
     map GetTargetField
       (List.filter
          (fun rec => Cloudflare.isApexNS dc rec
                      && negb (HasSuffix (GetTargetField rec)
                                         ".ns.cloudflare.com."))
          recs)).
Proof.
  induction recs as [|rec rest IH]; simpl; [reflexivity|].
  rewrite IH. destruct (Cloudflare.isApexNS dc rec); simpl; [|reflexivity].
  destruct (HasSuffix (GetTargetField rec) ".ns.cloudflare.com."); reflexivity.
Qed.

Lemma checkNSModifications_Records (dc : DomainConfig) :
  Records (fst (Cloudflare.checkNSModifications dc))
  = List.filter (fun rec => negb (Cloudflare.isApexNS dc rec)) (Records dc).
Proof.
  unfold Cloudflare.checkNSModifications. rewrite checkNSLoop_spec. reflexivity.
Qed.

(** C3, as the code has it.  [checkNSModifications] removes every NS record
    at the zone apex, whatever its target, and keeps every other record, in
    order; the warning is printed for exactly the apex NS records whose
    target does not end in [.ns.cloudflare.com.]. *)
Theorem C3_apex_ns_all_dropped (dc : DomainConfig) :
  Records (fst (Cloudflare.checkNSModifications dc))
  = List.filter (fun rec => negb (Cloudflare.isApexNS dc rec)) (Records dc)
  /\ snd (Cloudflare.checkNSModifications dc)
     = map GetTargetField
         (List.filter
            (fun rec => Cloudflare.isApexNS dc rec
                        && negb (HasSuffix (GetTargetField rec)
                                           ".ns.cloudflare.com."))
            (Records dc))
  /\ (forall rec : RecordConfig,
         In rec (Records (fst (Cloudflare.checkNSModifications dc)))
         <-> In rec (Records dc) /\ Cloudflare.isApexNS dc rec = false).
Proof.
  unfold Cloudflare.checkNSModifications.
  rewrite checkNSLoop_spec. simpl. split; [reflexivity|]. split; [reflexivity|].
  intros rec. rewrite filter_In.
  destruct (Cloudflare.isApexNS dc rec); simpl; intuition congruence.
Qed.

(** C3 as stated fails: an apex NS record whose target ends in
    [.ns.cloudflare.com.] is removed as well. *)
Lemma C3_cloudflare_apex_ns_removed :
  let rec := sampleRecord "NS" "@" "amy.ns.cloudflare.com." 3600 ∅ in
  let dc := sampleZone [rec; sampleRecord "A" "www" "1.2.3.4" 1 ∅] in
  Cloudflare.isApexNS dc rec = true
  /\ HasSuffix (GetTargetField rec) ".ns.cloudflare.com." = true
  /\ In rec (Records dc)
  /\ ~ In rec (Records (fst (Cloudflare.checkNSModifications dc)))
  /\ snd (Cloudflare.checkNSModifications dc) = [].
Proof.
  simpl. split; [reflexivity|]. split; [reflexivity|]. split; [left; reflexivity|].
  split; [|reflexivity].
  vm_compute. intros [H|[]]. discriminate H.
Qed.

(** ** The SPF parser: depth of recursion *)

(** More depth never changes an answer that was reached. *)
Lemma parseParts_mono (parse1 parse2 : string -> option (result Spflib.SPFRecord))
  (dnsres : option Spflib.Resolver) (nparts : nat) :
  (forall sub y, parse1 sub = Some y -> parse2 sub = Some y) ->
  forall (parts : list string) (pi : nat) (acc : list Spflib.SPFPart) z,
    Spflib.parseParts parse1 dnsres nparts pi parts acc = Some z ->
    Spflib.parseParts parse2 dnsres nparts pi parts acc = Some z.
Proof.
  intros Hp parts. induction parts as [|text rest IH]; intros pi acc z; simpl;
    [auto|].
  repeat match goal with
         | |- context [if ?b then _ else _] => destruct b; auto
         end;
    (destruct dnsres as [res|]; auto;
     destruct (Spflib.GetSPF _) as [subRecord| | |]; auto;
     destruct (parse1 subRecord) as [y|] eqn:E; [|discriminate];
     rewrite (Hp _ _ E); destruct y; auto).
Qed.

Lemma Parse_depth_mono (dnsres : option Spflib.Resolver) (depth : nat) :
  forall (text : string) y,
    Spflib.Parse depth text dnsres = Some y ->
    Spflib.Parse (S depth) text dnsres = Some y.
Proof.
  induction depth as [|depth IH]; intros text y H; [discriminate|].
  change (Spflib.Parse (S (S depth)) text dnsres)
    with (if negb (HasPrefix text "v=spf1 ") then Some (Err ErrNotSPF)
          else
            match Spflib.parseParts
                    (fun sub => Spflib.Parse (S depth) sub dnsres) dnsres
                    (length (Split text " ")) 0 (tl (Split text " ")) [] with
            | None => None
            | Some (Ok ps) => Some (Ok (Spflib.mkSPFRecord ps))
            | Some (Err e) => Some (Err e)
            | Some (Panic e) => Some (Panic e)
            | Some (Fatal f) => Some (Fatal f)
            end).
  simpl in H.
  destruct (negb (HasPrefix text "v=spf1 ")); [exact H|].
  destruct (Spflib.parseParts (fun sub => Spflib.Parse depth sub dnsres) _ _ _ _ _)
    as [z|] eqn:E; [|discriminate].
  erewrite parseParts_mono; [exact H | | exact E].
  intros sub y' Hy'. apply IH. exact Hy'.
Qed.

Lemma Parse_cycle_diverges (depth : nat) :
  Spflib.Parse depth "v=spf1 include:a.example -all" (Some cyclicResolver) = None
  /\ Spflib.Parse depth "v=spf1 include:b.example -all" (Some cyclicResolver)
     = None.
Proof.
  induction depth as [|depth [IHa IHb]]; [split; reflexivity|].
  split; simpl; [rewrite IHb | rewrite IHa]; reflexivity.
Qed.

(** C9.  [Parse] has no guard on the depth of its recursion: there is a
    resolver whose answers include each other in a cycle, and on it the
    recursion of [Parse] is not finished at any depth. *)
Theorem C9_Parse_unbounded_recursion :
  exists (dnsres : Spflib.Resolver) (text : string),
    @Spflib.GetSPF dnsres "a.example" = Ok "v=spf1 include:b.example -all"
    /\ @Spflib.GetSPF dnsres "b.example" = Ok text
    /\ text = "v=spf1 include:a.example -all"
    /\ forall depth : nat, Spflib.Parse depth text (Some dnsres) = None.
Proof.
  exists cyclicResolver, "v=spf1 include:a.example -all".
  repeat split. intros depth. apply Parse_cycle_diverges.
Qed.

(** Without a resolver, and on answers that do not include each other, the
    same texts are parsed at once. *)
Example Parse_terminates_without_resolver :
  Spflib.Parse 1 "v=spf1 include:a.example -all" None
  = Some (Ok (Spflib.mkSPFRecord
                [Spflib.mkSPFPart "include:a.example" true None "a.example";
                 Spflib.mkSPFPart "-all" false None ""])).
Proof. reflexivity. Qed.

(** ** The shape of a plan *)




Lemma inOrder_nil : inOrder [].
Proof. intros i j x y Hi. rewrite lookup_nil in Hi. discriminate. Qed.

Lemma inOrder_singleton (x : Category * Correction) : inOrder [x].
Proof.
  intros i j a b Hi Hj Hlt.
  apply list_lookup_singleton_Some in Hi, Hj.
  destruct Hi as [_ <-], Hj as [_ <-]. lia.
Qed.


Lemma recordLevel_tagged (k : Category) (l : list Correction) :
  isZone k = false -> recordLevel (tagged k l) = tagged k l.
Proof.
  intros Hk. unfold recordLevel, tagged.
  induction l as [|c l IH]; simpl; [reflexivity|]. rewrite Hk, IH. reflexivity.
Qed.

Lemma zoneLevel_tagged (k : Category) (l : list Correction) :
  isZone k = false -> zoneLevel (tagged k l) = [].
Proof.
  intros Hk. unfold zoneLevel, tagged.
  induction l as [|c l IH]; simpl; [reflexivity|]. rewrite Hk, IH. reflexivity.
Qed.

Lemma recordLevel_plan (dels creates mods : list Correction)
  (zone : list (Category * Correction)) :
  (forall z, In z zone -> fst z = CatZone) ->
  recordLevel (tagged CatDelete dels ++ tagged CatCreate creates
               ++ tagged CatModify mods ++ zone)
  = (tagged CatDelete dels ++ tagged CatCreate creates
     ++ tagged CatModify mods)%list
  /\ zoneLevel (tagged CatDelete dels ++ tagged CatCreate creates
                ++ tagged CatModify mods ++ zone) = zone.
Proof.
  intros Hzone. unfold recordLevel, zoneLevel.
  rewrite !List.filter_app.
  fold (recordLevel (tagged CatDelete dels)) (zoneLevel (tagged CatDelete dels))
       (recordLevel (tagged CatCreate creates))
       (zoneLevel (tagged CatCreate creates))
       (recordLevel (tagged CatModify mods)) (zoneLevel (tagged CatModify mods)).
  rewrite !recordLevel_tagged, !zoneLevel_tagged by reflexivity.
  assert (Hz : List.filter (fun x => negb (isZone (fst x))) zone = []
               /\ List.filter (fun x => isZone (fst x)) zone = zone).
  { induction zone as [|z zone IH]; simpl; [auto|].
    rewrite (Hzone z) by (left; reflexivity). simpl.
    destruct IH as [-> ->]; [|auto]. intros z' Hz'. apply Hzone. right; exact Hz'. }
  destruct Hz as [-> ->]. simpl. rewrite !app_nil_r. auto.
Qed.

Section Plans.
Context `{EXT : Externals}.

Lemma universalSSLCorrection_Ok (w : Cloudflare.World) (dc : DomainConfig)
  (id : string) (ssl : list (Category * Correction)) :
  Cloudflare.universalSSLCorrection w dc id = Ok ssl ->
  ssl = [] \/ exists newState, ssl = [(CatZone, universalSSLChange id newState)].
Proof.
  unfold Cloudflare.universalSSLCorrection.
  destruct (Cloudflare.checkUniversalSSL w dc id) as [[[] newState]| | |];
    intros H; try discriminate; injection H as <-; eauto.
Qed.

(** The correction for a value written [on] or [off], or for none: it is
    made when the zone's setting was received and is not the configured one,
    and it sets the configured one. *)
Lemma universalSSLCorrection_as_configured (w : Cloudflare.World)
  (dc : DomainConfig) (id : string) :
  getMeta (dcMetadata dc) Cloudflare.metaUniversalSSL = ""
  \/ getMeta (dcMetadata dc) Cloudflare.metaUniversalSSL = "on"
  \/ getMeta (dcMetadata dc) Cloudflare.metaUniversalSSL = "off" ->
  forall ssl, Cloudflare.universalSSLCorrection w dc id = Ok ssl ->
    (exists expected actual,
        configuredUniversalSSL dc = Some expected
        /\ Cloudflare.getUniversalSSL w id = Ok actual
        /\ actual <> expected
        /\ ssl = [(CatZone, universalSSLChange id expected)])
    \/ (ssl = []
        /\ (configuredUniversalSSL dc = None
            \/ (exists e, Cloudflare.getUniversalSSL w id = Err e)
            \/ exists expected,
                 configuredUniversalSSL dc = Some expected
                 /\ Cloudflare.getUniversalSSL w id = Ok expected)).
Proof.
  unfold Cloudflare.universalSSLCorrection, Cloudflare.checkUniversalSSL,
    configuredUniversalSSL.
  intros [-> | [-> | ->]] ssl; simpl.
  - intros H. injection H as <-. right. auto.
  - destruct (Cloudflare.getUniversalSSL w id) as [[]|e|e|f]; simpl;
      intros H; try discriminate; injection H as <-.
    + right. split; [reflexivity|]. right. right. exists true. auto.
    + left. exists true, false. repeat split. discriminate.
    + right. split; [reflexivity|]. right. left. eauto.
  - destruct (Cloudflare.getUniversalSSL w id) as [[]|e|e|f]; simpl;
      intros H; try discriminate; injection H as <-.
    + left. exists false, true. repeat split. discriminate.
    + right. split; [reflexivity|]. right. right. exists false. auto.
    + right. split; [reflexivity|]. right. left. eauto.
Qed.

(** The correction for [off] in another writing, on a zone whose setting is
    disabled: the value is compared with [off] as it is written. *)
Lemma universalSSLCorrection_other_case (w : Cloudflare.World)
  (dc : DomainConfig) (id : string) :
  configuredUniversalSSL dc = Some false ->
  getMeta (dcMetadata dc) Cloudflare.metaUniversalSSL <> "off" ->
  Cloudflare.getUniversalSSL w id = Ok false ->
  Cloudflare.universalSSLCorrection w dc id
  = Ok [(CatZone, universalSSLChange id true)].
Proof.
  unfold Cloudflare.universalSSLCorrection, Cloudflare.checkUniversalSSL,
    configuredUniversalSSL.
  intros Hc Hne ->.
  destruct (String.eqb (getMeta (dcMetadata dc) Cloudflare.metaUniversalSSL) "");
    [discriminate|].
  destruct (String.eqb_spec
              (getMeta (dcMetadata dc) Cloudflare.metaUniversalSSL) "off");
    [contradiction|].
  reflexivity.
Qed.

Lemma cf_planCorrections_Ok (w : Cloudflare.World) (id : string)
  (dc : DomainConfig) (records : list RecordConfig)
  (cs : list (Category * Correction)) :
  Cloudflare.planCorrections w id dc records = Ok cs ->
  exists unchanged create del modify dels creates mods ssl,
    IncrementalDiff dc [Cloudflare.getProxyMetadata] records
    = (unchanged, create, del, modify)
    /\ mapM (Cloudflare.deleteCorrection id) del = Ok dels
    /\ mapM (Cloudflare.createCorrections id) create = Ok creates
    /\ mapM (Cloudflare.modifyCorrection id) modify = Ok mods
    /\ Cloudflare.universalSSLCorrection w dc id = Ok ssl
    /\ cs = (tagged CatDelete dels ++ tagged CatCreate (concat creates)
             ++ tagged CatModify mods ++ ssl)%list.
Proof.
  unfold Cloudflare.planCorrections, Cloudflare.recordCorrections.
  destruct (IncrementalDiff dc _ records) as [[[u create] del] modify].
  intros H. inv_bind H. inv_bind Ha. inv_bind Ha. inv_bind Ha.
  injection Ha as <-. inv_bind H. injection H as <-.
  exists u, create, del, modify, a0, a1, a2, a.
  rewrite <- !app_assoc. repeat split; assumption.
Qed.

Lemma ovh_planCorrections_Ok (dc : DomainConfig) (actual : list RecordConfig)
  (cs : list (Category * Correction)) :
  Ovh.planCorrections dc actual = Ok cs ->
  exists unchanged create delete modify dels mods,
    IncrementalDiff dc [] actual = (unchanged, create, delete, modify)
    /\ mapM (Ovh.deleteCorrection dc) delete = Ok dels
    /\ mapM (Ovh.modifyCorrection dc) modify = Ok mods
    /\ cs = (tagged CatDelete dels
             ++ tagged CatCreate (map (Ovh.createCorrection dc) create)
             ++ tagged CatModify mods
             ++ Ovh.refreshCorrection dc
                  (tagged CatDelete dels
                   ++ tagged CatCreate (map (Ovh.createCorrection dc) create)
                   ++ tagged CatModify mods))%list.
Proof.
  unfold Ovh.planCorrections, Ovh.recordCorrections.
  destruct (IncrementalDiff dc _ actual) as [[[u create] delete] modify].
  intros H. inv_bind H. inv_bind Ha. inv_bind Ha. injection Ha as <-.
  injection H as <-.
  exists u, create, delete, modify, a0, a1.
  rewrite <- !app_assoc. repeat split; assumption.
Qed.

Lemma refreshCorrection_zone (dc : DomainConfig)
  (cs : list (Category * Correction)) :
  forall z, In z (Ovh.refreshCorrection dc cs) -> fst z = CatZone.
Proof.
  unfold Ovh.refreshCorrection. intros z.
  destruct (0 <? length cs)%nat; simpl; [|tauto].
  intros [<-|[]]. reflexivity.
Qed.

Lemma universalSSLCorrection_zone (w : Cloudflare.World) (dc : DomainConfig)
  (id : string) (ssl : list (Category * Correction)) :
  Cloudflare.universalSSLCorrection w dc id = Ok ssl ->
  (forall z, In z ssl -> fst z = CatZone) /\ inOrder ssl.
Proof.
  intros H. apply universalSSLCorrection_Ok in H.
  destruct H as [->|(ns & ->)].
  - split; [|apply inOrder_nil]. intros z [].
  - split; [|apply inOrder_singleton]. intros z [<-|[]]. reflexivity.
Qed.

Lemma diffInputs_metadata (c : Cloudflare.CloudflareApi) (w : Cloudflare.World)
  (dc dc' : DomainConfig) (id : string) (records : list RecordConfig) :
  Cloudflare.diffInputs c w dc = Ok (id, dc', records) ->
  dcMetadata dc' = dcMetadata dc.
Proof.
  unfold Cloudflare.diffInputs, Cloudflare.gatherInputs. intros H.
  inv_bind H. destruct a as [[id0 dcd0] actual]. injection H as _ <- _.
  inv_bind Ha. inv_bind Ha. inv_bind Ha. inv_bind Ha.
  injection Ha as _ <- _.
  apply preprocessConfig_Ok in Ha1.
  destruct Ha1 as (_ & _ & _ & _ & _ & _ & _ & _ & <-).
  unfold Cloudflare.checkNSModifications.
  destruct (Cloudflare.checkNSLoop _ _) as [newList warned]. reflexivity.
Qed.

End Plans.

(** ** Zone-level corrections *)

Lemma cf_categorizedCorrections_Ok `{EXT : Externals}
  (c : Cloudflare.CloudflareApi) (w : Cloudflare.World) (dc : DomainConfig)
  (x : string * DomainConfig * list RecordConfig) :
  Cloudflare.diffInputs c w dc = Ok x ->
  Cloudflare.categorizedCorrections c w dc
  = Cloudflare.planCorrections w (fst (fst x)) (snd (fst x)) (snd x).
Proof.
  unfold Cloudflare.categorizedCorrections. intros ->.
  destruct x as [[id dc'] records]. reflexivity.
Qed.

(** OVH appends the [REFRESH zone] correction exactly when there is a
    record-level correction, after all of them; and a pass whose diff is
    empty returns the empty list. *)
Lemma ovh_zone_level_corrections `{EXT : Externals} :
  (forall (c : Ovh.ovhProvider) (w : Ovh.World) (dc : DomainConfig)
          (cs : list (Category * Correction)),
      Ovh.categorizedCorrections c w dc = Ok cs ->
      cs = (recordLevel cs ++ zoneLevel cs)%list
      /\ ((recordLevel cs <> []
           /\ zoneLevel cs
              = [(CatZone,
                  mkCorrection ("REFRESH zone " ++ dcName (Punycode dc))
                               (refreshZone (dcName (Punycode dc))))])
          \/ (recordLevel cs = [] /\ zoneLevel cs = [])))
  /\ (forall (c : Ovh.ovhProvider) (w : Ovh.World) (dc : DomainConfig)
             (actual : list RecordConfig) (unchanged : Changeset),
         default false (Ovh.zones c !! dcName (Punycode dc)) = true ->
         Ovh.actualRecords w (Punycode dc) = Ok actual ->
         IncrementalDiff (Punycode dc) [] actual = (unchanged, [], [], []) ->
         Ovh.GetDomainCorrections c w dc = Ok []).
Proof.
  split.
  - intros c w dc cs H. unfold Ovh.categorizedCorrections in H.
    destruct (negb (default false (Ovh.zones c !! dcName (Punycode dc))));
      [discriminate|].
    inv_bind H. apply ovh_planCorrections_Ok in H.
    destruct H as (u & create & delete & modify & dels & mods & _ & _ & _ & ->).
    pose proof (refreshCorrection_zone (Punycode dc)
                  (tagged CatDelete dels
                   ++ tagged CatCreate
                        (map (Ovh.createCorrection (Punycode dc)) create)
                   ++ tagged CatModify mods)) as Hz.
    destruct (recordLevel_plan dels
                (map (Ovh.createCorrection (Punycode dc)) create) mods _ Hz)
      as [Hr Hzl].
    rewrite Hr, Hzl. split; [rewrite <- !app_assoc; reflexivity|].
    unfold Ovh.refreshCorrection.
    destruct (tagged CatDelete dels
              ++ tagged CatCreate
                   (map (Ovh.createCorrection (Punycode dc)) create)
              ++ tagged CatModify mods)%list as [|x l]; simpl.
    + right. auto.
    + left. split; [discriminate | reflexivity].
  - intros c w dc actual u Hzone Hact Hdiff.
    unfold Ovh.GetDomainCorrections, Ovh.categorizedCorrections.
    rewrite Hzone. simpl. rewrite Hact. simpl.
    unfold Ovh.planCorrections. rewrite Hdiff. reflexivity.
Qed.

(** Cloudflare appends what [universalSSLCorrection] makes on the
    normalized zone, after the record-level corrections. *)
Lemma cf_zone_level_corrections `{EXT : Externals}
  (c : Cloudflare.CloudflareApi) (w : Cloudflare.World) (dc dc' : DomainConfig)
  (id : string) (records : list RecordConfig)
  (cs : list (Category * Correction)) :
  Cloudflare.diffInputs c w dc = Ok (id, dc', records) ->
  Cloudflare.categorizedCorrections c w dc = Ok cs ->
  cs = (recordLevel cs ++ zoneLevel cs)%list
  /\ Cloudflare.universalSSLCorrection w dc' id = Ok (zoneLevel cs).
Proof.
  intros Hin H.
  rewrite (cf_categorizedCorrections_Ok _ _ _ _ Hin) in H. simpl in H.
  apply cf_planCorrections_Ok in H.
  destruct H as (u & create & del & modify & dels & creates & mods & ssl
                 & _ & _ & _ & _ & Hssl & ->).
  destruct (universalSSLCorrection_zone _ _ _ _ Hssl) as [Hz _].
  destruct (recordLevel_plan dels (concat creates) mods ssl Hz) as [Hr Hzl].
  rewrite Hr, Hzl. split; [rewrite <- !app_assoc; reflexivity | exact Hssl].
Qed.

(** C6 on the code: the Universal SSL correction for a value that is not
    written in lower case.  [preprocessConfig] accepts [on] and [off] in
    any mix of upper and lower case (lines 283-287), but [checkUniversalSSL]
    compares the value as it is written with [off] (line 238), and so takes
    [OFF] for enabled.  On a zone that is configured with Universal SSL
    disabled, whose setting at Cloudflare is disabled and whose diff is
    empty, the pass returns no correction when the value is written [off],
    and the correction that enables Universal SSL when it is written
    otherwise ([OFF], [Off]): a zone-level correction although nothing
    differs. *)
Theorem C6_universal_ssl_written_in_upper_case `{EXT : Externals}
  (c : Cloudflare.CloudflareApi) (w : Cloudflare.World) (dc dc' : DomainConfig)
  (id : string) (records : list RecordConfig) (unchanged : Changeset) :
  Cloudflare.diffInputs c w dc = Ok (id, dc', records) ->
  IncrementalDiff dc' [Cloudflare.getProxyMetadata] records
  = (unchanged, [], [], []) ->
  configuredUniversalSSL dc = Some false ->
  Cloudflare.getUniversalSSL w id = Ok false ->
  (getMeta (dcMetadata dc) Cloudflare.metaUniversalSSL = "off" ->
   Cloudflare.GetDomainCorrections c w dc = Ok [])
  /\ (getMeta (dcMetadata dc) Cloudflare.metaUniversalSSL <> "off" ->
      Cloudflare.GetDomainCorrections c w dc
      = Ok [mkCorrection "Universal SSL will be enabled for this domain."
                         (changeUniversalSSL id true)]).
Proof.
  intros Hin Hdiff Hconf Hssl.
  pose proof (diffInputs_metadata _ _ _ _ _ _ Hin) as Hmeta.
  unfold Cloudflare.GetDomainCorrections.
  rewrite (cf_categorizedCorrections_Ok _ _ _ _ Hin). simpl.
  unfold Cloudflare.planCorrections. rewrite Hdiff. simpl.
  split; intros Hv.
  - unfold Cloudflare.universalSSLCorrection, Cloudflare.checkUniversalSSL.
    rewrite Hmeta, Hv, Hssl. reflexivity.
  - rewrite (universalSSLCorrection_other_case w dc' id).
    + reflexivity.
    + unfold configuredUniversalSSL in *. rewrite Hmeta. exact Hconf.
    + rewrite Hmeta. exact Hv.
    + exact Hssl.
Qed.

(** ** The order of the actual records *)


Section ActualOrder.
Context `{EXT : Externals}.


Lemma dropIgnored_filter (c : Cloudflare.CloudflareApi) (dc : DomainConfig)
  (records : list RecordConfig) :
  forallb hasCfOriginal records = true ->
  Cloudflare.dropIgnored c dc records
  = Ok (List.filter (fun rec => negb (ignoredActual c dc rec)) records).
Proof.
  induction records as [|rec rest IH]; simpl; intros H; [reflexivity|].
  apply andb_prop in H. destruct H as [Hrec Hrest].
  rewrite (IH Hrest). simpl.
  unfold ignoredActual, hasCfOriginal in *.
  destruct (Original_ rec) as [|cf| |]; try discriminate. simpl.
  destruct (Cloudflare.labelMatches _ _); reflexivity.
Qed.







End ActualOrder.

(** ** The plan of a pass *)



(** ** The differ of the specification and the order of the actual records

    The differ of the specification matches a desired record with the first
    actual record of its key, and sorts each category by the key.  When no
    two actual records have the same key, the order of the actual records
    is of no account. *)

Lemma leb_cases (a b : string) :
  String.leb a b = true <-> a = b \/ OrderedTypeEx.String_as_OT.lt a b.
Proof.
  unfold String.leb.
  pose proof (OrderedTypeEx.String_as_OT.cmp_lt a b) as Hlt.
  pose proof (OrderedTypeEx.String_as_OT.cmp_eq a b) as Heq.
  unfold OrderedTypeEx.String_as_OT.cmp in *.
  destruct (String.compare a b); split; intros H; try tauto;
    try discriminate.
  destruct H as [H|H].
  - apply Heq in H. discriminate.
  - apply Hlt in H. discriminate.
Qed.

Lemma leb_trans (a b c : string) :
  String.leb a b = true -> String.leb b c = true -> String.leb a c = true.
Proof.
  rewrite !leb_cases. intros [->|H1] [->|H2]; auto.
  right. eapply OrderedTypeEx.String_as_OT.lt_trans; eauto.
Qed.

Section DifferOrder.
Import SpecDiff.
















End DifferOrder.

(** ** The order of the corrections *)


Section CallOrder.
Context `{EXT : Externals}.






End CallOrder.



(** ** Ignored labels *)

Lemma Forall2_compose {A B C : Type} (P : A -> B -> Prop) (Q : B -> C -> Prop)
  (l1 : list A) (l2 : list B) (l3 : list C) :
  Forall2 P l1 l2 -> Forall2 Q l2 l3 ->
  Forall2 (fun a c => exists b, P a b /\ Q b c) l1 l3.
Proof.
  intros H. revert l3. induction H as [|a b l1 l2 Hab _ IH]; intros l3 HQ.
  - inversion HQ; subst. constructor.
  - inversion HQ as [|? c ? l3' Hbc Hrest]; subst.
    constructor; [eauto | apply IH; exact Hrest].
Qed.

Lemma Forall2_In_left {A B : Type} (R : A -> B -> Prop) (l : list A)
  (l' : list B) (a : A) :
  Forall2 R l l' -> In a l -> exists b, In b l' /\ R a b.
Proof.
  induction 1 as [|x y l l' Hxy _ IH]; simpl; [tauto|].
  intros [->|Hin]; [eauto|]. destruct (IH Hin) as (b & Hb & HR). eauto.
Qed.

Section IgnoredLabels.
Context `{EXT : Externals}.
Import Cloudflare.

Lemma preprocessRecords_Forall2 (c : CloudflareApi) (defProxy : string)
  (recs recs' : list RecordConfig) (prio : Z) :
  preprocessRecords c defProxy recs = Ok (recs', prio) ->
  Forall2 (fun rec rec' =>
             exists p0 p1, preprocessRecord c defProxy p0 rec = Ok (rec', p1))
          recs recs'.
Proof.
  revert recs' prio. induction recs as [|rec rest IH]; simpl;
    intros recs' prio H.
  - injection H as <- <-. constructor.
  - inv_bind H. destruct a as [rest' p]. inv_bind H. destruct a as [rec' p'].
    injection H as <- <-. constructor; eauto.
Qed.

Lemma preprocessRecord_frame (c : CloudflareApi) (defProxy : string)
  (p0 p1 : Z) (rec rec' : RecordConfig) :
  preprocessRecord c defProxy p0 rec = Ok (rec', p1) ->
  Name rec' = Name rec /\ NameFQDN rec' = NameFQDN rec
  /\ Original_ rec' = Original_ rec
  /\ proxiable (Type_ rec') = proxiable (Type_ rec).
Proof.
  unfold preprocessRecord. intros H. inv_bind H.
  apply normalizeProxy_Ok in Ha. destruct Ha as (v & -> & _).
  apply encodeRedirect_frame in H.
  destruct H as (_ & _ & -> & -> & -> & ->). simpl. auto.
Qed.


Lemma forceDesired_cases (c : CloudflareApi) (rec : RecordConfig) :
  (labelMatches (Name rec) (ignoredLabels c) = false
   /\ exists rec', forceDesired c rec = Ok rec' /\ Name rec' = Name rec
                   /\ Metadata rec' = Metadata rec
                   /\ (getMeta (Metadata rec) metaProxy <> "off" ->
                       TTL rec' = 1))
  \/ (labelMatches (Name rec) (ignoredLabels c) = true
      /\ forceDesired c rec
         = Fatal (FatalIgnoredLabel (Name rec) (ignoredLabels c))).
Proof.
  unfold forceDesired, GetLabel.
  set (rec1 := if String.eqb (Type_ rec) "ALIAS" then setType "CNAME" rec
               else rec).
  assert (H1 : Name rec1 = Name rec /\ Metadata rec1 = Metadata rec)
    by (unfold rec1; destruct (String.eqb (Type_ rec) "ALIAS"); auto).
  destruct H1 as [Hn Hm]. rewrite Hm.
  set (rec2 := if negb (String.eqb (getMeta (Metadata rec) metaProxy) "off")
               then setTTL 1 rec1 else rec1).
  assert (H2 : Name rec2 = Name rec /\ Metadata rec2 = Metadata rec
               /\ (getMeta (Metadata rec) metaProxy <> "off" -> TTL rec2 = 1)).
  { unfold rec2.
    destruct (String.eqb_spec (getMeta (Metadata rec) metaProxy) "off");
      simpl; repeat split; auto; contradiction. }
  destruct H2 as (Hn2 & Hm2 & Httl). rewrite Hn2.
  destruct (labelMatches (Name rec) (ignoredLabels c)); [right | left]; eauto 10.
Qed.





End IgnoredLabels.



(** ** Proxied records and their TTL *)

Lemma resultRel_bind {A B : Type} (R : A -> A -> Prop) (S : B -> B -> Prop)
  (m m' : result A) (k k' : A -> result B) :
  resultRel R m m' ->
  (forall a a', R a a' -> resultRel S (k a) (k' a')) ->
  resultRel S (bind m k) (bind m' k').
Proof. destruct m, m'; simpl; intros H Hk; auto; contradiction. Qed.

Lemma resultRel_mapM {A B : Type} (R : A -> A -> Prop) (S : B -> B -> Prop)
  (f : A -> result B) (l l' : list A) :
  (forall a a', R a a' -> resultRel S (f a) (f a')) ->
  Forall2 R l l' -> resultRel (Forall2 S) (mapM f l) (mapM f l').
Proof.
  intros Hf. induction 1 as [|a a' l l' Ha _ IH]; simpl; [constructor|].
  eapply resultRel_bind; [apply Hf; exact Ha|]. intros b b' Hb.
  eapply resultRel_bind; [exact IH|]. intros bs bs' Hbs. simpl.
  constructor; assumption.
Qed.

Section ProxiedTTL.
Context `{EXT : Externals}.
Import Cloudflare.

Lemma getMeta_putMeta (key v : string) (rec : RecordConfig) :
  getMeta (Metadata (putMeta key v rec)) key = v.
Proof. unfold getMeta. simpl. rewrite lookup_insert_eq. reflexivity. Qed.

Lemma checkProxyVal_Ok (v v' : string) :
  checkProxyVal v = Ok v' ->
  v' = ToLower v /\ (v' = "on" \/ v' = "off" \/ v' = "full").
Proof.
  unfold checkProxyVal.
  destruct (String.eqb_spec (ToLower v) "on") as [->|];
    [intros H; injection H as <-; auto|].
  destruct (String.eqb_spec (ToLower v) "off") as [->|];
    [intros H; injection H as <-; auto|].
  destruct (String.eqb_spec (ToLower v) "full") as [->|];
    [intros H; injection H as <-; auto|].
  discriminate.
Qed.

Lemma preprocessRecord_proxy (c : CloudflareApi) (defProxy : string)
  (p0 p1 : Z) (rec rec' : RecordConfig) :
  preprocessRecord c defProxy p0 rec = Ok (rec', p1) ->
  getMeta (Metadata rec') metaProxy = userProxy defProxy rec.
Proof.
  unfold preprocessRecord. intros H. inv_bind H.
  apply encodeRedirect_frame in H. destruct H as (_ & -> & _).
  apply normalizeProxy_Ok in Ha. simpl in Ha.
  destruct Ha as (v & -> & Hno & Hyes). rewrite getMeta_putMeta.
  unfold userProxy. destruct (proxiable (Type_ rec)).
  - destruct (Hyes eq_refl) as [[-> ->]|[Hne Hv]]; [reflexivity|].
    apply String.eqb_neq in Hne. simpl in Hne. rewrite Hne.
    apply checkProxyVal_Ok in Hv. tauto.
  - destruct (Hno eq_refl) as [-> _]. reflexivity.
Qed.

Lemma preprocessRecord_setTTL (c : CloudflareApi) (defProxy : string)
  (p0 ttl : Z) (rec : RecordConfig) :
  preprocessRecord c defProxy p0 (setTTL ttl rec)
  = mapOk (fun x => (setTTL (normalizeTTL ttl) (fst x), snd x))
          (preprocessRecord c defProxy p0 rec).
Proof.
  unfold preprocessRecord, normalizeProxy, encodeRedirect. simpl.
  destruct (proxiable (Type_ rec)); simpl;
    destruct (String.eqb (getMeta (Metadata rec) metaProxy) ""); simpl;
    try reflexivity;
    try (destruct (checkProxyVal _); simpl; try reflexivity);
    destruct (isRedirect (Type_ rec)); simpl; try reflexivity;
    destruct (manageRedirects c); simpl; try reflexivity;
    destruct (length (Split (Target rec) ",") =? 2)%nat; reflexivity.
Qed.

Lemma transformRecord_setTTL (c : CloudflareApi) (ttl : Z)
  (rec : RecordConfig) :
  transformRecord c (setTTL ttl rec) = mapOk (setTTL ttl) (transformRecord c rec).
Proof.
  unfold transformRecord, GetTargetField. simpl.
  destruct (String.eqb (Type_ rec) "A"); simpl; [|reflexivity].
  destruct (String.eqb (getMeta (Metadata rec) metaProxy) "full"); simpl;
    [|reflexivity].
  destruct (ParseIP (Target rec)); [|reflexivity].
  destruct (TransformIP _ _); reflexivity.
Qed.

Lemma setTTL_same (rec : RecordConfig) : setTTL (TTL rec) rec = rec.
Proof. destruct rec; reflexivity. Qed.

Lemma preprocessRecord_retimed (c : CloudflareApi) (defProxy : string)
  (p0 : Z) (rec rec' : RecordConfig) :
  retimedInput defProxy rec rec' ->
  resultRel (fun x y => retimed (fst x) (fst y) /\ snd x = snd y)
            (preprocessRecord c defProxy p0 rec)
            (preprocessRecord c defProxy p0 rec').
Proof.
  intros [Hs Hp]. rewrite Hs. rewrite preprocessRecord_setTTL.
  destruct (preprocessRecord c defProxy p0 rec) as [[rec1 p1]| | |] eqn:H;
    simpl; auto.
  split; [|reflexivity]. split; [reflexivity|]. simpl.
  destruct Hp as [->|Hp].
  - left. symmetry. eapply preprocessRecord_TTL; eassumption.
  - right. unfold proxied.
    rewrite (preprocessRecord_proxy _ _ _ _ _ _ H). exact Hp.
Qed.

Lemma preprocessRecords_retimed (c : CloudflareApi) (defProxy : string)
  (recs recs' : list RecordConfig) :
  Forall2 (retimedInput defProxy) recs recs' ->
  resultRel (fun x y => Forall2 retimed (fst x) (fst y) /\ snd x = snd y)
            (preprocessRecords c defProxy recs)
            (preprocessRecords c defProxy recs').
Proof.
  induction 1 as [|rec rec' rest rest' Hrec _ IH]; simpl; [auto|].
  eapply resultRel_bind; [exact IH|].
  intros [l p] [l' p'] [Hl Hpp]. simpl in Hl, Hpp. subst p'.
  eapply resultRel_bind; [apply preprocessRecord_retimed; exact Hrec|].
  intros [r q] [r' q'] [Hr Hq]. simpl in *. auto.
Qed.

Lemma transformRecord_retimed (c : CloudflareApi) (rec rec' : RecordConfig) :
  retimed rec rec' ->
  resultRel retimed (transformRecord c rec) (transformRecord c rec').
Proof.
  intros [Hs Hp]. rewrite Hs. rewrite transformRecord_setTTL.
  destruct (transformRecord c rec) as [rec1| | |] eqn:H; simpl; auto.
  apply transformRecord_frame in H. destruct H as (Httl & _ & _ & _ & _ & Hm & _).
  split; [reflexivity|]. simpl. rewrite Httl. unfold proxied. rewrite Hm.
  exact Hp.
Qed.

Lemma forceDesired_retimed (c : CloudflareApi) (rec rec' : RecordConfig) :
  retimed rec rec' -> forceDesired c rec' = forceDesired c rec.
Proof.
  intros [Hs Hp]. rewrite Hs. destruct Hp as [->|Hp].
  - rewrite setTTL_same. reflexivity.
  - unfold proxied in Hp. apply String.eqb_neq in Hp.
    unfold forceDesired. simpl.
    destruct (String.eqb (Type_ rec) "ALIAS"); simpl; rewrite Hp; reflexivity.
Qed.

Lemma mapM_forceDesired_retimed (c : CloudflareApi)
  (recs recs' : list RecordConfig) :
  Forall2 retimed recs recs' ->
  mapM (forceDesired c) recs' = mapM (forceDesired c) recs.
Proof.
  induction 1 as [|rec rec' rest rest' Hrec _ IH]; simpl; [reflexivity|].
  rewrite (forceDesired_retimed _ _ _ Hrec), IH. reflexivity.
Qed.

Lemma fetchActual_name (c : CloudflareApi) (w : World) (dc dc' : DomainConfig)
  (id : string) :
  dcName dc' = dcName dc -> fetchActual c w dc' id = fetchActual c w dc id.
Proof.
  intros Hn. unfold fetchActual. rewrite Hn.
  assert (Hd : forall records, dropIgnored c dc' records
                               = dropIgnored c dc records).
  { induction records as [|rec rest IH]; simpl; [reflexivity|].
    rewrite IH, Hn. reflexivity. }
  destruct (getRecordsForDomain w id (dcName dc)); simpl; try reflexivity.
  rewrite Hd. reflexivity.
Qed.

Lemma preprocessConfig_retimed (c : CloudflareApi) (dc dc' : DomainConfig)
  (defProxy : string) :
  dcName dc' = dcName dc -> dcMetadata dc' = dcMetadata dc ->
  defaultProxy dc = Ok defProxy ->
  Forall2 (retimedInput defProxy) (Records dc) (Records dc') ->
  resultRel (fun d d' => dcName d' = dcName d /\ dcMetadata d' = dcMetadata d
                         /\ Forall2 retimed (Records d) (Records d'))
            (preprocessConfig c dc) (preprocessConfig c dc').
Proof.
  intros Hn Hm Hdef Hrecs. unfold preprocessConfig.
  assert (Hdef' : defaultProxy dc' = Ok defProxy)
    by (unfold defaultProxy in *; rewrite Hm; exact Hdef).
  assert (Hssl : checkUniversalSSLSetting dc' = checkUniversalSSLSetting dc)
    by (unfold checkUniversalSSLSetting; rewrite Hm; reflexivity).
  rewrite Hdef, Hdef', Hssl. simpl.
  destruct (checkUniversalSSLSetting dc); simpl; auto.
  eapply resultRel_bind; [apply preprocessRecords_retimed; exact Hrecs|].
  intros [l p] [l' p'] [Hl _]. simpl in Hl.
  eapply resultRel_bind;
    [apply (resultRel_mapM retimed retimed);
     [apply transformRecord_retimed | exact Hl]|].
  intros l1 l1' Hl1. simpl. auto.
Qed.

End ProxiedTTL.

(** C10.  Every desired record the differ is given whose proxy setting is
    not [off] has the TTL 1.  The TTL the user gave such a record is of no
    consequence: two configurations that differ only in the TTLs of records
    that are proxied ([on] or [full], by the record's own setting or the
    zone's default) give the same pass, correction by correction. *)
Theorem C10_proxied_ttl_forced `{EXT : Externals} :
  (forall (c : Cloudflare.CloudflareApi) (w : Cloudflare.World)
          (dc dcd : DomainConfig) (id : string)
          (records : list RecordConfig),
      Cloudflare.diffInputs c w dc = Ok (id, dcd, records) ->
      Forall (fun rec =>
                getMeta (Metadata rec) Cloudflare.metaProxy <> "off" ->
                TTL rec = 1)
             (Records dcd))
  /\ (forall (c : Cloudflare.CloudflareApi) (w : Cloudflare.World)
             (dc dc' : DomainConfig) (defProxy : string),
         dcName dc' = dcName dc -> dcMetadata dc' = dcMetadata dc ->
         Cloudflare.defaultProxy dc = Ok defProxy ->
         Forall2 (fun rec rec' =>
                    sameButTTL rec rec'
                    /\ (TTL rec' = TTL rec \/ userProxy defProxy rec <> "off"))
                 (Records dc) (Records dc') ->
         Cloudflare.diffInputs c w dc' = Cloudflare.diffInputs c w dc
         /\ Cloudflare.GetDomainCorrections c w dc'
            = Cloudflare.GetDomainCorrections c w dc).
Proof.
  split.
  - intros c w dc dcd id records H.
    unfold Cloudflare.diffInputs in H. inv_bind H.
    destruct a as [[id0 dcd0] actual]. injection H as <- <- <-.
    unfold Cloudflare.gatherInputs in Ha.
    inv_bind Ha. inv_bind Ha. inv_bind Ha. inv_bind Ha.
    injection Ha as <- <- <-.
    rewrite checkNSModifications_Records. apply List.Forall_forall.
    intros rec Hin.
    apply filter_In in Hin. destruct Hin as [Hin _]. simpl in Hin.
    apply mapM_Forall2 in Ha3.
    assert (Hall : Forall (fun rec =>
                     getMeta (Metadata rec) Cloudflare.metaProxy <> "off" ->
                     TTL rec = 1) a2).
    { clear Hin. induction Ha3 as [|x y l l' Hxy _ IH]; constructor; auto.
      destruct (forceDesired_cases c x) as [(_ & y' & Hy & _ & Hm & Httl)|(_ & Hf)];
        [|congruence].
      rewrite Hxy in Hy. injection Hy as <-. rewrite Hm. exact Httl. }
    rewrite List.Forall_forall in Hall. apply Hall. exact Hin.
  - intros c w dc dc' defProxy Hn Hm Hdef Hrecs.
    assert (Hg : Cloudflare.gatherInputs c w dc'
                 = Cloudflare.gatherInputs c w dc).
    { unfold Cloudflare.gatherInputs. rewrite Hn.
      destruct (Cloudflare.lookupDomain c w (dcName dc)) as [id| | |];
        simpl; try reflexivity.
      pose proof (preprocessConfig_retimed c dc dc' defProxy Hn Hm Hdef Hrecs)
        as Hpre.
      destruct (Cloudflare.preprocessConfig c dc) as [d| | |],
               (Cloudflare.preprocessConfig c dc') as [d'| | |];
        simpl in Hpre; try contradiction; try congruence.
      destruct Hpre as (Hdn & Hdm & Hdr). simpl.
      rewrite (fetchActual_name _ _ _ _ _ Hdn).
      destruct (Cloudflare.fetchActual c w d id); simpl; try reflexivity.
      rewrite (mapM_forceDesired_retimed _ _ _ Hdr).
      destruct (mapM (Cloudflare.forceDesired c) (Records d)); simpl;
        try reflexivity.
      unfold setRecords. rewrite Hdn, Hdm. reflexivity. }
    unfold Cloudflare.GetDomainCorrections, Cloudflare.categorizedCorrections,
      Cloudflare.diffInputs.
    rewrite Hg. auto.
Qed.

(** ** Records that cannot be converted *)

Section Unparsable.
Context `{EXT : Externals}.


Lemma ovh_nativeToRecord_not_Err (r : OvhRecord) (origin : string) (e : error) :
  Ovh.nativeToRecord r origin <> Err e.
Proof.
  unfold Ovh.nativeToRecord.
  destruct (String.eqb (FieldType r) "SOA"); [discriminate|].
  destruct (PopulateFromString _ _ _); discriminate.
Qed.

Lemma toActual_not_Err (records : list OvhRecord) (origin : string) :
  forall e : error, Ovh.toActual records origin <> Err e.
Proof.
  induction records as [|r rest IH]; simpl; intros e; [discriminate|].
  pose proof (ovh_nativeToRecord_not_Err r origin) as Hr.
  destruct (Ovh.nativeToRecord r origin) as [rec|e'| |]; simpl;
    try discriminate; [|exfalso; exact (Hr e' eq_refl)].
  destruct (Ovh.toActual rest origin) as [actual|e'| |]; simpl;
    try discriminate. exfalso; exact (IH e' eq_refl).
Qed.




End Unparsable.




(** ** Redirects *)

Lemma prioAfter_small (n : nat) :
  Z.of_nat n < maxInt -> prioAfter n = 1 + Z.of_nat n.
Proof.
  unfold maxInt. induction n as [|n IH]; intros Hn; [reflexivity|].
  unfold prioAfter in *. simpl Nat.iter. rewrite IH by lia.
  unfold wrapInt. rewrite Z.mod_small by lia. lia.
Qed.

Lemma countRedirects_le (recs : list RecordConfig) :
  (countRedirects recs <= length recs)%nat.
Proof. unfold countRedirects. apply List.filter_length_le. Qed.

Section Redirects.
Context `{EXT : Externals}.
Import Cloudflare.

Lemma isRedirect_not_proxiable (t : string) :
  isRedirect t = true -> proxiable t = false.
Proof.
  unfold isRedirect, proxiable.
  destruct (String.eqb_spec t "CF_REDIRECT") as [->|]; [reflexivity|].
  destruct (String.eqb_spec t "CF_TEMP_REDIRECT") as [->|];
    [reflexivity | discriminate].
Qed.

Lemma preprocessRecord_redirect (c : CloudflareApi) (defProxy : string)
  (prio prio' : Z) (rec rec' : RecordConfig) :
  isRedirect (Type_ rec) = true ->
  preprocessRecord c defProxy prio rec = Ok (rec', prio') ->
  manageRedirects c = true
  /\ length (Split (Target rec) ",") = 2%nat
  /\ rec' = encoded prio rec
  /\ prio' = wrapInt (prio + 1).
Proof.
  intros Hr H. unfold preprocessRecord in H. inv_bind H.
  apply normalizeProxy_Ok in Ha. destruct Ha as (v & -> & Hno & _).
  simpl in Hno. destruct (Hno (isRedirect_not_proxiable _ Hr)) as [-> _].
  apply encodeRedirect_Ok in H; [|exact Hr]. exact H.
Qed.

Lemma preprocessRecord_other (c : CloudflareApi) (defProxy : string)
  (prio prio' : Z) (rec rec' : RecordConfig) :
  isRedirect (Type_ rec) = false ->
  preprocessRecord c defProxy prio rec = Ok (rec', prio') ->
  prio' = prio /\ Type_ rec' = Type_ rec.
Proof.
  intros Hr H. unfold preprocessRecord in H. inv_bind H.
  apply normalizeProxy_Ok in Ha. destruct Ha as (v & -> & _).
  rewrite encodeRedirect_other in H by exact Hr.
  injection H as <- <-. auto.
Qed.

Lemma preprocessRecords_priorities (c : CloudflareApi) (defProxy : string)
  (recs recs' : list RecordConfig) (prio : Z) :
  preprocessRecords c defProxy recs = Ok (recs', prio) ->
  prio = prioAfter (countRedirects recs)
  /\ forall (i : nat) (rec : RecordConfig),
       recs !! i = Some rec -> isRedirect (Type_ rec) = true ->
       manageRedirects c = true
       /\ length (Split (Target rec) ",") = 2%nat
       /\ recs' !! i
          = Some (encoded (prioAfter (countRedirects (drop (S i) recs))) rec).
Proof.
  revert recs' prio. induction recs as [|r rest IH]; simpl;
    intros recs' prio H.
  - injection H as <- <-. split; [reflexivity|]. intros i rec Hi.
    rewrite lookup_nil in Hi. discriminate.
  - inv_bind H. destruct a as [rest' p]. inv_bind H. destruct a as [r' p'].
    injection H as <- <-. destruct (IH _ _ Ha) as [-> IHrest].
    unfold countRedirects in *. simpl.
    destruct (isRedirect (Type_ r)) eqn:Hr.
    + destruct (preprocessRecord_redirect _ _ _ _ _ _ Hr Ha0)
        as (Hm & Hl & -> & ->).
      split; [reflexivity|]. intros [|i] rec Hi Hrec; simpl in *.
      * injection Hi as <-. rewrite drop_0. auto.
      * apply IHrest; assumption.
    + destruct (preprocessRecord_other _ _ _ _ _ _ Hr Ha0) as [-> _].
      split; [reflexivity|]. intros [|i] rec Hi Hrec; simpl in *.
      * injection Hi as <-. congruence.
      * apply IHrest; assumption.
Qed.

Lemma preprocessRecord_Ok_or_Err (c : CloudflareApi) (defProxy : string)
  (prio : Z) (rec : RecordConfig) :
  isAbort (preprocessRecord c defProxy prio rec) = false.
Proof.
  unfold preprocessRecord, normalizeProxy, encodeRedirect, checkProxyVal, bind.
  repeat match goal with
         | |- context [if ?b then _ else _] => destruct b; simpl
         end; reflexivity.
Qed.

Lemma preprocessRecords_Ok_or_Err (c : CloudflareApi) (defProxy : string)
  (recs : list RecordConfig) :
  isAbort (preprocessRecords c defProxy recs) = false.
Proof.
  induction recs as [|rec rest IH]; simpl; [reflexivity|].
  destruct (preprocessRecords c defProxy rest) as [[rest' p]| | |]; simpl in *;
    try discriminate; try reflexivity.
  pose proof (preprocessRecord_Ok_or_Err c defProxy p rec) as H.
  destruct (preprocessRecord c defProxy p rec) as [[r' p']| | |]; simpl in *;
    try discriminate; reflexivity.
Qed.

Lemma defaultProxy_Ok_or_Err (dc : DomainConfig) :
  isAbort (defaultProxy dc) = false.
Proof.
  unfold defaultProxy, checkProxyVal.
  repeat match goal with
         | |- context [if ?b then _ else _] => destruct b; simpl
         end; reflexivity.
Qed.

Lemma checkUniversalSSLSetting_Ok_or_Err (dc : DomainConfig) :
  isAbort (checkUniversalSSLSetting dc) = false.
Proof.
  unfold checkUniversalSSLSetting.
  repeat match goal with
         | |- context [if ?b then _ else _] => destruct b; simpl
         end; reflexivity.
Qed.

Lemma preprocessRecords_bad_redirect (c : CloudflareApi) (defProxy : string)
  (recs : list RecordConfig) (rec : RecordConfig) :
  In rec recs -> isRedirect (Type_ rec) = true ->
  manageRedirects c = false \/ length (Split (Target rec) ",") <> 2%nat ->
  exists e, preprocessRecords c defProxy recs = Err e.
Proof.
  intros Hin Hr Hbad.
  pose proof (preprocessRecords_Ok_or_Err c defProxy recs) as Hab.
  destruct (preprocessRecords c defProxy recs) as [[recs' p]|e| |] eqn:H;
    simpl in Hab; try discriminate; [|eauto].
  exfalso. apply list_elem_of_In, list_elem_of_lookup in Hin.
  destruct Hin as [i Hi].
  destruct (preprocessRecords_priorities _ _ _ _ _ H) as [_ Hall].
  destruct (Hall i rec Hi Hr) as (Hm & Hl & _).
  destruct Hbad; congruence.
Qed.

End Redirects.

(** C5.  When [preprocessConfig] succeeds on a zone whose number of records
    is within Go's [int], redirects are managed, every
    [CF_REDIRECT] and [CF_TEMP_REDIRECT] record has a target of two fields,
    and the record at its place in the result is a [PAGE_RULE] with the
    target [from,to,priority,code]: the code is 301, or 302 for a temporary
    redirect, and the priority is one more than the number of redirects
    declared after the record, so the last redirect has priority 1 and the
    first the highest.  When redirects are not managed or the target of a
    redirect has not two fields, [preprocessConfig] returns an error. *)
Theorem C5_redirect_encoding `{EXT : Externals} :
  (forall (c : Cloudflare.CloudflareApi) (dc dc' : DomainConfig) (i : nat)
          (rec : RecordConfig),
      Z.of_nat (length (Records dc)) <= maxInt ->
      Cloudflare.preprocessConfig c dc = Ok dc' ->
      Records dc !! i = Some rec ->
      Cloudflare.isRedirect (Type_ rec) = true ->
      Cloudflare.manageRedirects c = true
      /\ length (Split (Target rec) ",") = 2%nat
      /\ exists rec' : RecordConfig,
           Records dc' !! i = Some rec'
           /\ Type_ rec' = "PAGE_RULE"
           /\ Target rec'
              = Target rec ++ ","
                ++ Itoa (1 + Z.of_nat
                               (countRedirects (drop (S i) (Records dc))))
                ++ ","
                ++ Itoa (if String.eqb (Type_ rec) "CF_TEMP_REDIRECT"
                         then 302 else 301))
  /\ (forall (c : Cloudflare.CloudflareApi) (dc : DomainConfig)
             (rec : RecordConfig),
         In rec (Records dc) ->
         Cloudflare.isRedirect (Type_ rec) = true ->
         Cloudflare.manageRedirects c = false
         \/ length (Split (Target rec) ",") <> 2%nat ->
         exists e : error, Cloudflare.preprocessConfig c dc = Err e).
Proof.
  split.
  - intros c dc dc' i rec Hlen H Hi Hr.
    apply preprocessConfig_Ok in H.
    destruct H as (defProxy & recs & prio & _ & _ & Hrecs & Htr & _).
    destruct (preprocessRecords_priorities _ _ _ _ _ Hrecs) as [_ Hall].
    destruct (Hall i rec Hi Hr) as (Hm & Hl & Hi').
    split; [exact Hm|]. split; [exact Hl|].
    apply mapM_Forall2 in Htr.
    destruct (Forall2_lookup_l _ _ _ _ _ Htr Hi') as (rec' & Hrec' & Ht).
    apply transformRecord_frame in Ht.
    destruct Ht as (_ & _ & _ & _ & _ & _ & Hsame).
    rewrite Hsame in Hrec' by (simpl; discriminate).
    eexists. split; [exact Hrec'|]. split; [reflexivity|]. simpl.
    rewrite prioAfter_small; [reflexivity|].
    pose proof (countRedirects_le (drop (S i) (Records dc))) as Hc.
    rewrite length_drop in Hc.
    apply lookup_lt_Some in Hi. lia.
  - intros c dc rec Hin Hr Hbad. unfold Cloudflare.preprocessConfig.
    pose proof (defaultProxy_Ok_or_Err dc) as Hd.
    destruct (Cloudflare.defaultProxy dc) as [defProxy|e| |]; simpl in *;
      try discriminate; [|eauto].
    pose proof (checkUniversalSSLSetting_Ok_or_Err dc) as Hu.
    destruct (Cloudflare.checkUniversalSSLSetting dc) as [[]|e| |];
      simpl in *; try discriminate; [|eauto].
    destruct (preprocessRecords_bad_redirect c defProxy _ _ Hin Hr Hbad)
      as [e ->].
    simpl. eauto.
Qed.

(** ** Normalizing twice *)

Section Idempotence.
Context `{EXT : Externals}.
Import Cloudflare.

Lemma defaultProxy_Ok (dc : DomainConfig) (defProxy : string) :
  defaultProxy dc = Ok defProxy ->
  defProxy = "on" \/ defProxy = "off" \/ defProxy = "full".
Proof.
  unfold defaultProxy. destruct (String.eqb _ "").
  - intros H. injection H as <-. auto.
  - intros H. apply checkProxyVal_Ok in H. tauto.
Qed.

Lemma preprocessRecord_normalized (c : CloudflareApi) (defProxy : string)
  (p0 p1 : Z) (rec rec' : RecordConfig) :
  defProxy = "on" \/ defProxy = "off" \/ defProxy = "full" ->
  preprocessRecord c defProxy p0 rec = Ok (rec', p1) ->
  normalizedRecord rec'.
Proof.
  intros Hdef H. unfold normalizedRecord.
  rewrite (preprocessRecord_TTL _ _ _ _ _ _ H), normalizeTTL_idempotent.
  rewrite (preprocessRecord_proxy _ _ _ _ _ _ H).
  destruct (preprocessRecord_frame _ _ _ _ _ _ H) as (_ & _ & _ & ->).
  split; [reflexivity|].
  unfold preprocessRecord in H. inv_bind H.
  apply normalizeProxy_Ok in Ha. simpl in Ha.
  destruct Ha as (v & _ & Hno & Hyes). unfold userProxy.
  destruct (proxiable (Type_ rec)); split; intros Hp; try discriminate;
    [|reflexivity].
  destruct (Hyes eq_refl) as [[-> _]|[Hne Hv]]; [exact Hdef|].
  apply String.eqb_neq in Hne. rewrite Hne.
  apply checkProxyVal_Ok in Hv. destruct Hv as [<- Hv]. exact Hv.
Qed.

Lemma transformRecord_normalized (c : CloudflareApi) (rec rec' : RecordConfig) :
  transformRecord c rec = Ok rec' -> normalizedRecord rec ->
  normalizedRecord rec'.
Proof.
  intros H. apply transformRecord_frame in H.
  destruct H as (Httl & Hty & _ & _ & _ & Hm & _).
  unfold normalizedRecord. rewrite Httl, Hty, Hm. tauto.
Qed.

Lemma preprocessConfig_normalized (c : CloudflareApi) (dc dc' : DomainConfig) :
  preprocessConfig c dc = Ok dc' -> Forall normalizedRecord (Records dc').
Proof.
  intros H. apply preprocessConfig_Ok in H.
  destruct H as (defProxy & recs & prio & Hdef & _ & Hrecs & Htr & _).
  apply defaultProxy_Ok in Hdef.
  apply preprocessRecords_Forall2 in Hrecs. apply mapM_Forall2 in Htr.
  assert (Hmid : Forall normalizedRecord recs).
  { clear Htr. induction Hrecs as [|x y l l' (p0 & p1 & Hxy) _ IH];
      constructor; [|exact IH].
    eapply preprocessRecord_normalized; eassumption. }
  clear Hrecs. induction Htr as [|x y l l' Hxy _ IH]; [constructor|].
  inversion Hmid; subst. constructor; [|apply IH; assumption].
  eapply transformRecord_normalized; eassumption.
Qed.

Lemma getMeta_lookup (m : gmap string string) (key v : string) :
  getMeta m key = v -> v <> "" -> m !! key = Some v.
Proof.
  unfold getMeta. destruct (m !! key); simpl; intros; congruence.
Qed.

Lemma checkProxyVal_fixed (v : string) :
  v = "on" \/ v = "off" \/ v = "full" -> checkProxyVal v = Ok v.
Proof. intros [-> | [-> | ->]]; reflexivity. Qed.

Lemma putMeta_same (key v : string) (rec : RecordConfig) :
  Metadata rec !! key = Some v -> putMeta key v rec = rec.
Proof.
  intros H. unfold putMeta, setMetadata. rewrite (insert_id _ _ _ H).
  destruct rec; reflexivity.
Qed.

Lemma preprocessRecord_stable (c : CloudflareApi) (defProxy : string)
  (prio : Z) (rec : RecordConfig) :
  normalizedRecord rec -> stable rec ->
  preprocessRecord c defProxy prio rec = Ok (rec, prio)
  /\ transformRecord c rec = Ok rec.
Proof.
  intros (Httl & Hyes & _) (Hp & Hfull). specialize (Hyes Hp). split.
  - unfold preprocessRecord. rewrite Httl, setTTL_same.
    unfold normalizeProxy. rewrite Hp. simpl.
    assert (Hne : getMeta (Metadata rec) metaProxy <> "")
      by (destruct Hyes as [-> | [-> | ->]]; discriminate).
    apply String.eqb_neq in Hne. rewrite Hne.
    rewrite (checkProxyVal_fixed _ Hyes). simpl.
    rewrite putMeta_same
      by (apply getMeta_lookup; [reflexivity | apply String.eqb_neq; exact Hne]).
    apply encodeRedirect_other.
    destruct (isRedirect (Type_ rec)) eqn:Hr; [|reflexivity].
    apply isRedirect_not_proxiable in Hr. congruence.
  - unfold transformRecord.
    destruct (String.eqb_spec (Type_ rec) "A") as [Ha|Ha]; simpl;
      [|reflexivity].
    destruct (String.eqb_spec (getMeta (Metadata rec) metaProxy) "full")
      as [Hf|Hf]; simpl; [|reflexivity].
    exfalso. apply Hfull. auto.
Qed.

Lemma preprocessRecords_stable (c : CloudflareApi) (defProxy : string)
  (recs : list RecordConfig) :
  Forall normalizedRecord recs -> Forall stable recs ->
  preprocessRecords c defProxy recs = Ok (recs, 1)
  /\ mapM (transformRecord c) recs = Ok recs.
Proof.
  induction recs as [|rec rest IH]; intros Hn Hs; [auto|].
  inversion Hn as [|? ? Hnrec Hnrest]; subst.
  inversion Hs as [|? ? Hsrec Hsrest]; subst.
  destruct (IH Hnrest Hsrest) as [IH1 IH2].
  destruct (preprocessRecord_stable c defProxy 1 rec Hnrec Hsrec)
    as [Hrec1 Hrec2].
  simpl. rewrite IH1, IH2. simpl. rewrite Hrec1, Hrec2. auto.
Qed.

Lemma preprocessRecords_unproxiable (c : CloudflareApi) (defProxy : string)
  (recs : list RecordConfig) (rec : RecordConfig) :
  In rec recs -> proxiable (Type_ rec) = false ->
  getMeta (Metadata rec) metaProxy = "off" ->
  exists e, preprocessRecords c defProxy recs = Err e.
Proof.
  intros Hin Hp Hoff.
  pose proof (preprocessRecords_Ok_or_Err c defProxy recs) as Hab.
  destruct (preprocessRecords c defProxy recs) as [[recs' p]|e| |] eqn:H;
    simpl in Hab; try discriminate; [|eauto].
  exfalso. apply preprocessRecords_Forall2 in H.
  destruct (Forall2_In_left _ _ _ _ H Hin) as (rec' & _ & p0 & p1 & Hrec).
  unfold preprocessRecord, normalizeProxy in Hrec. simpl in Hrec.
  rewrite Hp, Hoff in Hrec. discriminate.
Qed.

End Idempotence.

(** C4, as the code has it.  When [preprocessConfig] succeeds and its
    result holds only records of the types A, AAAA, CNAME and ALIAS, none
    of them an A record with the proxy setting [full], a second run on the
    result succeeds and gives the result again: types, labels, targets,
    TTLs and metadata are unchanged.  When the result holds a record of
    another type, a page rule made of a redirect included, the second run
    returns an error: the first run has set the proxy setting of such a
    record to [off], and the second run rejects a proxy setting on it. *)
Theorem C4_second_normalization `{EXT : Externals}
  (c : Cloudflare.CloudflareApi) (dc dc' : DomainConfig) :
  Cloudflare.preprocessConfig c dc = Ok dc' ->
  (Forall (fun rec =>
             Cloudflare.proxiable (Type_ rec) = true
             /\ ~ (Type_ rec = "A"
                   /\ getMeta (Metadata rec) Cloudflare.metaProxy = "full"))
          (Records dc') ->
   Cloudflare.preprocessConfig c dc' = Ok dc')
  /\ ((exists rec, In rec (Records dc')
                   /\ Cloudflare.proxiable (Type_ rec) = false) ->
      exists e : error, Cloudflare.preprocessConfig c dc' = Err e).
Proof.
  intros H. pose proof (preprocessConfig_normalized _ _ _ H) as Hnorm.
  apply preprocessConfig_Ok in H.
  destruct H as (defProxy & recs & prio & Hdef & Hssl & _ & _ & Hn & Hm).
  assert (Hdef' : Cloudflare.defaultProxy dc' = Ok defProxy)
    by (unfold Cloudflare.defaultProxy in *; rewrite Hm; exact Hdef).
  assert (Hssl' : Cloudflare.checkUniversalSSLSetting dc' = Ok tt)
    by (unfold Cloudflare.checkUniversalSSLSetting in *; rewrite Hm; exact Hssl).
  unfold Cloudflare.preprocessConfig. rewrite Hdef', Hssl'. simpl. split.
  - intros Hstable.
    destruct (preprocessRecords_stable c defProxy (Records dc') Hnorm Hstable)
      as [-> H2].
    simpl. rewrite H2. simpl. destruct dc'; reflexivity.
  - intros (rec & Hin & Hp).
    rewrite List.Forall_forall in Hnorm.
    destruct (Hnorm rec Hin) as (_ & _ & Hoff).
    destruct (preprocessRecords_unproxiable c defProxy _ _ Hin Hp (Hoff Hp))
      as [e ->].
    simpl. eauto.
Qed.

(** C4 as stated fails: after a first run on a zone with a TXT record, the
    second run returns an error. *)
Lemma C4_second_run_fails_on_txt :
  exists dc' : DomainConfig,
    Cloudflare.preprocessConfig (sampleApi true)
      (sampleZone [sampleRecord "A" "www" "1.2.3.4" 300 ∅;
                   sampleRecord "TXT" "t" "hello" 300 ∅]) = Ok dc'
    /\ Cloudflare.preprocessConfig (sampleApi true) dc'
       = Err (ErrProxyOnRecord "TXT" "t" "off").
Proof.
  eexists. split; [vm_compute; reflexivity|]. vm_compute. reflexivity.
Qed.

(** The same on a redirect: the page rule it became is rejected. *)
Example second_run_fails_on_redirect :
  exists dc' : DomainConfig,
    Cloudflare.preprocessConfig (sampleApi true)
      (sampleZone [sampleRecord "CF_REDIRECT" "@"
                     "example.com/*,https://www.example.com/$1" 1 ∅]) = Ok dc'
    /\ Cloudflare.preprocessConfig (sampleApi true) dc'
       = Err (ErrProxyOnRecord "PAGE_RULE" "@" "off").
Proof.
  eexists. split; [vm_compute; reflexivity|]. vm_compute. reflexivity.
Qed.

(** And a "full" A record is transformed once more: the address it was
    given is transformed again, and the original address is forgotten. *)
Example second_run_transforms_again :
  let conversions : list (@IpConversion Sample.externals) :=
    ([("1.2.3.4", "5.6.7.8"); ("5.6.7.8", "9.9.9.9")] : list (string * string)) in
  let api := Cloudflare.mkCloudflareApi (EXT := Sample.externals)
               "key" "user" "" "" None ∅ conversions [] false in
  exists dc' dc'' : DomainConfig,
    Cloudflare.preprocessConfig api
      (sampleZone [sampleRecord "A" "www" "1.2.3.4" 300
                     {[ "cloudflare_proxy" := "full" ]}]) = Ok dc'
    /\ Cloudflare.preprocessConfig api dc' = Ok dc''
    /\ map Target (Records dc') = ["5.6.7.8"]
    /\ map Target (Records dc'') = ["9.9.9.9"]
    /\ map (fun rec => getMeta (Metadata rec) "original_ip") (Records dc'')
       = ["5.6.7.8"].
Proof.
  eexists. eexists. split; [vm_compute; reflexivity|].
  split; [vm_compute; reflexivity|]. repeat split.
Qed.

(** * The properties on a sample zone *)


Lemma C4_second_normalization_witness :
  exists dc' : DomainConfig,
    Cloudflare.preprocessConfig (sampleApi false)
      (sampleZone [wwwDesired 300 "ON";
                   sampleRecord "CNAME" "blog" "www.example.com." 60 ∅]) = Ok dc'
    /\ Cloudflare.preprocessConfig (sampleApi false) dc' = Ok dc'.
Proof.
  eexists. split; [vm_compute; reflexivity|].
  refine (proj1 (C4_second_normalization (sampleApi false)
                   (sampleZone [wwwDesired 300 "ON";
                                sampleRecord "CNAME" "blog" "www.example.com."
                                             60 ∅]) _ _) _).
  - vm_compute. reflexivity.
  - repeat constructor; try (intros [_ H]; vm_compute in H; discriminate H).
Defined.

Lemma C5_redirect_encoding_witness :
  exists (dc' : DomainConfig) (rec' : RecordConfig),
    Cloudflare.preprocessConfig (sampleApi true) redirectZone = Ok dc'
    /\ Records dc' !! 0%nat = Some rec'
    /\ Type_ rec' = "PAGE_RULE"
    /\ Target rec' = "a.example.com/*,https://b/,2,301".
Proof.
  destruct (C5_redirect_encoding (EXT := Sample.externals)) as [H _].
  assert (E : exists dc',
             Cloudflare.preprocessConfig (sampleApi true) redirectZone = Ok dc')
    by (eexists; vm_compute; reflexivity).
  destruct E as [dc' E]. exists dc'.
  destruct (H (sampleApi true) redirectZone dc' 0%nat
              (sampleRecord "CF_REDIRECT" "@" "a.example.com/*,https://b/" 1 ∅))
    as (_ & _ & rec' & H1 & H2 & H3).
  - vm_compute. discriminate.
  - exact E.
  - reflexivity.
  - reflexivity.
  - exists rec'. split; [exact E|]. split; [exact H1|]. split; [exact H2|].
    rewrite H3. vm_compute. reflexivity.
Defined.

Lemma C6_universal_ssl_written_in_upper_case_witness :
  isOk (Cloudflare.preprocessConfig (sampleApi false) (sslZone "OFF")) = true
  /\ Cloudflare.GetDomainCorrections (sampleApi false) sslDisabledWorld
       (sslZone "OFF")
     = Ok [mkCorrection "Universal SSL will be enabled for this domain."
                        (changeUniversalSSL "zone1" true)]
  /\ Cloudflare.GetDomainCorrections (sampleApi false) sslDisabledWorld
       (sslZone "off")
     = Ok [].
Proof.
  split; [vm_compute; reflexivity|]. split.
  - apply (C6_universal_ssl_written_in_upper_case (EXT := Sample.externals)
             (sampleApi false) sslDisabledWorld (sslZone "OFF") (sslZone "OFF")
             "zone1" [] []).
    + vm_compute. reflexivity.
    + vm_compute. reflexivity.
    + vm_compute. reflexivity.
    + reflexivity.
    + vm_compute. discriminate.
  - apply (C6_universal_ssl_written_in_upper_case (EXT := Sample.externals)
             (sampleApi false) sslDisabledWorld (sslZone "off") (sslZone "off")
             "zone1" [] []).
    + vm_compute. reflexivity.
    + vm_compute. reflexivity.
    + vm_compute. reflexivity.
    + reflexivity.
    + vm_compute. reflexivity.
Defined.


Lemma C10_proxied_ttl_forced_witness :
  Cloudflare.GetDomainCorrections (sampleApi false) (sampleWorld [wwwActual])
    (sampleZone [wwwDesired 600 "full"])
  = Cloudflare.GetDomainCorrections (sampleApi false) (sampleWorld [wwwActual])
      (sampleZone [wwwDesired 300 "full"])
  /\ exists id dcd records,
       Cloudflare.diffInputs (sampleApi false) (sampleWorld [wwwActual])
         (sampleZone [wwwDesired 600 "full"]) = Ok (id, dcd, records)
       /\ map TTL (Records dcd) = [1].
Proof.
  destruct (C10_proxied_ttl_forced (EXT := Sample.externals)) as [Hinv Hsame].
  split.
  - apply (Hsame (sampleApi false) (sampleWorld [wwwActual])
             (sampleZone [wwwDesired 300 "full"])
             (sampleZone [wwwDesired 600 "full"]) "off").
    + reflexivity.
    + reflexivity.
    + reflexivity.
    + constructor; [|constructor]. split; [reflexivity|]. right.
      vm_compute. discriminate.
  - assert (E : exists id dcd records,
               Cloudflare.diffInputs (sampleApi false)
                 (sampleWorld [wwwActual])
                 (sampleZone [wwwDesired 600 "full"]) = Ok (id, dcd, records)
               /\ length (Records dcd) = 1%nat
               /\ Forall (fun rec =>
                            getMeta (Metadata rec) Cloudflare.metaProxy
                            <> "off") (Records dcd))
      by (do 3 eexists; split; [vm_compute; reflexivity|];
          split; [reflexivity|]; repeat constructor; vm_compute; discriminate).
    destruct E as (id & dcd & records & E & Hlen & Hpx).
    exists id, dcd, records. split; [exact E|].
    pose proof (Hinv _ _ _ _ _ _ E) as Hall.
    destruct (Records dcd) as [|rec [|]]; try discriminate Hlen.
    inversion Hall; subst. inversion Hpx; subst. simpl. f_equal. auto.
Defined.

(** * The rest of the three files

    Properties of the code that the statements above leave out: the
    validation of the metadata, the conversion of the records that the
    providers report, the set-up of the Cloudflare provider, the nameservers
    at OVH, and the parser and the printer of SPF records. *)

(** ** Strings, sorting and 64-bit counters *)

Lemma append_assoc (s1 s2 s3 : string) :
  (s1 ++ s2) ++ s3 = s1 ++ (s2 ++ s3).
Proof.
  induction s1 as [|ch s1 IH]; [reflexivity|].
  change (String ch ((s1 ++ s2) ++ s3) = String ch (s1 ++ (s2 ++ s3))).
  f_equal. exact IH.
Qed.

Lemma append_empty_r (s : string) : s ++ "" = s.
Proof.
  induction s as [|ch s IH]; [reflexivity|].
  change (String ch (s ++ "") = String ch s). f_equal. exact IH.
Qed.

Lemma length_append (s1 s2 : string) :
  String.length (s1 ++ s2) = (String.length s1 + String.length s2)%nat.
Proof.
  induction s1 as [|ch s1 IH]; [reflexivity|].
  change (S (String.length (s1 ++ s2))
          = S (String.length s1 + String.length s2)).
  f_equal. exact IH.
Qed.

Lemma hasByte_app (ch : ascii) (s1 s2 : string) :
  hasByte ch (s1 ++ s2) = hasByte ch s1 || hasByte ch s2.
Proof.
  induction s1 as [|b s1 IH]; [reflexivity|].
  change (Ascii.eqb b ch || hasByte ch (s1 ++ s2)
          = Ascii.eqb b ch || hasByte ch s1 || hasByte ch s2).
  rewrite IH, orb_assoc. reflexivity.
Qed.

Lemma Split_nonempty (s : string) (sep : ascii) : Split s sep <> [].
Proof.
  destruct s as [|ch s]; simpl; [discriminate|].
  destruct (Ascii.eqb ch sep); [discriminate|].
  destruct (Split s sep); discriminate.
Qed.

Lemma Split_nosep (sep : ascii) (s : string) :
  hasByte sep s = false -> Split s sep = [s].
Proof.
  induction s as [|ch s IH]; simpl; [reflexivity|].
  intros H. apply orb_false_iff in H. destruct H as [H1 H2].
  rewrite H1, (IH H2). reflexivity.
Qed.

Lemma Split_app (sep : ascii) (s1 s2 : string) :
  hasByte sep s1 = false ->
  Split (s1 ++ String sep s2) sep = s1 :: Split s2 sep.
Proof.
  induction s1 as [|ch s1 IH]; simpl; intros H.
  - rewrite Ascii.eqb_refl. reflexivity.
  - apply orb_false_iff in H. destruct H as [H1 H2].
    rewrite H1, (IH H2). reflexivity.
Qed.

Lemma Split_app_sep (sep : ascii) (s1 s2 : string) :
  Split (s1 ++ String sep s2) sep = (Split s1 sep ++ Split s2 sep)%list.
Proof.
  induction s1 as [|ch s1 IH]; simpl.
  - rewrite Ascii.eqb_refl. reflexivity.
  - rewrite IH. destruct (Ascii.eqb ch sep); [reflexivity|].
    pose proof (Split_nonempty s1 sep) as Hne.
    destruct (Split s1 sep); [congruence|reflexivity].
Qed.

Lemma Join_Split (sep : ascii) (s : string) :
  Join (Split s sep) (String sep "") = s.
Proof.
  induction s as [|ch s IH]; [reflexivity|]. simpl Split.
  pose proof (Split_nonempty s sep) as Hne.
  destruct (Ascii.eqb_spec ch sep) as [->|Hch].
  - destruct (Split s sep) as [|f fs]; [congruence|].
    change (Join ("" :: f :: fs) (String sep ""))
      with (String sep (Join (f :: fs) (String sep ""))).
    rewrite IH. reflexivity.
  - destruct (Split s sep) as [|f fs]; [congruence|].
    rewrite <- IH. destruct fs; reflexivity.
Qed.

Lemma Split_Join (sep : ascii) (l : list string) :
  l <> [] -> Forall (fun s => hasByte sep s = false) l ->
  Split (Join l (String sep "")) sep = l.
Proof.
  induction l as [|e rest IH]; [congruence|]. intros _ Hall.
  inversion Hall as [|? ? He Hrest]; subst.
  destruct rest as [|e' rest'].
  - simpl. apply Split_nosep. exact He.
  - change (Join (e :: e' :: rest') (String sep ""))
      with (e ++ String sep (Join (e' :: rest') (String sep ""))).
    rewrite Split_app by exact He. f_equal. apply IH; [discriminate|exact Hrest].
Qed.

Lemma Join_nonempty (sep : string) (l : list string) :
  Forall (fun s => s <> "") l -> Join l sep = "" -> l = [].
Proof.
  destruct l as [|e rest]; [reflexivity|]. intros Hall H.
  inversion Hall as [|? ? He _]; subst.
  destruct e as [|ch e]; [congruence|].
  destruct rest; simpl in H; discriminate.
Qed.

Lemma Join_inj (l l' : list string) :
  Forall hostName l -> Forall hostName l' ->
  Join l "," = Join l' "," -> l = l'.
Proof.
  intros Hl Hl' H.
  assert (Hne : forall k, Forall hostName k -> Forall (fun s => s <> "") k)
    by (intros k Hk; eapply Forall_impl; [exact Hk|]; intros s [E _]; exact E).
  assert (Hnc : forall k, Forall hostName k ->
                          Forall (fun s => hasByte "," s = false) k)
    by (intros k Hk; eapply Forall_impl; [exact Hk|]; intros s [_ E]; exact E).
  destruct l as [|e rest].
  - symmetry. apply (Join_nonempty ","); [auto|]. rewrite <- H. reflexivity.
  - destruct l' as [|e' rest'].
    + apply (Join_nonempty ","); [auto|]. rewrite H. reflexivity.
    + rewrite <- (Split_Join "," (e :: rest)) by (auto || discriminate).
      rewrite <- (Split_Join "," (e' :: rest')) by (auto || discriminate).
      rewrite H. reflexivity.
Qed.

Lemma concat_Join (h : string) (ts : list string) :
  h ++ String.concat "" (map (fun t => " " ++ t) ts) = Join (h :: ts) " ".
Proof.
  revert h. induction ts as [|t ts IH]; intros h.
  - apply append_empty_r.
  - change (Join (h :: t :: ts) " ") with (h ++ " " ++ Join (t :: ts) " ").
    rewrite <- IH. f_equal. destruct ts as [|t' ts].
    + simpl. rewrite append_empty_r. reflexivity.
    + change (String.concat "" (map (fun t => " " ++ t) (t :: t' :: ts)))
        with ((" " ++ t)
              ++ String.concat "" (map (fun t => " " ++ t) (t' :: ts))).
      rewrite append_assoc. reflexivity.
Qed.

Lemma prefix_app (p s x : string) :
  (String.length p <= String.length s)%nat ->
  String.prefix p (s ++ x) = String.prefix p s.
Proof.
  revert s. induction p as [|c p IH]; intros s H;
    [destruct s, x; reflexivity|].
  destruct s as [|ch s]; [simpl in H; lia|].
  change (String.prefix (String c p) (String ch s ++ x))
    with (if ascii_dec c ch then String.prefix p (s ++ x) else false).
  change (String.prefix (String c p) (String ch s))
    with (if ascii_dec c ch then String.prefix p s else false).
  destruct (ascii_dec c ch); [|reflexivity]. apply IH. simpl in H. lia.
Qed.

Lemma prefix_split (p s : string) :
  String.prefix p s = true -> exists r, s = p ++ r.
Proof.
  revert s. induction p as [|c p IH]; intros s H.
  - exists s. reflexivity.
  - destruct s as [|ch s]; [discriminate|].
    change (String.prefix (String c p) (String ch s))
      with (if ascii_dec c ch then String.prefix p s else false) in H.
    destruct (ascii_dec c ch) as [->|]; [|discriminate].
    destruct (IH _ H) as (r & ->). exists r. reflexivity.
Qed.

Lemma HasPrefix_cons (ch c : ascii) (s p : string) :
  HasPrefix (String ch s) (String c p) = Ascii.eqb c ch && HasPrefix s p.
Proof.
  unfold HasPrefix.
  change (String.prefix (String c p) (String ch s))
    with (if ascii_dec c ch then String.prefix p s else false).
  destruct (ascii_dec c ch) as [->|H].
  - rewrite Ascii.eqb_refl. reflexivity.
  - apply Ascii.eqb_neq in H. rewrite H. reflexivity.
Qed.

Lemma insertString_comm (a b : string) (l : list string) :
  GoSort.insertString a (GoSort.insertString b l)
  = GoSort.insertString b (GoSort.insertString a l).
Proof.
  induction l as [|x l IH]; simpl.
  - destruct (String.leb a b) eqn:Eab, (String.leb b a) eqn:Eba; auto.
    + rewrite (String.leb_antisym _ _ Eab Eba). reflexivity.
    + destruct (String.leb_total a b); congruence.
  - destruct (String.leb a x) eqn:Eax, (String.leb b x) eqn:Ebx; simpl;
      rewrite ?Eax, ?Ebx.
    + destruct (String.leb a b) eqn:Eab, (String.leb b a) eqn:Eba; auto.
      * rewrite (String.leb_antisym _ _ Eab Eba). reflexivity.
      * destruct (String.leb_total a b); congruence.
    + destruct (String.leb b a) eqn:Eba; [|reflexivity].
      rewrite (leb_trans _ _ _ Eba Eax) in Ebx. discriminate.
    + destruct (String.leb a b) eqn:Eab; [|reflexivity].
      rewrite (leb_trans _ _ _ Eab Ebx) in Eax. discriminate.
    + rewrite IH. reflexivity.
Qed.

Lemma Strings_Permutation (l l' : list string) :
  Permutation l l' -> GoSort.Strings l = GoSort.Strings l'.
Proof.
  induction 1; simpl; try congruence. apply insertString_comm.
Qed.

Lemma insertString_perm (a : string) (l : list string) :
  Permutation (GoSort.insertString a l) (a :: l).
Proof.
  induction l as [|x l IH]; simpl; [reflexivity|].
  destruct (String.leb a x); [reflexivity|].
  rewrite IH. apply perm_swap.
Qed.

Lemma Strings_perm (l : list string) : Permutation (GoSort.Strings l) l.
Proof.
  induction l as [|x l IH]; simpl; [reflexivity|].
  rewrite insertString_perm. constructor. exact IH.
Qed.

Lemma wrapInt_add_l (a b : Z) : wrapInt (wrapInt a + b) = wrapInt (a + b).
Proof.
  unfold wrapInt. f_equal.
  replace ((a + 2 ^ 63) mod 2 ^ 64 - 2 ^ 63 + b + 2 ^ 63)
    with ((a + 2 ^ 63) mod 2 ^ 64 + b) by lia.
  rewrite Z.add_mod_idemp_l by lia. f_equal. lia.
Qed.

Lemma wrapInt_idem (a : Z) : wrapInt (wrapInt a) = wrapInt a.
Proof.
  replace (wrapInt a) with (wrapInt a + 0) at 1 by lia.
  rewrite wrapInt_add_l. f_equal. lia.
Qed.

Lemma wrapInt_small (a : Z) : - 2 ^ 63 <= a <= maxInt -> wrapInt a = a.
Proof.
  unfold wrapInt, maxInt. intros H. rewrite Z.mod_small by lia. lia.
Qed.

(** ** Cloudflare: what [preprocessConfig] accepts, keeps and writes *)

Section NormalizerMore.
Context `{EXT : Externals}.
Import Cloudflare.

Lemma transformRecord_cases (c : CloudflareApi) (rec rec' : RecordConfig) :
  transformRecord c rec = Ok rec' ->
  (rec' = rec
   /\ ~ (Type_ rec = "A" /\ getMeta (Metadata rec) metaProxy = "full"))
  \/ (Type_ rec = "A" /\ getMeta (Metadata rec) metaProxy = "full"
      /\ exists ip newIP,
           ParseIP (Target rec) = Some ip
           /\ TransformIP ip (ipConversions c) = Ok newIP
           /\ rec' = SetTarget (IPString newIP)
                       (putMeta metaOriginalIP (Target rec) rec)).
Proof.
  unfold transformRecord, GetTargetField. intros H.
  destruct (String.eqb_spec (Type_ rec) "A") as [Ht|Ht]; simpl in H.
  - destruct (String.eqb_spec (getMeta (Metadata rec) metaProxy) "full")
      as [Hp|Hp]; simpl in H.
    + right. split; [exact Ht|]. split; [exact Hp|].
      destruct (ParseIP (Target rec)) as [ip|]; [|discriminate].
      inv_bind H. injection H as <-. eauto.
    + left. injection H as <-. split; [reflexivity|]. intros [_ E]. auto.
  - left. injection H as <-. split; [reflexivity|]. intros [E _]. auto.
Qed.

Lemma preprocessConfig_steps (c : CloudflareApi) (dc dc' : DomainConfig) :
  preprocessConfig c dc = Ok dc' ->
  exists defProxy,
    defaultProxy dc = Ok defProxy
    /\ Forall2 (fun rec rec' =>
                  exists mid p0 p1,
                    preprocessRecord c defProxy p0 rec = Ok (mid, p1)
                    /\ transformRecord c mid = Ok rec')
               (Records dc) (Records dc').
Proof.
  intros H.
  destruct (preprocessConfig_Ok _ _ _ H)
    as (defProxy & recs & prio & Hd & _ & Hr & Ht & _).
  exists defProxy. split; [exact Hd|].
  apply preprocessRecords_Forall2 in Hr. apply mapM_Forall2 in Ht.
  pose proof (Forall2_compose _ _ _ _ _ Hr Ht) as HF.
  eapply Forall2_impl; [exact HF|].
  intros rec rec' (mid & (p0 & p1 & H1) & H2). eauto.
Qed.

Lemma defaultProxy_value (dc : DomainConfig) (defProxy : string) :
  defaultProxy dc = Ok defProxy ->
  defProxy
  = if String.eqb (getMeta (dcMetadata dc) metaProxyDefault) "" then "off"
    else ToLower (getMeta (dcMetadata dc) metaProxyDefault).
Proof.
  unfold defaultProxy. intros H.
  destruct (String.eqb (getMeta (dcMetadata dc) metaProxyDefault) "").
  - injection H as <-. reflexivity.
  - apply checkProxyVal_Ok in H. tauto.
Qed.

Lemma preprocessRecord_metadata (c : CloudflareApi) (defProxy : string)
  (p0 p1 : Z) (rec rec' : RecordConfig) :
  preprocessRecord c defProxy p0 rec = Ok (rec', p1) ->
  Metadata rec' = <[metaProxy := userProxy defProxy rec]> (Metadata rec).
Proof.
  intros H. pose proof (preprocessRecord_proxy _ _ _ _ _ _ H) as Hp.
  unfold preprocessRecord in H. inv_bind H.
  apply encodeRedirect_frame in H. destruct H as (_ & Hm & _).
  apply normalizeProxy_Ok in Ha. destruct Ha as (v & -> & _).
  rewrite Hm in *. rewrite getMeta_putMeta in Hp. subst v. reflexivity.
Qed.

Lemma preprocessRecord_target (c : CloudflareApi) (defProxy : string)
  (p0 p1 : Z) (rec rec' : RecordConfig) :
  isRedirect (Type_ rec) = false ->
  preprocessRecord c defProxy p0 rec = Ok (rec', p1) ->
  Target rec' = Target rec /\ Type_ rec' = Type_ rec.
Proof.
  intros Hr H. unfold preprocessRecord in H. inv_bind H.
  apply normalizeProxy_Ok in Ha. destruct Ha as (v & -> & _).
  rewrite encodeRedirect_other in H by exact Hr.
  injection H as <- _. split; reflexivity.
Qed.

Lemma preprocessRecords_In_Err (c : CloudflareApi) (defProxy : string)
  (recs : list RecordConfig) (rec : RecordConfig) :
  In rec recs ->
  (forall prio, exists e, preprocessRecord c defProxy prio rec = Err e) ->
  exists e, preprocessRecords c defProxy recs = Err e.
Proof.
  intros Hin Hbad. induction recs as [|r rest IH]; [destruct Hin|].
  simpl. pose proof (preprocessRecords_Ok_or_Err c defProxy rest) as Hab.
  destruct (preprocessRecords c defProxy rest) as [[rest' prio]|e|e|f] eqn:E;
    simpl in *; try discriminate; eauto.
  destruct Hin as [->|Hin].
  - destruct (Hbad prio) as (e & ->). simpl. eauto.
  - destruct (IH Hin) as (e & He). discriminate He.
Qed.

Lemma preprocessRecords_Err_config (c : CloudflareApi) (dc : DomainConfig) :
  (forall defProxy, exists e,
      preprocessRecords c defProxy (Records dc) = Err e) ->
  exists e, preprocessConfig c dc = Err e.
Proof.
  intros Hbad. unfold preprocessConfig.
  pose proof (defaultProxy_Ok_or_Err dc) as H1.
  destruct (defaultProxy dc) as [defProxy|e|e|f]; simpl in *;
    try discriminate; eauto.
  pose proof (checkUniversalSSLSetting_Ok_or_Err dc) as H2.
  destruct (checkUniversalSSLSetting dc) as [[]|e|e|f]; simpl in *;
    try discriminate; eauto.
  destruct (Hbad defProxy) as (e & ->). simpl. eauto.
Qed.

Lemma checkProxyVal_Err (v : string) :
  ToLower v <> "on" /\ ToLower v <> "off" /\ ToLower v <> "full" ->
  checkProxyVal v = Err (ErrBadProxyVal (ToLower v)).
Proof.
  intros (H1 & H2 & H3). unfold checkProxyVal.
  apply String.eqb_neq in H1, H2, H3. rewrite H1, H2, H3. reflexivity.
Qed.



(** X1.  [checkProxyVal] accepts [on], [off] and [full] in any mix of upper
    and lower case and returns the value in lower case, which it accepts
    again unchanged; any other value is refused with the error about the
    proxy setting, which for an ASCII value carries the value in lower
    case. *)
Theorem X1_checkProxyVal_lowercase (v : string) :
  (ToLower v = "on" \/ ToLower v = "off" \/ ToLower v = "full" ->
   checkProxyVal v = Ok (ToLower v)
   /\ checkProxyVal (ToLower v) = Ok (ToLower v))
  /\ (ToLower v <> "on" /\ ToLower v <> "off" /\ ToLower v <> "full" ->
      exists shown,
        checkProxyVal v = Err (ErrBadProxyVal shown)
        /\ (isASCII v = true -> shown = ToLower v)).
Proof.
  split.
  - intros H. split; [|apply checkProxyVal_fixed; exact H].
    unfold checkProxyVal. destruct H as [-> | [-> | ->]]; reflexivity.
  - intros H. exists (ToLower v). split; [|reflexivity].
    apply checkProxyVal_Err. exact H.
Qed.

(** X2.  When [preprocessConfig] succeeds the zone keeps its name and its
    metadata, and the records stay as many and in the same order; each keeps
    its label, its FQDN and its native handle, its type unless it is a
    redirect, and every metadata key but [cloudflare_proxy] and
    [original_ip]. *)
Theorem X2_preprocessConfig_keeps (c : CloudflareApi) (dc dc' : DomainConfig) :
  preprocessConfig c dc = Ok dc' ->
  dcName dc' = dcName dc /\ dcMetadata dc' = dcMetadata dc
  /\ Forall2 (fun rec rec' =>
                Name rec' = Name rec /\ NameFQDN rec' = NameFQDN rec
                /\ Original_ rec' = Original_ rec
                /\ (isRedirect (Type_ rec) = false -> Type_ rec' = Type_ rec)
                /\ (forall key, key <> metaProxy -> key <> metaOriginalIP ->
                    Metadata rec' !! key = Metadata rec !! key))
             (Records dc) (Records dc').
Proof.
  intros H.
  destruct (preprocessConfig_Ok _ _ _ H)
    as (d0 & recs0 & prio0 & _ & _ & _ & _ & Hn & Hm).
  split; [exact Hn|]. split; [exact Hm|].
  destruct (preprocessConfig_steps _ _ _ H) as (defProxy & _ & HF).
  eapply Forall2_impl; [exact HF|]. clear HF.
  intros rec rec' (mid & p0 & p1 & H1 & H2).
  pose proof (preprocessRecord_frame _ _ _ _ _ _ H1) as (Ha & Hb & Hc & _).
  pose proof (preprocessRecord_metadata _ _ _ _ _ _ H1) as Hmeta.
  pose proof (transformRecord_frame _ _ _ H2) as (_ & Ht & Ha' & Hb' & Hc' & _).
  repeat split; try congruence.
  - intros Hr. destruct (preprocessRecord_target _ _ _ _ _ _ Hr H1). congruence.
  - intros key Hk1 Hk2.
    destruct (transformRecord_cases _ _ _ H2)
      as [[-> _]|(_ & _ & ip & newIP & _ & _ & ->)]; simpl.
    + rewrite Hmeta. apply lookup_insert_ne. congruence.
    + rewrite lookup_insert_ne by congruence.
      rewrite Hmeta. apply lookup_insert_ne. congruence.
Qed.

(** X3.  When [preprocessConfig] succeeds every record carries a
    [cloudflare_proxy] setting that is [on], [off] or [full]: [off] for a
    type that cannot be proxied, else the record's own setting in lower
    case, else the zone's [cloudflare_proxy_default] in lower case, else
    [off]. *)
Theorem X3_preprocessConfig_proxy_setting (c : CloudflareApi)
  (dc dc' : DomainConfig) :
  preprocessConfig c dc = Ok dc' ->
  Forall2 (fun rec rec' =>
             let own := getMeta (Metadata rec) metaProxy in
             let zone := getMeta (dcMetadata dc) metaProxyDefault in
             getMeta (Metadata rec') metaProxy
             = (if negb (proxiable (Type_ rec)) then "off"
                else if negb (String.eqb own "") then ToLower own
                else if negb (String.eqb zone "") then ToLower zone
                else "off")
             /\ (getMeta (Metadata rec') metaProxy = "on"
                 \/ getMeta (Metadata rec') metaProxy = "off"
                 \/ getMeta (Metadata rec') metaProxy = "full"))
          (Records dc) (Records dc').
Proof.
  intros H.
  destruct (preprocessConfig_steps _ _ _ H) as (defProxy & Hd & HF).
  pose proof (defaultProxy_value _ _ Hd) as Hv.
  pose proof (defaultProxy_Ok _ _ Hd) as Hdef.
  eapply Forall2_impl; [exact HF|]. clear HF.
  intros rec rec' (mid & p0 & p1 & H1 & H2). cbv zeta.
  pose proof (preprocessRecord_proxy _ _ _ _ _ _ H1) as Hp.
  pose proof (preprocessRecord_normalized _ _ _ _ _ _ Hdef H1) as (_ & Hn1 & Hn2).
  pose proof (preprocessRecord_frame _ _ _ _ _ _ H1) as (_ & _ & _ & Hpx).
  pose proof (transformRecord_frame _ _ _ H2) as (_ & _ & _ & _ & _ & Hsame & _).
  rewrite Hsame, Hp. split.
  - unfold userProxy. destruct (proxiable (Type_ rec)); simpl; [|reflexivity].
    destruct (String.eqb (getMeta (Metadata rec) metaProxy) ""); simpl;
      [|reflexivity].
    rewrite Hv.
    destruct (String.eqb (getMeta (dcMetadata dc) metaProxyDefault) "");
      reflexivity.
  - rewrite <- Hp. destruct (proxiable (Type_ mid)) eqn:E; auto.
Qed.

(** X4.  [preprocessConfig] returns an error when some record carries a
    [cloudflare_proxy] setting and its type is none of A, AAAA, CNAME and
    ALIAS, or the setting is none of [on], [off] and [full] in any case. *)
Theorem X4_preprocessConfig_rejects_record (c : CloudflareApi) (dc : DomainConfig)
  (rec : RecordConfig) :
  In rec (Records dc) ->
  getMeta (Metadata rec) metaProxy <> "" ->
  (proxiable (Type_ rec) = false
   \/ (ToLower (getMeta (Metadata rec) metaProxy) <> "on"
       /\ ToLower (getMeta (Metadata rec) metaProxy) <> "off"
       /\ ToLower (getMeta (Metadata rec) metaProxy) <> "full")) ->
  exists e, preprocessConfig c dc = Err e.
Proof.
  intros Hin Hset Hbad. apply preprocessRecords_Err_config. intros defProxy.
  apply (preprocessRecords_In_Err _ _ _ rec Hin). intros prio.
  unfold preprocessRecord, normalizeProxy. simpl.
  apply String.eqb_neq in Hset.
  destruct (proxiable (Type_ rec)) eqn:Hp; simpl; rewrite Hset; simpl.
  - destruct Hbad as [Hbad|Hbad]; [discriminate|].
    rewrite (checkProxyVal_Err _ Hbad). simpl. eauto.
  - eauto.
Qed.

(** X5.  The zone's settings are checked before any record: a
    [cloudflare_proxy_default] that is none of [on], [off], [full] gives the
    error about the proxy setting, and after a good default a
    [cloudflare_universalssl] that is neither [on] nor [off] gives the error
    about that key, whatever the records are; for an ASCII value the error
    carries the value in lower case. *)
Theorem X5_preprocessConfig_rejects_zone (c : CloudflareApi) (dc : DomainConfig) :
  let zone := getMeta (dcMetadata dc) metaProxyDefault in
  let ssl := getMeta (dcMetadata dc) metaUniversalSSL in
  (zone <> "" ->
   ToLower zone <> "on" /\ ToLower zone <> "off" /\ ToLower zone <> "full" ->
   exists shown,
     preprocessConfig c dc = Err (ErrBadProxyVal shown)
     /\ (isASCII zone = true -> shown = ToLower zone))
  /\ (isOk (defaultProxy dc) = true ->
      ssl <> "" -> ToLower ssl <> "on" /\ ToLower ssl <> "off" ->
      exists shown,
        preprocessConfig c dc = Err (ErrBadUniversalSSL shown)
        /\ (isASCII ssl = true -> shown = ToLower ssl)).
Proof.
  cbv zeta. split.
  - intros Hset Hbad.
    exists (ToLower (getMeta (dcMetadata dc) metaProxyDefault)).
    split; [|reflexivity]. unfold preprocessConfig, defaultProxy.
    apply String.eqb_neq in Hset. rewrite Hset.
    rewrite (checkProxyVal_Err _ Hbad). reflexivity.
  - intros Hok Hset (H1 & H2).
    exists (ToLower (getMeta (dcMetadata dc) metaUniversalSSL)).
    split; [|reflexivity]. unfold preprocessConfig.
    destruct (defaultProxy dc) as [defProxy| | |]; try discriminate. simpl.
    unfold checkUniversalSSLSetting.
    apply String.eqb_neq in Hset, H1, H2. rewrite Hset, H1, H2. reflexivity.
Qed.

(** X6.  When [preprocessConfig] succeeds, an A record whose setting is [full]
    has the address that [transform.TransformIP] makes of its old target,
    and its old target is kept under the metadata key [original_ip]; every
    other record that is not a redirect keeps its target and its
    [original_ip]. *)
Theorem X6_preprocessConfig_full_proxy (c : CloudflareApi)
  (dc dc' : DomainConfig) :
  preprocessConfig c dc = Ok dc' ->
  Forall2 (fun rec rec' =>
             (Type_ rec' = "A" /\ getMeta (Metadata rec') metaProxy = "full" ->
              exists ip newIP,
                ParseIP (Target rec) = Some ip
                /\ TransformIP ip (ipConversions c) = Ok newIP
                /\ Target rec' = IPString newIP
                /\ Metadata rec' !! metaOriginalIP = Some (Target rec))
             /\ (~ (Type_ rec' = "A"
                    /\ getMeta (Metadata rec') metaProxy = "full") ->
                 isRedirect (Type_ rec) = false ->
                 Target rec' = Target rec
                 /\ Metadata rec' !! metaOriginalIP
                    = Metadata rec !! metaOriginalIP))
          (Records dc) (Records dc').
Proof.
  intros H.
  destruct (preprocessConfig_steps _ _ _ H) as (defProxy & Hd & HF).
  eapply Forall2_impl; [exact HF|]. clear HF.
  intros rec rec' (mid & p0 & p1 & H1 & H2).
  pose proof (preprocessRecord_metadata _ _ _ _ _ _ H1) as Hmeta.
  pose proof (transformRecord_frame _ _ _ H2) as (_ & Ht & _ & _ & _ & Hsame & _).
  destruct (transformRecord_cases _ _ _ H2)
    as [[-> Hno]|(HA & Hfull & ip & newIP & Hip & Htr & ->)].
  - split; [intros Hyes; contradiction|].
    intros _ Hr. destruct (preprocessRecord_target _ _ _ _ _ _ Hr H1) as [-> _].
    split; [reflexivity|]. rewrite Hmeta. apply lookup_insert_ne. discriminate.
  - assert (Hr : isRedirect (Type_ rec) = false).
    { destruct (isRedirect (Type_ rec)) eqn:E; [|reflexivity].
      destruct (preprocessRecord_redirect _ _ _ _ _ _ E H1) as (_ & _ & -> & _).
      discriminate HA. }
    destruct (preprocessRecord_target _ _ _ _ _ _ Hr H1) as [HT _].
    split.
    + intros _. exists ip, newIP. rewrite <- HT.
      repeat split; auto. simpl. apply lookup_insert_eq.
    + intros Hno. exfalso. apply Hno. split; [exact HA|].
      rewrite Hsame. exact Hfull.
Qed.

(** X7.  [preprocessConfig] does not succeed when an A record is set to [full]
    and its target is not an IP address. *)
Theorem X7_preprocessConfig_bad_address (c : CloudflareApi) (dc : DomainConfig)
  (rec : RecordConfig) :
  In rec (Records dc) -> Type_ rec = "A" ->
  ToLower (getMeta (Metadata rec) metaProxy) = "full" ->
  ParseIP (Target rec) = None ->
  forall dc', preprocessConfig c dc <> Ok dc'.
Proof.
  intros Hin HA Hfull Hip dc' H.
  destruct (preprocessConfig_steps _ _ _ H) as (defProxy & Hd & HF).
  destruct (Forall2_In_left _ _ _ _ HF Hin)
    as (rec' & _ & mid & p0 & p1 & H1 & H2).
  assert (Hr : isRedirect (Type_ rec) = false) by (rewrite HA; reflexivity).
  destruct (preprocessRecord_target _ _ _ _ _ _ Hr H1) as [HT HTy].
  pose proof (preprocessRecord_proxy _ _ _ _ _ _ H1) as Hp.
  unfold userProxy in Hp. rewrite HA in Hp. simpl in Hp.
  assert (Hne : getMeta (Metadata rec) metaProxy <> "").
  { intros E. rewrite E in Hfull. discriminate. }
  apply String.eqb_neq in Hne. rewrite Hne, Hfull in Hp.
  unfold transformRecord, GetTargetField in H2.
  rewrite HTy, HA, Hp, HT, Hip in H2. discriminate.
Qed.


End NormalizerMore.

Lemma X1_checkProxyVal_lowercase_witness :
  (Cloudflare.checkProxyVal "Full" = Ok "full"
   /\ Cloudflare.checkProxyVal "full" = Ok "full")
  /\ Cloudflare.checkProxyVal "Maybe" = Err (ErrBadProxyVal "maybe").
Proof.
  split.
  - apply (proj1 (X1_checkProxyVal_lowercase "Full")). right. right.
    reflexivity.
  - destruct (proj2 (X1_checkProxyVal_lowercase "Maybe")) as (shown & E & H).
    + repeat split; discriminate.
    + rewrite E, (H eq_refl). reflexivity.
Defined.

Lemma X2_preprocessConfig_keeps_witness :
  exists dc' : DomainConfig,
    Cloudflare.preprocessConfig (sampleApi true) redirectZone = Ok dc'
    /\ dcName dc' = "example.com".
Proof.
  assert (E : exists dc',
             Cloudflare.preprocessConfig (sampleApi true) redirectZone = Ok dc')
    by (eexists; vm_compute; reflexivity).
  destruct E as [dc' E]. exists dc'. split; [exact E|].
  exact (proj1 (X2_preprocessConfig_keeps _ _ _ E)).
Defined.

Lemma X3_preprocessConfig_proxy_setting_witness :
  exists dc' : DomainConfig,
    Cloudflare.preprocessConfig (sampleApi false)
      (sampleZone [wwwDesired 300 "ON";
                   sampleRecord "TXT" "t" "hello" 60 ∅]) = Ok dc'
    /\ length (Records dc') = 2%nat.
Proof.
  assert (E : exists dc',
             Cloudflare.preprocessConfig (sampleApi false)
               (sampleZone [wwwDesired 300 "ON";
                            sampleRecord "TXT" "t" "hello" 60 ∅]) = Ok dc')
    by (eexists; vm_compute; reflexivity).
  destruct E as [dc' E]. exists dc'. split; [exact E|].
  rewrite <- (Forall2_length _ _ _ (X3_preprocessConfig_proxy_setting _ _ _ E)).
  reflexivity.
Defined.

Lemma X4_preprocessConfig_rejects_record_witness :
  exists e : error,
    Cloudflare.preprocessConfig (sampleApi false)
      (sampleZone [sampleRecord "TXT" "t" "hello" 300
                                {[ "cloudflare_proxy" := "on" ]}])
    = Err e.
Proof.
  apply (X4_preprocessConfig_rejects_record (sampleApi false) _
           (sampleRecord "TXT" "t" "hello" 300
                         {[ "cloudflare_proxy" := "on" ]})).
  - left. reflexivity.
  - intros H. vm_compute in H. discriminate H.
  - left. reflexivity.
Defined.

Lemma X5_preprocessConfig_rejects_zone_witness :
  Cloudflare.preprocessConfig (sampleApi false)
    (mkDomainConfig "example.com" [wwwDesired 300 "on"]
                    {[ "cloudflare_proxy_default" := "Maybe" ]})
  = Err (ErrBadProxyVal "maybe").
Proof.
  destruct (proj1 (X5_preprocessConfig_rejects_zone (sampleApi false)
                     (mkDomainConfig "example.com" [wwwDesired 300 "on"]
                        {[ "cloudflare_proxy_default" := "Maybe" ]})))
    as (shown & E & H).
  - intros H. vm_compute in H. discriminate H.
  - repeat split; intros H; vm_compute in H; discriminate H.
  - rewrite E, H; [|vm_compute; reflexivity]. vm_compute. reflexivity.
Defined.

Lemma X6_preprocessConfig_full_proxy_witness :
  exists dc' : DomainConfig,
    Cloudflare.preprocessConfig (sampleApi false)
      (sampleZone [wwwDesired 300 "full"]) = Ok dc'
    /\ length (Records dc') = 1%nat.
Proof.
  assert (E : exists dc',
             Cloudflare.preprocessConfig (sampleApi false)
               (sampleZone [wwwDesired 300 "full"]) = Ok dc')
    by (eexists; vm_compute; reflexivity).
  destruct E as [dc' E]. exists dc'. split; [exact E|].
  rewrite <- (Forall2_length _ _ _ (X6_preprocessConfig_full_proxy _ _ _ E)).
  reflexivity.
Defined.

Lemma X7_preprocessConfig_bad_address_witness :
  isOk (Cloudflare.preprocessConfig (sampleApi false)
          (sampleZone [sampleRecord "A" "www" "" 300
                                    {[ "cloudflare_proxy" := "Full" ]}]))
  = false.
Proof.
  destruct (Cloudflare.preprocessConfig (sampleApi false)
              (sampleZone [sampleRecord "A" "www" "" 300
                                        {[ "cloudflare_proxy" := "Full" ]}]))
    as [dc'| | |] eqn:E; try reflexivity.
  exfalso.
  apply (X7_preprocessConfig_bad_address (sampleApi false)
           (sampleZone [sampleRecord "A" "www" "" 300
                                     {[ "cloudflare_proxy" := "Full" ]}])
           (sampleRecord "A" "www" "" 300 {[ "cloudflare_proxy" := "Full" ]}))
    with (dc' := dc').
  - left. reflexivity.
  - reflexivity.
  - vm_compute. reflexivity.
  - reflexivity.
  - exact E.
Defined.


(** ** Cloudflare: the records it reports, and the plan *)

Section ActualMore.
Context `{EXT : Externals}.
Import Cloudflare.

Lemma proxyValue_inj (a b : bool) : proxyValue a = proxyValue b -> a = b.
Proof.
  intros H. apply (f_equal (fun m => m !! "proxy")) in H.
  unfold proxyValue in H.
  rewrite !lookup_singleton_eq in H. destruct a, b; congruence.
Qed.

Lemma getProxyMetadata_proxied (r : RecordConfig) :
  Type_ r = "A" \/ Type_ r = "AAAA" \/ Type_ r = "CNAME" ->
  getProxyMetadata r
  = match Original_ r with
    | NoOriginal =>
        Ok (Some (proxyValue
                    (negb (String.eqb (getMeta (Metadata r) metaProxy) "off"))))
    | CfOriginal cf => Ok (Some (proxyValue (cfProxied cf)))
    | _ => Panic ErrTypeAssertion
    end.
Proof.
  intros Hty. unfold getProxyMetadata.
  assert (E : negb (String.eqb (Type_ r) "A")
              && negb (String.eqb (Type_ r) "AAAA")
              && negb (String.eqb (Type_ r) "CNAME") = false)
    by (destruct Hty as [-> | [-> | ->]]; reflexivity).
  rewrite E. destruct (Original_ r); reflexivity.
Qed.

Lemma getProxyMetadata_other (r : RecordConfig) :
  Type_ r <> "A" /\ Type_ r <> "AAAA" /\ Type_ r <> "CNAME" ->
  getProxyMetadata r = Ok None.
Proof.
  intros (H1 & H2 & H3). apply String.eqb_neq in H1, H2, H3.
  unfold getProxyMetadata. rewrite H1, H2, H3. reflexivity.
Qed.

Lemma cf_nativeToRecord_Ok (c : cfRecord) (domain : string) (rc : RecordConfig) :
  nativeToRecord c domain = Ok rc ->
  exists ct,
    rc = setContents ct
           (setLabels (SetLabelFromFQDN (cfName c) domain)
              (mkRecordConfig "" "" "" "" (cfTTL c) ∅
                 (CfOriginal
                    (mkCfRecord (cfID c)
                       (if String.eqb (cfType c) "SPF" then "TXT" else cfType c)
                       (cfName c)
                       (if String.eqb (cfType c) "CNAME"
                           || String.eqb (cfType c) "MX"
                           || String.eqb (cfType c) "NS"
                           || String.eqb (cfType c) "SRV"
                        then AddOrigin (cfContent c ++ ".") domain
                        else cfContent c)
                       (cfProxiable c) (cfProxied c) (cfTTL c) (cfLocked c)
                       (cfZoneID c) (cfZoneName c) (cfData c) (cfPriority c))))).
Proof.
  unfold nativeToRecord, bind. cbv zeta. intros H.
  destruct (String.eqb (if String.eqb (cfType c) "SPF" then "TXT" else cfType c)
                       "MX").
  - destruct (String.eqb (cfPriority c) "").
    + destruct (SetTargetMX _ _) as [ct| | |]; try discriminate.
      injection H as <-. eauto.
    + destruct (NumberInt64 _); try discriminate.
      destruct (SetTargetMX _ _) as [ct| | |]; try discriminate.
      injection H as <-. eauto.
  - destruct (String.eqb _ "SRV").
    + destruct (cfData c); try discriminate.
      destruct (SetTargetSRV _ _ _ _) as [ct| | |]; try discriminate.
      injection H as <-. eauto.
    + destruct (PopulateFromString _ _ _) as [ct| | |]; try discriminate.
      injection H as <-. eauto.
Qed.

(** X9.  [preprocessConfig] accepts [cloudflare_universalssl] in any case, and
    [checkUniversalSSL] compares it with [off] as it is written: a zone set
    to [off] in lower case is to have Universal SSL disabled, and a zone set
    to [OFF] or [Off] is to have it enabled. *)
Theorem X9_universalSSL_off_case (w : World) (dc : DomainConfig) (id : string)
  (actual : bool) :
  ToLower (getMeta (dcMetadata dc) metaUniversalSSL) = "off" ->
  getUniversalSSL w id = Ok actual ->
  checkUniversalSSLSetting dc = Ok tt
  /\ (getMeta (dcMetadata dc) metaUniversalSSL = "off" ->
      checkUniversalSSL w dc id = Ok (actual, false))
  /\ (getMeta (dcMetadata dc) metaUniversalSSL <> "off" ->
      checkUniversalSSL w dc id = Ok (negb actual, true)).
Proof.
  intros Hlow Hact.
  assert (Hne : getMeta (dcMetadata dc) metaUniversalSSL <> "").
  { intros E. rewrite E in Hlow. discriminate. }
  apply String.eqb_neq in Hne.
  split; [|split].
  - unfold checkUniversalSSLSetting. rewrite Hne, Hlow. reflexivity.
  - intros E. unfold checkUniversalSSL. rewrite Hne, Hact, E.
    destruct actual; reflexivity.
  - intros E. apply String.eqb_neq in E.
    unfold checkUniversalSSL. rewrite Hne, Hact, E.
    destruct actual; reflexivity.
Qed.

(** X10.  The value that [getProxyMetadata] adds to the comparison is the same
    for a desired record and an actual record of type A, AAAA or CNAME
    exactly when Cloudflare proxies the actual record and the desired
    setting is not [off], or neither; records of the other types get no
    such value. *)
Theorem X10_getProxyMetadata_agree (des act : RecordConfig) (cf : cfRecord) :
  Original_ des = NoOriginal -> Original_ act = CfOriginal cf ->
  Type_ act = Type_ des ->
  (Type_ des = "A" \/ Type_ des = "AAAA" \/ Type_ des = "CNAME" ->
   (getProxyMetadata des = getProxyMetadata act
    <-> cfProxied cf
        = negb (String.eqb (getMeta (Metadata des) metaProxy) "off")))
  /\ (Type_ des <> "A" /\ Type_ des <> "AAAA" /\ Type_ des <> "CNAME" ->
      getProxyMetadata des = Ok None /\ getProxyMetadata act = Ok None).
Proof.
  intros Hd Ha Ht. split.
  - intros Hty. rewrite !getProxyMetadata_proxied by congruence.
    rewrite Hd, Ha. split.
    + intros H.
      apply (f_equal (fun x => match x with
                               | Ok (Some m) => m
                               | _ => proxyValue true
                               end)) in H.
      cbv beta iota in H. apply proxyValue_inj in H. congruence.
    + intros ->. reflexivity.
  - intros Hty. split; apply getProxyMetadata_other; [|rewrite Ht]; exact Hty.
Qed.

(** X11.  The record that [cfRecord.nativeToRecord] returns has the TTL of the
    native record, no metadata and the label of its name, and its native
    handle is that record with its ID, name, proxy flags and TTL; its type
    is TXT if it was SPF. *)
Theorem X11_cf_nativeToRecord_keeps (c : cfRecord) (domain : string)
  (rc : RecordConfig) :
  nativeToRecord c domain = Ok rc ->
  TTL rc = cfTTL c /\ Metadata rc = ∅
  /\ (Name rc, NameFQDN rc) = SetLabelFromFQDN (cfName c) domain
  /\ exists cf,
       Original_ rc = CfOriginal cf
       /\ cfID cf = cfID c /\ cfName cf = cfName c
       /\ cfProxied cf = cfProxied c /\ cfProxiable cf = cfProxiable c
       /\ cfTTL cf = cfTTL c
       /\ cfType cf = (if String.eqb (cfType c) "SPF" then "TXT" else cfType c).
Proof.
  intros H. destruct (cf_nativeToRecord_Ok _ _ _ H) as (ct & ->). simpl.
  repeat split.
  - destruct (SetLabelFromFQDN (cfName c) domain); reflexivity.
  - eexists. split; [reflexivity|]. simpl. repeat split.
Qed.

(** X12.  On records converted by [nativeToRecord] the loop that cuts out the
    ignored labels never panics, and it keeps a record exactly when the
    name Cloudflare reported, trimmed of the zone's, is no ignored
    label. *)
Theorem X12_dropIgnored_native (c : CloudflareApi) (dc : DomainConfig)
  (natives : list cfRecord) (records : list RecordConfig) (domain : string) :
  mapM (fun cf => nativeToRecord cf domain) natives = Ok records ->
  exists kept,
    dropIgnored c dc records = Ok kept
    /\ forall i rec,
         records !! i = Some rec ->
         exists cf,
           natives !! i = Some cf
           /\ (In rec kept
               <-> labelMatches (TrimDomainName (cfName cf) (dcName dc))
                                (ignoredLabels c) = false).
Proof.
  intros H. apply mapM_Forall2 in H.
  assert (Hall : forallb hasCfOriginal records = true).
  { induction H as [|cf rec natives records Hx _ IH]; [reflexivity|].
    simpl. rewrite IH, andb_true_r.
    destruct (cf_nativeToRecord_Ok _ _ _ Hx) as (ct & ->). reflexivity. }
  rewrite (dropIgnored_filter _ _ _ Hall). eexists. split; [reflexivity|].
  intros i rec Hi.
  destruct (Forall2_lookup_r _ _ _ _ _ H Hi) as (cf & Hcf & Hx).
  exists cf. split; [exact Hcf|].
  destruct (cf_nativeToRecord_Ok _ _ _ Hx) as (ct & Hrec).
  assert (Hig : ignoredActual c dc rec
                = labelMatches (TrimDomainName (cfName cf) (dcName dc))
                               (ignoredLabels c)).
  { rewrite Hrec. reflexivity. }
  rewrite <- Hig. rewrite filter_In. split.
  - intros [_ Hn]. destruct (ignoredActual c dc rec); [discriminate|reflexivity].
  - intros Hn. split.
    + apply list_elem_of_In. eapply list_elem_of_lookup_2. exact Hi.
    + rewrite Hn. reflexivity.
Qed.

(** X13.  [GetDomainCorrections] of Cloudflare returns the "not listed" error
    for a zone that is not in the domain index, whether the index was there
    or has just been fetched, and the error of the fetch when that
    fails. *)
Theorem X13_cf_unknown_zone (c : CloudflareApi) (w : World) (dc : DomainConfig) :
  (forall index, domainIndex c = Some index -> index !! dcName dc = None ->
                 GetDomainCorrections c w dc = Err (ErrNotListed (dcName dc)))
  /\ (forall index, domainIndex c = None -> fetchDomainList w = Ok index ->
                    index !! dcName dc = None ->
                    GetDomainCorrections c w dc = Err (ErrNotListed (dcName dc)))
  /\ (forall e, domainIndex c = None -> fetchDomainList w = Err e ->
                GetDomainCorrections c w dc = Err e).
Proof.
  unfold GetDomainCorrections, categorizedCorrections, diffInputs,
    gatherInputs, lookupDomain.
  split; [|split].
  - intros index -> Hno. simpl. rewrite Hno. reflexivity.
  - intros index -> -> Hno. simpl. rewrite Hno. reflexivity.
  - intros e -> ->. reflexivity.
Qed.

(** X14.  The three loops of [GetDomainCorrections] build a plan without a
    panic, one correction for each delete and each modify, when every
    delete has an existing record and every create and modify a desired
    one, and the existing records that are no page rules carry a Cloudflare
    record as native handle. *)
Theorem X14_cf_recordCorrections_total (id : string)
  (create del modify : Changeset) :
  Forall (fun d => exists ex, Existing d = Some ex
                              /\ (Type_ ex = "PAGE_RULE"
                                  \/ hasCfOriginal ex = true)) del ->
  Forall (fun d => Desired d <> None) create ->
  Forall (fun d => exists des, Desired d = Some des
                               /\ (Type_ des = "PAGE_RULE"
                                   \/ exists ex, Existing d = Some ex
                                                 /\ hasCfOriginal ex = true))
         modify ->
  exists dels creates mods,
    recordCorrections id create del modify
    = Ok (tagged CatDelete dels ++ tagged CatCreate (concat creates)
          ++ tagged CatModify mods)%list
    /\ length dels = length del /\ length creates = length create
    /\ length mods = length modify.
Proof.
  intros Hd Hc Hm. unfold recordCorrections.
  assert (Ed : exists dels, mapM (deleteCorrection id) del = Ok dels
                            /\ length dels = length del).
  { induction Hd as [|d l (ex & He & Hk) _ IH]; [exists []; auto|].
    destruct IH as (dels & E & Hl). simpl. unfold deleteCorrection at 1.
    rewrite He. destruct (String.eqb_spec (Type_ ex) "PAGE_RULE") as [Ht|Ht].
    - simpl. rewrite E. simpl. eexists. split; [reflexivity|]. simpl. lia.
    - destruct Hk as [Hk|Hk]; [contradiction|]. unfold hasCfOriginal in Hk.
      destruct (Original_ ex); try discriminate. simpl. rewrite E. simpl.
      eexists. split; [reflexivity|]. simpl. lia. }
  assert (Ec : exists creates, mapM (createCorrections id) create = Ok creates
                               /\ length creates = length create).
  { induction Hc as [|d l Hdes _ IH]; [exists []; auto|].
    destruct IH as (creates & E & Hl). simpl. unfold createCorrections at 1.
    destruct (Desired d) as [des|]; [|contradiction].
    destruct (String.eqb (Type_ des) "PAGE_RULE"); simpl; rewrite E; simpl;
      (eexists; split; [reflexivity|]; simpl; lia). }
  assert (Em : exists mods, mapM (modifyCorrection id) modify = Ok mods
                            /\ length mods = length modify).
  { induction Hm as [|d l (des & He & Hk) _ IH]; [exists []; auto|].
    destruct IH as (mods & E & Hl). simpl. unfold modifyCorrection at 1.
    rewrite He. destruct (String.eqb_spec (Type_ des) "PAGE_RULE") as [Ht|Ht].
    - simpl. rewrite E. simpl. eexists. split; [reflexivity|]. simpl. lia.
    - destruct Hk as [Hk|(ex & Hex & Hk)]; [contradiction|]. rewrite Hex.
      unfold hasCfOriginal in Hk.
      destruct (Original_ ex); try discriminate. simpl. rewrite E. simpl.
      eexists. split; [reflexivity|]. simpl. lia. }
  destruct Ed as (dels & -> & Hld), Ec as (creates & -> & Hlc),
    Em as (mods & -> & Hlm).
  exists dels, creates, mods. simpl. auto.
Qed.

End ActualMore.

Lemma X9_universalSSL_off_case_witness :
  Cloudflare.checkUniversalSSLSetting
    (mkDomainConfig "example.com" [] {[ "cloudflare_universalssl" := "OFF" ]})
  = Ok tt
  /\ Cloudflare.checkUniversalSSL (sampleWorld [])
       (mkDomainConfig "example.com" []
                       {[ "cloudflare_universalssl" := "OFF" ]})
       "zone1"
     = Ok (false, true).
Proof.
  destruct (X9_universalSSL_off_case (sampleWorld [])
              (mkDomainConfig "example.com" []
                              {[ "cloudflare_universalssl" := "OFF" ]})
              "zone1" true)
    as (H1 & _ & H3).
  - vm_compute. reflexivity.
  - reflexivity.
  - split; [exact H1|]. apply H3. intros H. vm_compute in H. discriminate H.
Defined.

Lemma X10_getProxyMetadata_agree_witness :
  Cloudflare.getProxyMetadata (wwwDesired 1 "on")
  = Cloudflare.getProxyMetadata
      (mkRecordConfig "A" "www" "www.example.com" "1.2.3.4" 1 ∅
         (CfOriginal (sampleCf "r1" "A" "www.example.com" "1.2.3.4" 1 true))).
Proof.
  destruct (X10_getProxyMetadata_agree (wwwDesired 1 "on")
              (mkRecordConfig "A" "www" "www.example.com" "1.2.3.4" 1 ∅
                 (CfOriginal
                    (sampleCf "r1" "A" "www.example.com" "1.2.3.4" 1 true)))
              (sampleCf "r1" "A" "www.example.com" "1.2.3.4" 1 true)
              eq_refl eq_refl eq_refl)
    as [H _].
  apply H; [left; reflexivity|]. vm_compute. reflexivity.
Defined.

Lemma X11_cf_nativeToRecord_keeps_witness :
  exists rc : RecordConfig,
    Cloudflare.nativeToRecord (EXT := Sample.externals)
      (sampleCf "r9" "SPF" "example.com" "v=spf1 -all" 300 false) "example.com"
    = Ok rc
    /\ TTL rc = 300.
Proof.
  assert (E : exists rc,
             Cloudflare.nativeToRecord (EXT := Sample.externals)
               (sampleCf "r9" "SPF" "example.com" "v=spf1 -all" 300 false)
               "example.com"
             = Ok rc)
    by (eexists; vm_compute; reflexivity).
  destruct E as [rc E]. exists rc. split; [exact E|].
  exact (proj1 (X11_cf_nativeToRecord_keeps _ _ _ E)).
Defined.

Lemma X12_dropIgnored_native_witness :
  exists records kept : list RecordConfig,
    mapM (fun cf => Cloudflare.nativeToRecord (EXT := Sample.externals)
                      cf "example.com")
         [sampleCf "r1" "A" "www.example.com" "1.2.3.4" 1 false;
          sampleCf "r3" "A" "ignored.example.com" "6.6.6.6" 1 false]
    = Ok records
    /\ Cloudflare.dropIgnored (sampleApi false) (sampleZone []) records
       = Ok kept.
Proof.
  assert (E : exists records,
             mapM (fun cf => Cloudflare.nativeToRecord (EXT := Sample.externals)
                               cf "example.com")
                  [sampleCf "r1" "A" "www.example.com" "1.2.3.4" 1 false;
                   sampleCf "r3" "A" "ignored.example.com" "6.6.6.6" 1 false]
             = Ok records)
    by (eexists; vm_compute; reflexivity).
  destruct E as [records E].
  destruct (X12_dropIgnored_native (sampleApi false) (sampleZone []) _ _ _ E)
    as (kept & Hk & _).
  exists records, kept. split; [exact E|exact Hk].
Defined.

Lemma X13_cf_unknown_zone_witness :
  Cloudflare.GetDomainCorrections (sampleApi false) (sampleWorld [])
    (mkDomainConfig "other.org" [] ∅)
  = Err (ErrNotListed "other.org").
Proof.
  apply (proj1 (X13_cf_unknown_zone (sampleApi false) (sampleWorld [])
                  (mkDomainConfig "other.org" [] ∅))
               {[ "example.com" := "zone1" ]}).
  - reflexivity.
  - vm_compute. reflexivity.
Defined.

Lemma X14_cf_recordCorrections_total_witness :
  exists dels creates mods,
    Cloudflare.recordCorrections (EXT := Sample.externals) "zone1"
      [mkCorrelation None (Some (wwwDesired 1 "off"))]
      [mkCorrelation (Some oldActual) None] []
    = Ok (tagged CatDelete dels ++ tagged CatCreate (concat creates)
          ++ tagged CatModify mods)%list
    /\ length dels = 1%nat /\ length creates = 1%nat /\ length mods = 0%nat.
Proof.
  apply (X14_cf_recordCorrections_total (EXT := Sample.externals) "zone1"
           [mkCorrelation None (Some (wwwDesired 1 "off"))]
           [mkCorrelation (Some oldActual) None] []).
  - constructor; [|constructor]. exists oldActual. split; [reflexivity|].
    right. vm_compute. reflexivity.
  - constructor; [|constructor]. discriminate.
  - constructor.
Defined.

(** ** Cloudflare: the account *)

Section AccountMore.
Context `{EXT : Externals} {AEXT : @AccountExternals EXT}.
Import Cloudflare.

Lemma newCloudflare_Answer (m : gmap string string) (metadata : string)
  (a : Account) (warned : list string) (api : CloudflareApi) :
  newCloudflare m metadata a = (warned, Answer api) ->
  exists l conversions ignored redirects,
    listDomains a = inr l
    /\ api = mkCloudflareApi (getMeta m "apikey") (getMeta m "apiuser")
               (getMeta m "accountid") (getMeta m "accountname")
               (Some (listedIDs l)) (listedNameservers l)
               conversions ignored redirects
    /\ getMeta m "apikey" <> "" /\ getMeta m "apiuser" <> ""
    /\ (getMeta m "accountid" = "" <-> getMeta m "accountname" = "")
    /\ (metadata = "" ->
        conversions = [] /\ ignored = [] /\ redirects = false /\ warned = [])
    /\ (metadata <> "" ->
        exists parsedMeta,
          Unmarshal metadata = inr parsedMeta
          /\ ignored = IgnoredLabels parsedMeta
          /\ redirects = ManageRedirects parsedMeta
          /\ (IPConversions parsedMeta = "" -> conversions = [])
          /\ (IPConversions parsedMeta <> "" ->
              DecodeTransformTable (IPConversions parsedMeta)
              = inr conversions)
          /\ warned = if (0 <? length ignored)%nat
                      then [ignoredLabelsWarning] else []).
Proof.
  unfold newCloudflare. intros H.
  destruct (String.eqb_spec (getMeta m "apikey") "") as [Hk|Hk];
    [discriminate|].
  destruct (String.eqb_spec (getMeta m "apiuser") "") as [Hu|Hu];
    [discriminate|].
  simpl in H.
  destruct (String.eqb_spec (getMeta m "accountid") "") as [Hi|Hi];
    destruct (String.eqb_spec (getMeta m "accountname") "") as [Hn|Hn];
    simpl in H; try discriminate;
    (destruct (listDomains a) as [err|l]; [discriminate|]);
    exists l.
  all: assert (Hacc : getMeta m "accountid" = ""
                      <-> getMeta m "accountname" = "") by tauto.
  all: destruct metadata as [|ch metadata]; simpl in H.
  all: try (injection H as <- <-;
            exists [], [], false; repeat split; try tauto; try discriminate;
            intros; congruence).
  all: destruct (Unmarshal (String ch metadata)) as [err|parsedMeta];
    [discriminate|].
  all: destruct (IPConversions parsedMeta) as [|ch' conv] eqn:Hconv;
    simpl in H.
  all: try (injection H as <- <-;
            exists [], (IgnoredLabels parsedMeta), (ManageRedirects parsedMeta);
            repeat split; try tauto; try discriminate;
            intros _; exists parsedMeta; rewrite Hconv;
            repeat split; try tauto; try congruence).
  all: destruct (DecodeTransformTable (String ch' conv)) as [err|conversions]
         eqn:Hdec; [discriminate|].
  all: injection H as <- <-;
    exists conversions, (IgnoredLabels parsedMeta), (ManageRedirects parsedMeta);
    repeat split; try tauto; try discriminate;
    intros _; exists parsedMeta; rewrite Hconv;
    repeat split; try tauto; try congruence; try discriminate.
Qed.

(** X15.  [newCloudflare] refuses credentials without [apikey] or [apiuser],
    and credentials with only one of [accountid] and [accountname], before
    it asks the API for anything; the provider it returns holds the four
    values of the credentials, a key and a user that are not empty, and an
    account id and name that are both empty or both set. *)
Theorem X15_newCloudflare_credentials (m : gmap string string) (metadata : string)
  (a : Account) :
  (getMeta m "apikey" = "" \/ getMeta m "apiuser" = "" ->
   newCloudflare m metadata a = ([], Refused ErrKeysMissing))
  /\ (getMeta m "apikey" <> "" -> getMeta m "apiuser" <> "" ->
      (getMeta m "accountid" = "" /\ getMeta m "accountname" <> "")
      \/ (getMeta m "accountid" <> "" /\ getMeta m "accountname" = "") ->
      newCloudflare m metadata a = ([], Refused ErrAccountHalfSet))
  /\ (forall warned api,
         newCloudflare m metadata a = (warned, Answer api) ->
         ApiKey api = getMeta m "apikey" /\ ApiKey api <> ""
         /\ ApiUser api = getMeta m "apiuser" /\ ApiUser api <> ""
         /\ AccountID api = getMeta m "accountid"
         /\ AccountName api = getMeta m "accountname"
         /\ (AccountID api = "" <-> AccountName api = "")).
Proof.
  split; [|split].
  - intros H. unfold newCloudflare.
    destruct H as [-> | ->]; [reflexivity|]. rewrite orb_true_r. reflexivity.
  - intros Hk Hu H. unfold newCloudflare.
    apply String.eqb_neq in Hk, Hu. rewrite Hk, Hu. simpl.
    destruct H as [[-> Hn]|[Hi ->]].
    + apply String.eqb_neq in Hn. rewrite Hn. reflexivity.
    + apply String.eqb_neq in Hi. rewrite Hi. reflexivity.
  - intros warned api H.
    destruct (newCloudflare_Answer _ _ _ _ _ H)
      as (l & conversions & ignored & redirects & _ & -> & Hk & Hu & Hacc & _).
    simpl. auto 10.
Qed.

(** X16.  The provider that [newCloudflare] returns works from the domain list
    fetched at its creation: [GetNameservers], the zone look-up of
    [GetDomainCorrections] and [EnsureDomainExists] answer from that list
    whatever the API would answer later, with the "not found" errors for a
    domain that is not in it. *)
Theorem X16_newCloudflare_caches_domain_list (m : gmap string string)
  (metadata : string) (a : Account) (warned : list string)
  (api : CloudflareApi) :
  newCloudflare m metadata a = (warned, Answer api) ->
  exists l,
    listDomains a = inr l
    /\ forall (later : Account) (w : World) (domain : string),
         GetNameservers api later domain
         = match listedNameservers l !! domain with
           | Some ns => Answer (StringsToNameservers ns)
           | None => Refused (ErrNameserversNotFound domain)
           end
         /\ lookupDomain api w domain
            = match listedIDs l !! domain with
              | Some id => Ok id
              | None => Err (ErrNotListed domain)
              end
         /\ (is_Some (listedIDs l !! domain) ->
             EnsureDomainExists api later domain = ([], None)).
Proof.
  intros H.
  destruct (newCloudflare_Answer _ _ _ _ _ H)
    as (l & conversions & ignored & redirects & Hl & -> & _).
  exists l. split; [exact Hl|]. intros later w domain.
  unfold GetNameservers, lookupDomain, EnsureDomainExists. simpl.
  split; [reflexivity|]. split; [reflexivity|].
  intros [id ->]. reflexivity.
Qed.

(** X17.  A provider made by [newCloudflare] without metadata prints no
    warning, ignores no label, converts no address and does not manage
    redirects: [preprocessConfig] returns an error for every zone with a
    CF_REDIRECT or CF_TEMP_REDIRECT record. *)
Theorem X17_newCloudflare_without_metadata (m : gmap string string) (a : Account)
  (warned : list string) (api : CloudflareApi) :
  newCloudflare m "" a = (warned, Answer api) ->
  warned = [] /\ ignoredLabels api = [] /\ ipConversions api = []
  /\ manageRedirects api = false
  /\ forall (dc : DomainConfig) (rec : RecordConfig),
       In rec (Records dc) -> isRedirect (Type_ rec) = true ->
       exists e, preprocessConfig api dc = Err e.
Proof.
  intros H.
  destruct (newCloudflare_Answer _ _ _ _ _ H)
    as (l & conversions & ignored & redirects & _ & -> & _ & _ & _ & Hno & _).
  destruct (Hno eq_refl) as (-> & -> & -> & ->). simpl.
  repeat split. intros dc rec Hin Hr.
  apply preprocessRecords_Err_config. intros defProxy.
  apply (preprocessRecords_bad_redirect _ _ _ rec Hin Hr). left. reflexivity.
Qed.

(** X18.  [EnsureDomainExists] does nothing for a domain of the domain index.
    For any other domain, and for every domain while the index is nil, it
    calls [createZone], prints the line with the id it got, also when the
    call failed, and returns the error of the call. *)
Theorem X18_EnsureDomainExists_creates (c : CloudflareApi) (a : Account)
  (domain : string) :
  let listed :=
    exists index id, domainIndex c = Some index /\ index !! domain = Some id in
  (listed -> EnsureDomainExists c a domain = ([], None))
  /\ (~ listed ->
      EnsureDomainExists c a domain
      = (["Added zone for " ++ domain ++ " to Cloudflare account: "
          ++ fst (createZone a domain) ++ newline],
         snd (createZone a domain))).
Proof.
  cbv zeta. unfold EnsureDomainExists. split.
  - intros (index & id & -> & Hid). simpl. rewrite Hid. reflexivity.
  - intros Hno. destruct (domainIndex c) as [index|]; simpl.
    + destruct (index !! domain) as [id|] eqn:E.
      * exfalso. apply Hno. eauto.
      * destruct (createZone a domain). reflexivity.
    + rewrite lookup_empty. destruct (createZone a domain). reflexivity.
Qed.

End AccountMore.

Lemma X15_newCloudflare_credentials_witness :
  Cloudflare.newCloudflare (AEXT := Sample.accountExternals)
    {[ "apikey" := "key" ]} "" sampleAccount
  = ([], Refused ErrKeysMissing).
Proof.
  apply (proj1 (X15_newCloudflare_credentials
                  (AEXT := Sample.accountExternals)
                  {[ "apikey" := "key" ]} "" sampleAccount)).
  right. vm_compute. reflexivity.
Defined.

Lemma X16_newCloudflare_caches_domain_list_witness :
  exists warned api,
    Cloudflare.newCloudflare (AEXT := Sample.accountExternals)
      sampleCredentials "" sampleAccount
    = (warned, Answer api)
    /\ Cloudflare.GetNameservers (AEXT := Sample.accountExternals) api
         (Cloudflare.mkAccount (inl (ErrExternal "down"))
                               (fun _ => ("", None)))
         "example.com"
       = Answer [mkNameserver "amy.ns.cloudflare.com";
                 mkNameserver "bob.ns.cloudflare.com"].
Proof.
  assert (E : exists warned api,
             Cloudflare.newCloudflare (AEXT := Sample.accountExternals)
               sampleCredentials "" sampleAccount
             = (warned, Answer api))
    by (do 2 eexists; reflexivity).
  destruct E as (warned & api & E). exists warned, api. split; [exact E|].
  destruct (X16_newCloudflare_caches_domain_list _ _ _ _ _ E)
    as (l & Hl & H).
  injection Hl as <-.
  destruct (H (Cloudflare.mkAccount (inl (ErrExternal "down"))
                                    (fun _ => ("", None)))
              (sampleWorld []) "example.com")
    as (H1 & _).
  rewrite H1. vm_compute. reflexivity.
Defined.

Lemma X17_newCloudflare_without_metadata_witness :
  exists warned api,
    Cloudflare.newCloudflare (AEXT := Sample.accountExternals)
      sampleCredentials "" sampleAccount
    = (warned, Answer api)
    /\ Cloudflare.manageRedirects api = false
    /\ exists e, Cloudflare.preprocessConfig api redirectZone = Err e.
Proof.
  assert (E : exists warned api,
             Cloudflare.newCloudflare (AEXT := Sample.accountExternals)
               sampleCredentials "" sampleAccount
             = (warned, Answer api))
    by (do 2 eexists; reflexivity).
  destruct E as (warned & api & E). exists warned, api. split; [exact E|].
  destruct (X17_newCloudflare_without_metadata _ _ _ _ E)
    as (_ & _ & _ & Hno & Hbad).
  split; [exact Hno|].
  apply (Hbad redirectZone
              (sampleRecord "CF_REDIRECT" "@" "a.example.com/*,https://b/"
                            1 ∅)).
  - left. reflexivity.
  - reflexivity.
Defined.

Lemma X18_EnsureDomainExists_creates_witness :
  Cloudflare.EnsureDomainExists (sampleApi false) sampleAccount "example.com"
  = ([], None).
Proof.
  apply (proj1 (X18_EnsureDomainExists_creates (sampleApi false) sampleAccount
                  "example.com")).
  exists {[ "example.com" := "zone1" ]}, "zone1".
  split; [reflexivity|]. vm_compute. reflexivity.
Defined.

(** ** OVH: the records it reports, its zones and its nameservers *)

Section OvhMore.
Context `{EXT : Externals} {AEXT : @AccountExternals EXT}.

(** X19.  The actual records of OVH are the conversions of the native records
    that are no SOA records, in their order: each has the native record as
    its handle, the label of its sub-domain, no metadata, and the type and
    target that [PopulateFromString] makes of its target, read as TXT when
    its type is SPF or DKIM. *)
Theorem X19_ovh_toActual_records (records : list OvhRecord) (origin : string)
  (actual : list RecordConfig) :
  Ovh.toActual records origin = Ok actual ->
  Forall2 (fun r rec =>
             Original_ rec = OvhOriginal r
             /\ (Name rec, NameFQDN rec) = SetLabel (SubDomain r) origin
             /\ PopulateFromString
                  (if String.eqb (FieldType r) "SPF"
                      || String.eqb (FieldType r) "DKIM"
                   then "TXT" else FieldType r)
                  (ovhTarget r) origin
                = Ok (Type_ rec, Target rec)
             /\ Metadata rec = ∅)
          (List.filter (fun r => negb (String.eqb (FieldType r) "SOA")) records)
          actual.
Proof.
  revert actual. induction records as [|r rest IH]; simpl; intros actual H.
  - injection H as <-. constructor.
  - inv_bind H. inv_bind H. injection H as <-.
    unfold Ovh.nativeToRecord, Ovh.rtypeOf in Ha.
    destruct (String.eqb (FieldType r) "SOA"); simpl.
    + injection Ha as <-. auto.
    + destruct (PopulateFromString _ _ _) as [[t tg]| | |] eqn:E;
        try discriminate.
      injection Ha as <-. constructor; [|auto].
      destruct (SetLabel (SubDomain r) origin) as [l f].
      simpl. destruct (wrapUint32 (ovhTTL r) =? 0)%Z; simpl; auto.
Qed.

(** X20.  [GetDomainCorrections] of OVH returns [errNoExist] unless the zone's
    entry in [zones] is true, while [GetNameservers] only refuses a domain
    that has no entry: for an entry that is false it asks the API and
    returns the nameservers. *)
Theorem X20_ovh_zone_checks (c : Ovh.ovhProvider) (w : Ovh.World)
  (reg : Ovh.Registrar) (dc : DomainConfig) (domain : string) :
  (Ovh.zones c !! dcName (Punycode dc) <> Some true ->
   Ovh.GetDomainCorrections c w dc = Err (ErrNoExist (dcName (Punycode dc))))
  /\ (Ovh.zones c !! domain = None ->
      Ovh.GetNameservers c reg domain = Refused (ErrNotInZones domain))
  /\ (forall listed : bool,
         Ovh.zones c !! domain = Some listed ->
         Ovh.GetNameservers c reg domain
         = match Ovh.fetchRegistrarNS reg domain with
           | inl err => Refused (ErrFrom err)
           | inr ns => Answer (StringsToNameservers ns)
           end).
Proof.
  split; [|split].
  - intros H. unfold Ovh.GetDomainCorrections, Ovh.categorizedCorrections.
    destruct (Ovh.zones c !! dcName (Punycode dc)) as [[|]|];
      [congruence|reflexivity|reflexivity].
  - intros H. unfold Ovh.GetNameservers. rewrite H. reflexivity.
  - intros listed H. unfold Ovh.GetNameservers. rewrite H. reflexivity.
Qed.

(** X21.  [GetRegistrarCorrections] returns no correction when the nameservers
    in use are those of the configuration in any order. *)
Theorem X21_GetRegistrarCorrections_same_set (w : Ovh.Registrar)
  (dc : DomainConfig) (nameservers : list Nameserver) (actualNs : list string) :
  Ovh.fetchRegistrarNS w (dcName dc) = inr actualNs ->
  Permutation actualNs (map nsName nameservers) ->
  Ovh.GetRegistrarCorrections w dc nameservers = Answer [].
Proof.
  intros Hf Hp. unfold Ovh.GetRegistrarCorrections. rewrite Hf.
  rewrite (Strings_Permutation _ _ Hp). rewrite String.eqb_refl. reflexivity.
Qed.

(** X22.  When the nameservers in use are not those of the configuration, and
    all names are non-empty and without a comma, [GetRegistrarCorrections]
    returns one correction: its message shows both lists sorted, and its
    call sets the configured names, sorted. *)
Theorem X22_GetRegistrarCorrections_change (w : Ovh.Registrar)
  (dc : DomainConfig) (nameservers : list Nameserver) (actualNs : list string) :
  Ovh.fetchRegistrarNS w (dcName dc) = inr actualNs ->
  Forall hostName actualNs -> Forall hostName (map nsName nameservers) ->
  ~ Permutation actualNs (map nsName nameservers) ->
  exists expected,
    Ovh.GetRegistrarCorrections w dc nameservers
    = Answer [mkNameserverCorrection
                ("Change Nameservers from '"
                 ++ Join (GoSort.Strings actualNs) "," ++ "' to '"
                 ++ Join expected "," ++ "'")
                (dcName dc) expected]
    /\ Permutation expected (map nsName nameservers)
    /\ expected = GoSort.Strings expected.
Proof.
  intros Hf Ha He Hp. unfold Ovh.GetRegistrarCorrections. rewrite Hf.
  destruct (String.eqb_spec
              (Join (GoSort.Strings actualNs) ",")
              (Join (GoSort.Strings (map nsName nameservers)) ","))
    as [E|E].
  - exfalso. apply Hp. apply Join_inj in E.
    + rewrite <- (Strings_perm actualNs), E. apply Strings_perm.
    + rewrite Strings_perm. exact Ha.
    + rewrite Strings_perm. exact He.
  - simpl. eexists. split; [reflexivity|]. split; [apply Strings_perm|].
    apply Strings_Permutation. symmetry. apply Strings_perm.
Qed.

(** X23.  [GetRegistrarCorrections] compares the joined lists: one nameserver in
    use whose name is [a,b] is not told apart from the two configured names
    [a] and [b], nor is a configured empty name from no nameserver in use,
    and no correction is returned. *)
Theorem X23_GetRegistrarCorrections_joined (w : Ovh.Registrar) (dc : DomainConfig)
  (a b : string) :
  (Ovh.fetchRegistrarNS w (dcName dc) = inr [a ++ "," ++ b] ->
   String.leb a b = true ->
   Ovh.GetRegistrarCorrections w dc [mkNameserver a; mkNameserver b]
   = Answer [])
  /\ (Ovh.fetchRegistrarNS w (dcName dc) = inr [] ->
      Ovh.GetRegistrarCorrections w dc [mkNameserver ""] = Answer []).
Proof.
  unfold Ovh.GetRegistrarCorrections. split.
  - intros -> Hab. simpl. rewrite Hab. simpl.
    rewrite String.eqb_refl. reflexivity.
  - intros ->. reflexivity.
Qed.

End OvhMore.

Lemma X19_ovh_toActual_records_witness :
  exists actual : list RecordConfig,
    Ovh.toActual (EXT := Sample.externals)
      [mkOvhRecord 1 "SOA" "" "dns.ovh.net. tech.ovh.net. 1 2 3 4 5" 0;
       mkOvhRecord 2 "SPF" "" "v=spf1 -all" 0]
      "example.com"
    = Ok actual
    /\ length actual = 1%nat.
Proof.
  assert (E : exists actual,
             Ovh.toActual (EXT := Sample.externals)
               [mkOvhRecord 1 "SOA" "" "dns.ovh.net. tech.ovh.net. 1 2 3 4 5" 0;
                mkOvhRecord 2 "SPF" "" "v=spf1 -all" 0]
               "example.com"
             = Ok actual)
    by (eexists; vm_compute; reflexivity).
  destruct E as [actual E]. exists actual. split; [exact E|].
  rewrite <- (Forall2_length _ _ _ (X19_ovh_toActual_records _ _ _ E)).
  reflexivity.
Defined.

Lemma X20_ovh_zone_checks_witness :
  Ovh.GetDomainCorrections (EXT := Sample.externals)
    (Ovh.mkOvhProvider {[ "example.com" := false ]}) (sampleOvhWorld [])
    (sampleZone [])
  = Err (ErrNoExist "example.com")
  /\ Ovh.GetNameservers (AEXT := Sample.accountExternals)
       (Ovh.mkOvhProvider {[ "example.com" := false ]})
       (sampleRegistrar ["dns1.ovh.net"]) "example.com"
     = Answer [mkNameserver "dns1.ovh.net"].
Proof.
  destruct (X20_ovh_zone_checks (AEXT := Sample.accountExternals)
              (Ovh.mkOvhProvider {[ "example.com" := false ]})
              (sampleOvhWorld []) (sampleRegistrar ["dns1.ovh.net"])
              (sampleZone []) "example.com")
    as (H1 & _ & H3).
  split.
  - apply H1. intros H. vm_compute in H. discriminate H.
  - rewrite (H3 false); [reflexivity|]. vm_compute. reflexivity.
Defined.

Lemma X21_GetRegistrarCorrections_same_set_witness :
  Ovh.GetRegistrarCorrections (sampleRegistrar ["b.example"; "a.example"])
    (sampleZone []) [mkNameserver "a.example"; mkNameserver "b.example"]
  = Answer [].
Proof.
  apply (X21_GetRegistrarCorrections_same_set
           (sampleRegistrar ["b.example"; "a.example"]) (sampleZone [])
           [mkNameserver "a.example"; mkNameserver "b.example"]
           ["b.example"; "a.example"]).
  - reflexivity.
  - simpl. apply perm_swap.
Defined.

Lemma X22_GetRegistrarCorrections_change_witness :
  exists cs : list NameserverCorrection,
    Ovh.GetRegistrarCorrections (sampleRegistrar ["old.example"])
      (sampleZone []) [mkNameserver "new.example"]
    = Answer cs
    /\ length cs = 1%nat.
Proof.
  destruct (X22_GetRegistrarCorrections_change
              (sampleRegistrar ["old.example"]) (sampleZone [])
              [mkNameserver "new.example"] ["old.example"])
    as (expected & H & _).
  - reflexivity.
  - constructor; [|constructor]. split; [discriminate|reflexivity].
  - constructor; [|constructor]. split; [discriminate|reflexivity].
  - simpl. intros H. apply Permutation_length_1 in H. discriminate H.
  - eexists. split; [exact H|]. reflexivity.
Defined.

Lemma X23_GetRegistrarCorrections_joined_witness :
  Ovh.GetRegistrarCorrections (sampleRegistrar ["a.example,b.example"])
    (sampleZone []) [mkNameserver "a.example"; mkNameserver "b.example"]
  = Answer [].
Proof.
  apply (proj1 (X23_GetRegistrarCorrections_joined
                  (sampleRegistrar ["a.example,b.example"]) (sampleZone [])
                  "a.example" "b.example")).
  - reflexivity.
  - reflexivity.
Defined.

(** ** SPF: the parser, the count of the lookups and the printer *)

Section SpfMore.
Import Spflib.

Lemma parseParts_without_resolver
  (parse parse' : string -> option (result SPFRecord)) (nparts : nat)
  (parts : list string) :
  forall (pi : nat) (acc : list SPFPart),
    Forall (fun p => IncludeRecord p = None) acc ->
    exists r,
      parseParts parse None nparts pi parts acc = Some r
      /\ parseParts parse' None nparts pi parts acc = Some r
      /\ isAbort r = false
      /\ forall ps, r = Ok ps -> Forall (fun p => IncludeRecord p = None) ps.
Proof.
  induction parts as [|text rest IH]; intros pi acc Hacc.
  - exists (Ok acc). simpl. repeat split; auto. intros ps E.
    injection E as <-. exact Hacc.
  - assert (Hnext : forall p, IncludeRecord p = None ->
                              Forall (fun p => IncludeRecord p = None)
                                     (acc ++ [p])%list).
    { intros p Hp. apply Forall_app. split; [exact Hacc|]. constructor; auto. }
    simpl. destruct (String.eqb text ""); [apply IH; exact Hacc|].
    destruct (String.eqb (stripQualifier text) "all").
    { eexists. repeat split; auto. intros ps E. injection E as <-.
      apply Hnext. reflexivity. }
    destruct (HasPrefix (stripQualifier text) "a"
              || HasPrefix (stripQualifier text) "mx");
      [apply IH; apply Hnext; reflexivity|].
    destruct (HasPrefix (stripQualifier text) "ip4:"
              || HasPrefix (stripQualifier text) "ip6:");
      [apply IH; apply Hnext; reflexivity|].
    destruct (HasPrefix (stripQualifier text) "include:"
              || HasPrefix (stripQualifier text) "redirect:").
    { destruct (HasPrefix (stripQualifier text) "redirect:"
                && negb (pi + 2 =? nparts)%nat).
      - eexists. repeat split; auto. intros ps E. discriminate E.
      - apply IH. apply Hnext. reflexivity. }
    destruct (HasPrefix (stripQualifier text) "exists:"
              || HasPrefix (stripQualifier text) "ptr:");
      [apply IH; apply Hnext; reflexivity|].
    eexists. repeat split; auto. intros ps E. discriminate E.
Qed.

Lemma HasPrefix_a_not_ip (part : string) :
  HasPrefix part "a" || HasPrefix part "mx" = true ->
  HasPrefix part "ip4:" || HasPrefix part "ip6:" = false.
Proof.
  destruct part as [|ch part]; [discriminate|]. rewrite !HasPrefix_cons.
  destruct (Ascii.eqb_spec "a" ch) as [<-|Ha]; [reflexivity|].
  destruct (Ascii.eqb_spec "m" ch) as [<-|Hm]; [reflexivity|].
  simpl. intros H. discriminate H.
Qed.

Lemma parseParts_texts (parse : string -> option (result SPFRecord))
  (dnsres : option Resolver) (nparts : nat) (parts : list string) :
  forall (pi : nat) (acc ps : list SPFPart),
    parseParts parse dnsres nparts pi parts acc = Some (Ok ps) ->
    map Text ps
    = (map Text acc
       ++ upToAll (List.filter (fun part => negb (String.eqb part "")) parts))%list
    /\ (Forall flagged acc -> Forall flagged ps).
Proof.
  induction parts as [|text rest IH]; intros pi acc ps H.
  - injection H as <-. simpl. rewrite app_nil_r. auto.
  - assert (Hnext : forall p,
               Text p = text -> isAll text = false ->
               parseParts parse dnsres nparts (S pi) rest (acc ++ [p])%list
               = Some (Ok ps) ->
               (negb (String.eqb text "") = true) ->
               map Text ps
               = (map Text acc
                  ++ upToAll (text :: List.filter
                                        (fun part => negb (String.eqb part ""))
                                        rest))%list
               /\ (flagged p -> Forall flagged acc -> Forall flagged ps)).
    { intros p Hp Hall Hrest _. apply IH in Hrest. destruct Hrest as [E F].
      split.
      - rewrite E, map_app, <- app_assoc. simpl. rewrite Hall, Hp. reflexivity.
      - intros Fp Facc. apply F. apply Forall_app. split; [exact Facc|].
        constructor; [exact Fp|constructor]. }
    simpl in H. simpl List.filter.
    destruct (String.eqb text "") eqn:Hempty; simpl negb; cbv iota.
    { apply IH in H. exact H. }
    unfold isAll in Hnext.
    destruct (String.eqb (stripQualifier text) "all") eqn:Hall.
    { injection H as <-. split.
      - rewrite map_app. simpl. unfold isAll. rewrite Hall. reflexivity.
      - intros Facc. apply Forall_app. split; [exact Facc|].
        constructor; [|constructor]. unfold flagged, isAll. simpl.
        rewrite Hall. reflexivity. }
    destruct (HasPrefix (stripQualifier text) "a"
              || HasPrefix (stripQualifier text) "mx") eqn:Ha.
    { match type of H with
      | parseParts _ _ _ _ _ (_ ++ [?p])%list = _ =>
          destruct (Hnext p eq_refl eq_refl H eq_refl) as [E F]
      end.
      split; [exact E|]. apply F. unfold flagged, isAll, isIP. simpl.
      rewrite Hall, (HasPrefix_a_not_ip _ Ha). reflexivity. }
    destruct (HasPrefix (stripQualifier text) "ip4:"
              || HasPrefix (stripQualifier text) "ip6:") eqn:Hip.
    { match type of H with
      | parseParts _ _ _ _ _ (_ ++ [?p])%list = _ =>
          destruct (Hnext p eq_refl eq_refl H eq_refl) as [E F]
      end.
      split; [exact E|]. apply F. unfold flagged, isAll, isIP. simpl.
      rewrite Hall, Hip. reflexivity. }
    assert (Hflag : forall inc dom, flagged (mkSPFPart text true inc dom)).
    { intros inc dom. unfold flagged, isAll, isIP. simpl.
      rewrite Hall, Hip. reflexivity. }
    destruct (HasPrefix (stripQualifier text) "include:"
              || HasPrefix (stripQualifier text) "redirect:").
    { destruct (HasPrefix (stripQualifier text) "redirect:"
                && negb (pi + 2 =? nparts)%nat); [discriminate|].
      destruct dnsres as [res|].
      - destruct (GetSPF _) as [subRecord| | |]; try discriminate.
        destruct (parse subRecord) as [[sub| | |]|]; try discriminate.
        match type of H with
      | parseParts _ _ _ _ _ (_ ++ [?p])%list = _ =>
          destruct (Hnext p eq_refl eq_refl H eq_refl) as [E F]
      end.
        split; [exact E|]. apply F. apply Hflag.
      - match type of H with
      | parseParts _ _ _ _ _ (_ ++ [?p])%list = _ =>
          destruct (Hnext p eq_refl eq_refl H eq_refl) as [E F]
      end.
        split; [exact E|]. apply F. apply Hflag. }
    destruct (HasPrefix (stripQualifier text) "exists:"
              || HasPrefix (stripQualifier text) "ptr:"); [|discriminate].
    match type of H with
      | parseParts _ _ _ _ _ (_ ++ [?p])%list = _ =>
          destruct (Hnext p eq_refl eq_refl H eq_refl) as [E F]
      end.
    split; [exact E|]. apply F. apply Hflag.
Qed.

Lemma Parse_Ok (depth : nat) (text : string) (dnsres : option Resolver)
  (rec : SPFRecord) :
  Parse depth text dnsres = Some (Ok rec) ->
  exists depth',
    depth = S depth' /\ HasPrefix text "v=spf1 " = true
    /\ parseParts (fun sub => Parse depth' sub dnsres) dnsres
                  (length (Split text " ")) 0 (tl (Split text " ")) []
       = Some (Ok (Parts rec)).
Proof.
  destruct depth as [|depth']; [discriminate|]. simpl. intros H.
  exists depth'. split; [reflexivity|].
  destruct (HasPrefix text "v=spf1 "); [|discriminate]. split; [reflexivity|].
  simpl in H.
  destruct (parseParts _ _ _ _ _ _) as [[ps| | |]|]; try discriminate.
  injection H as <-. reflexivity.
Qed.

Lemma Lookups_loop (ps : list SPFPart) :
  Lookups (mkSPFRecord ps) = lookupsLoop ps 0.
Proof. reflexivity. Qed.

Lemma lookupsLoop_sum (ps : list SPFPart) :
  forall count : Z,
    wrapInt count = count ->
    lookupsLoop ps count = wrapInt (count + sumZ (map partLookups ps)).
Proof.
  induction ps as [|[text isLookup inc dom] rest IH]; intros count Hc.
  - simpl. rewrite Z.add_0_r. symmetry. exact Hc.
  - simpl lookupsLoop. cbv zeta.
    set (c1 := if isLookup then wrapInt (count + 1) else count).
    set (c2 := match inc with
               | Some sub => wrapInt (c1 + Lookups sub)
               | None => c1
               end).
    assert (H1 : wrapInt c1 = c1)
      by (unfold c1; destruct isLookup; [apply wrapInt_idem|exact Hc]).
    assert (H2 : wrapInt c2 = c2)
      by (unfold c2; destruct inc; [apply wrapInt_idem|exact H1]).
    rewrite (IH c2 H2).
    assert (E : wrapInt c2
                = wrapInt (count + partLookups (mkSPFPart text isLookup inc dom))).
    { unfold c2, c1, partLookups. simpl.
      destruct isLookup, inc as [sub|];
        rewrite ?wrapInt_idem, ?wrapInt_add_l; f_equal; lia. }
    rewrite <- (wrapInt_add_l c2), E, wrapInt_add_l. simpl sumZ. f_equal. lia.
Qed.

Lemma sumZ_flat (ps : list SPFPart) :
  Forall (fun p => IncludeRecord p = None) ps ->
  sumZ (map partLookups ps) = Z.of_nat (length (List.filter IsLookup ps)).
Proof.
  induction 1 as [|p ps Hp _ IH]; [reflexivity|].
  simpl sumZ. rewrite IH. unfold partLookups. rewrite Hp. simpl.
  destruct (IsLookup p); simpl length; lia.
Qed.

Lemma isAll_cases (part : string) :
  isAll part = true ->
  part = "all" \/ exists b, qualifiers b = true /\ part = String b "all".
Proof.
  unfold isAll, stripQualifier. destruct part as [|b rest]; [discriminate|].
  destruct (qualifiers b) eqn:Hq; intros H; apply String.eqb_eq in H.
  - right. exists b. subst. auto.
  - left. exact H.
Qed.

Lemma isAll_no_space (part : string) :
  isAll part = true -> hasByte " " part = false.
Proof.
  intros H. destruct (isAll_cases _ H) as [->|(b & Hb & ->)]; [reflexivity|].
  simpl. rewrite orb_false_r. unfold qualifiers in Hb.
  destruct (Ascii.eqb_spec b " ") as [->|]; [discriminate Hb|reflexivity].
Qed.

Lemma parseParts_after_all (parse : string -> option (result SPFRecord))
  (dnsres : option Resolver) (n n' : nat) (a : string) (junk : list string)
  (parts : list string) :
  isAll a = true ->
  forall (pi : nat) (acc : list SPFPart),
    (pi + length parts + 2 <= n)%nat -> (pi + length parts + 2 <= n')%nat ->
    parseParts parse dnsres n pi (parts ++ a :: junk) acc
    = parseParts parse dnsres n' pi (parts ++ [a]) acc.
Proof.
  intros Ha. induction parts as [|text rest IH]; intros pi acc Hn Hn'.
  - simpl. unfold isAll in Ha. rewrite Ha.
    destruct (String.eqb a "") eqn:E; [|reflexivity].
    apply String.eqb_eq in E. subst a. discriminate Ha.
  - simpl in Hn, Hn'. simpl.
    assert (E1 : (pi + 2 =? n)%nat = false) by (apply Nat.eqb_neq; lia).
    assert (E2 : (pi + 2 =? n')%nat = false) by (apply Nat.eqb_neq; lia).
    rewrite E1, E2.
    assert (IH' : forall acc',
               parseParts parse dnsres n (S pi) (rest ++ a :: junk) acc'
               = parseParts parse dnsres n' (S pi) (rest ++ [a]) acc')
      by (intros acc'; apply IH; lia).
    rewrite !IH'.
    destruct dnsres as [res|]; [|reflexivity].
    destruct (String.eqb text ""); [reflexivity|].
    destruct (String.eqb (stripQualifier text) "all"); [reflexivity|].
    destruct (HasPrefix (stripQualifier text) "a"
              || HasPrefix (stripQualifier text) "mx"); [reflexivity|].
    destruct (HasPrefix (stripQualifier text) "ip4:"
              || HasPrefix (stripQualifier text) "ip6:"); [reflexivity|].
    destruct (HasPrefix (stripQualifier text) "include:"
              || HasPrefix (stripQualifier text) "redirect:"); [|reflexivity].
    destruct (HasPrefix (stripQualifier text) "redirect:" && negb false);
      [reflexivity|].
    destruct (GetSPF _) as [subRecord| | |]; try reflexivity.
    destruct (parse subRecord) as [[sub| | |]|]; try reflexivity.
    apply IH'.
Qed.

Lemma dump_header (ps : list SPFPart) (indent : string) :
  exists body,
    dump (mkSPFRecord ps) indent
    = (indent ++ "Total Lookups: " ++ Itoa (Lookups (mkSPFRecord ps))
       ++ newline)
      ++ (indent ++ "v=spf1")
      ++ String.concat "" (map (fun p => " " ++ Text p) ps)
      ++ newline ++ body.
Proof. eexists. reflexivity. Qed.

(** X24.  Without a resolver [Parse] never calls itself: on every text it
    returns at the first level, a record or an error and never a panic, and
    no part of the record has an included record. *)
Theorem X24_Parse_without_resolver (depth : nat) (text : string) :
  exists r,
    Parse (S depth) text None = Some r
    /\ Parse 1 text None = Some r
    /\ isAbort r = false
    /\ forall rec, r = Ok rec ->
                   Forall (fun p => IncludeRecord p = None) (Parts rec).
Proof.
  simpl. destruct (HasPrefix text "v=spf1 "); simpl.
  - destruct (parseParts_without_resolver
                (fun sub => Parse depth sub None) (fun _ => None)
                (length (Split text " ")) (tl (Split text " ")) 0 []
                (List.Forall_nil _))
      as (r & -> & -> & Hab & Hinc).
    destruct r as [ps|e|e|f]; try discriminate Hab.
    + exists (Ok (mkSPFRecord ps)). repeat split; auto.
      intros rec E. injection E as <-. simpl. auto.
    + exists (Err e). repeat split; auto. intros rec E. discriminate E.
  - exists (Err ErrNotSPF). repeat split; auto. intros rec E. discriminate E.
Qed.

(** X25.  The parts of a record that [Parse] returns are the fields of the text
    after [v=spf1], as they are written and in their order, without the
    empty ones and up to the first [all]; a part counts as a lookup unless
    it is [all] or an [ip4:] or [ip6:] mechanism. *)
Theorem X25_Parse_keeps_texts (depth : nat) (text : string)
  (dnsres : option Resolver) (rec : SPFRecord) :
  Parse depth text dnsres = Some (Ok rec) ->
  map Text (Parts rec) = upToAll (fields text)
  /\ Forall (fun p => IsLookup p = negb (isAll (Text p) || isIP (Text p)))
            (Parts rec).
Proof.
  intros H. destruct (Parse_Ok _ _ _ _ H) as (depth' & _ & _ & Hp).
  apply parseParts_texts in Hp. destruct Hp as [E F].
  split; [exact E|]. apply F. constructor.
Qed.

(** X26.  What follows [all] in an SPF text does not matter: with or without
    it, [Parse] gives the same result. *)
Theorem X26_Parse_after_all (depth : nat) (dnsres : option Resolver)
  (before a after : string) :
  isAll a = true ->
  Parse depth ("v=spf1" ++ before ++ " " ++ a ++ " " ++ after) dnsres
  = Parse depth ("v=spf1" ++ before ++ " " ++ a) dnsres.
Proof.
  intros Ha. destruct depth as [|depth']; [reflexivity|].
  unfold Parse; fold Parse.
  assert (Hpre : HasPrefix ("v=spf1" ++ before ++ " " ++ a ++ " " ++ after)
                           "v=spf1 "
                 = HasPrefix ("v=spf1" ++ before ++ " " ++ a) "v=spf1 ").
  { unfold HasPrefix.
    replace ("v=spf1" ++ before ++ " " ++ a ++ " " ++ after)
      with (("v=spf1" ++ before ++ " ") ++ (a ++ " " ++ after))
      by (rewrite !append_assoc; reflexivity).
    replace ("v=spf1" ++ before ++ " " ++ a)
      with (("v=spf1" ++ before ++ " ") ++ a)
      by (rewrite !append_assoc; reflexivity).
    assert (Hlen : (String.length "v=spf1 "
                    <= String.length ("v=spf1" ++ before ++ " "))%nat)
      by (rewrite !length_append; simpl; lia).
    rewrite (prefix_app _ ("v=spf1" ++ before ++ " ") (a ++ " " ++ after))
      by exact Hlen.
    rewrite (prefix_app _ ("v=spf1" ++ before ++ " ") a) by exact Hlen.
    reflexivity. }
  rewrite Hpre.
  destruct (HasPrefix ("v=spf1" ++ before ++ " " ++ a) "v=spf1 ");
    simpl negb; cbv iota; [|reflexivity].
  cbv zeta.
  assert (S1 : Split ("v=spf1" ++ before ++ " " ++ a ++ " " ++ after) " "
               = (Split ("v=spf1" ++ before) " " ++ a :: Split after " ")%list).
  { replace ("v=spf1" ++ before ++ " " ++ a ++ " " ++ after)
      with (("v=spf1" ++ before) ++ String " " (a ++ String " " after))
      by (rewrite !append_assoc; reflexivity).
    rewrite Split_app_sep. f_equal. apply Split_app.
    apply isAll_no_space. exact Ha. }
  assert (S2 : Split ("v=spf1" ++ before ++ " " ++ a) " "
               = (Split ("v=spf1" ++ before) " " ++ [a])%list).
  { replace ("v=spf1" ++ before ++ " " ++ a)
      with (("v=spf1" ++ before) ++ String " " a)
      by (rewrite !append_assoc; reflexivity).
    rewrite Split_app_sep. f_equal. apply Split_nosep.
    apply isAll_no_space. exact Ha. }
  rewrite S1, S2.
  pose proof (Split_nonempty ("v=spf1" ++ before) " ") as Hne.
  destruct (Split ("v=spf1" ++ before) " ") as [|first parts]; [congruence|].
  simpl tl.
  rewrite (parseParts_after_all _ dnsres
             (length ((first :: parts) ++ a :: Split after " "))
             (length ((first :: parts) ++ [a]))
             a (Split after " ") parts Ha 0 []).
  - reflexivity.
  - rewrite length_app. simpl. lia.
  - rewrite length_app. simpl. lia.
Qed.

(** X27.  [Parse] returns the "must be last item" error for a text whose
    first mechanism is a [redirect:] that anything follows, even a single
    space. *)
Theorem X27_Parse_redirect_not_last (depth : nat) (dnsres : option Resolver)
  (domain rest : string) :
  hasByte " " domain = false ->
  Parse (S depth) ("v=spf1 redirect:" ++ domain ++ " " ++ rest) dnsres
  = Some (Err (ErrMustBeLast ("redirect:" ++ domain))).
Proof.
  intros Hd.
  assert (HS : Split ("v=spf1 redirect:" ++ domain ++ " " ++ rest) " "
               = "v=spf1" :: ("redirect:" ++ domain) :: Split rest " ").
  { change ("v=spf1 redirect:" ++ domain ++ " " ++ rest)
      with ("v=spf1" ++ String " " ("redirect:" ++ domain ++ " " ++ rest)).
    rewrite Split_app by reflexivity. f_equal.
    replace ("redirect:" ++ domain ++ " " ++ rest)
      with (("redirect:" ++ domain) ++ String " " rest)
      by (rewrite append_assoc; reflexivity).
    apply Split_app. rewrite hasByte_app, Hd. reflexivity. }
  unfold Parse; fold Parse. rewrite HS.
  change (HasPrefix ("v=spf1 redirect:" ++ domain ++ " " ++ rest) "v=spf1 ")
    with true.
  pose proof (Split_nonempty rest " ") as Hne.
  destruct (Split rest " ") as [|r rs]; [congruence|].
  assert (Hp : HasPrefix domain "" = true) by (destruct domain; reflexivity).
  simpl. change ("" ++ domain) with domain. rewrite Hp. reflexivity.
Qed.

(** X28.  [Lookups] is, in 64-bit arithmetic, the sum over the parts of one for
    a part that is a lookup, and of the lookups of the record it
    includes. *)
Theorem X28_Lookups_sum (ps : list SPFPart) :
  Lookups (mkSPFRecord ps) = wrapInt (sumZ (map partLookups ps)).
Proof.
  rewrite Lookups_loop. rewrite lookupsLoop_sum by reflexivity.
  f_equal.
Qed.

(** X29.  For a record parsed without a resolver, of no more parts than an
    [int] counts, [Lookups] is the number of fields of the text, up to the
    first [all], that are neither [all] nor an address. *)
Theorem X29_Lookups_without_resolver (depth : nat) (text : string)
  (rec : SPFRecord) :
  Parse depth text None = Some (Ok rec) ->
  Z.of_nat (length (Parts rec)) <= maxInt ->
  Lookups rec
  = Z.of_nat (length (List.filter (fun part => negb (isAll part || isIP part))
                                  (upToAll (fields text)))).
Proof.
  intros H Hlen.
  destruct (Parse_Ok _ _ _ _ H) as (depth' & -> & _ & Hp).
  destruct (parseParts_without_resolver
              (fun sub => Parse depth' sub None) (fun _ => None)
              (length (Split text " ")) (tl (Split text " ")) 0 []
              (List.Forall_nil _))
    as (r & Hr & _ & _ & Hinc).
  rewrite Hp in Hr. injection Hr as <-. specialize (Hinc _ eq_refl).
  apply parseParts_texts in Hp. destruct Hp as [E F].
  specialize (F (List.Forall_nil _)). simpl in E.
  destruct rec as [ps]. cbn [Parts] in *.
  rewrite Lookups_loop, lookupsLoop_sum by reflexivity.
  rewrite Z.add_0_l, (sumZ_flat _ Hinc).
  assert (Hcount : length (List.filter IsLookup ps)
                   = length (List.filter
                               (fun part => negb (isAll part || isIP part))
                               (map Text ps))).
  { clear -F. induction F as [|p ps Hp _ IH]; [reflexivity|].
    simpl. unfold flagged in Hp. rewrite <- Hp.
    destruct (IsLookup p); simpl; rewrite IH; reflexivity. }
  rewrite Hcount, E in *. apply wrapInt_small.
  pose proof (List.filter_length_le
                (fun part => negb (isAll part || isIP part))
                (upToAll (fields text))) as Hle.
  rewrite <- E in Hle at 2. rewrite length_map in Hle.
  unfold maxInt in *. lia.
Qed.

(** X30.  [Print] of a parsed record writes the count of the lookups on the
    first line and on the second line [v=spf1] and the fields that were
    kept, joined by single spaces: the text itself when it has no empty
    field and nothing after [all].  The lines of the lookups follow. *)
Theorem X30_Print_second_line (depth : nat) (text : string)
  (dnsres : option Resolver) (rec : SPFRecord) :
  Parse depth text dnsres = Some (Ok rec) ->
  exists body,
    Print rec
    = "Total Lookups: " ++ Itoa (Lookups rec) ++ newline
      ++ Join ("v=spf1" :: upToAll (fields text)) " " ++ newline ++ body
    /\ (upToAll (fields text) = tl (Split text " ") ->
        Print rec
        = "Total Lookups: " ++ Itoa (Lookups rec) ++ newline
          ++ text ++ newline ++ body).
Proof.
  intros H. destruct (Parse_Ok _ _ _ _ H) as (depth' & _ & Hpre & Hp).
  apply parseParts_texts in Hp. destruct Hp as [E _]. simpl in E.
  destruct rec as [ps]. cbn [Parts] in E. unfold Print.
  destruct (dump_header ps "") as (body & Hd). exists body.
  assert (Hline : "v=spf1" ++ String.concat "" (map (fun p => " " ++ Text p) ps)
                  = Join ("v=spf1" :: upToAll (fields text)) " ").
  { rewrite <- concat_Join. unfold fields. rewrite <- E, map_map.
    reflexivity. }
  assert (Hfirst : "v=spf1" ++ String.concat "" (map (fun p => " " ++ Text p) ps)
                   ++ newline ++ body
                   = Join ("v=spf1" :: upToAll (fields text)) " "
                     ++ newline ++ body).
  { rewrite <- Hline. rewrite append_assoc. reflexivity. }
  split.
  - rewrite Hd. change ("" ++ "v=spf1") with "v=spf1".
    change ("" ++ "Total Lookups: " ++ Itoa (Lookups (mkSPFRecord ps))
            ++ newline)
      with ("Total Lookups: " ++ (Itoa (Lookups (mkSPFRecord ps)) ++ newline)).
    rewrite !append_assoc. rewrite <- Hfirst. reflexivity.
  - intros Hcanon. rewrite Hd. change ("" ++ "v=spf1") with "v=spf1".
    change ("" ++ "Total Lookups: " ++ Itoa (Lookups (mkSPFRecord ps))
            ++ newline)
      with ("Total Lookups: " ++ (Itoa (Lookups (mkSPFRecord ps)) ++ newline)).
    assert (Htext : Join ("v=spf1" :: upToAll (fields text)) " " = text).
    { rewrite Hcanon. unfold HasPrefix in Hpre.
      destruct (prefix_split _ _ Hpre) as (r & Hr).
      assert (HS : Split text " " = "v=spf1" :: Split r " ").
      { rewrite Hr.
        change ("v=spf1 " ++ r) with ("v=spf1" ++ String " " r).
        apply Split_app. reflexivity. }
      rewrite <- (Join_Split " " text) at 2. rewrite HS. reflexivity. }
    rewrite !append_assoc. rewrite <- Htext. rewrite <- Hfirst.
    reflexivity.
Qed.

End SpfMore.

Lemma X24_Parse_without_resolver_witness :
  exists r,
    Spflib.Parse 5 "v=spf1 include:a.example -all" None = Some r
    /\ Spflib.Parse 1 "v=spf1 include:a.example -all" None = Some r.
Proof.
  destruct (X24_Parse_without_resolver 4 "v=spf1 include:a.example -all")
    as (r & H1 & H2 & _).
  exists r. split; [exact H1|exact H2].
Defined.

Lemma X25_Parse_keeps_texts_witness :
  exists rec : Spflib.SPFRecord,
    Spflib.Parse 1 "v=spf1 a  -all mx" None = Some (Ok rec)
    /\ map Spflib.Text (Spflib.Parts rec) = ["a"; "-all"].
Proof.
  assert (E : exists rec,
             Spflib.Parse 1 "v=spf1 a  -all mx" None = Some (Ok rec))
    by (eexists; vm_compute; reflexivity).
  destruct E as [rec E]. exists rec. split; [exact E|].
  rewrite (proj1 (X25_Parse_keeps_texts _ _ _ _ E)). vm_compute. reflexivity.
Defined.

Lemma X26_Parse_after_all_witness :
  Spflib.Parse 1 "v=spf1 mx -all unknown" None
  = Spflib.Parse 1 "v=spf1 mx -all" None.
Proof.
  apply (X26_Parse_after_all 1 None " mx" "-all" "unknown"). reflexivity.
Defined.

Lemma X27_Parse_redirect_not_last_witness :
  Spflib.Parse 1 "v=spf1 redirect:example.org " None
  = Some (Err (ErrMustBeLast "redirect:example.org")).
Proof.
  apply (X27_Parse_redirect_not_last 0 None "example.org" ""). reflexivity.
Defined.

Lemma X29_Lookups_without_resolver_witness :
  exists rec : Spflib.SPFRecord,
    Spflib.Parse 1 "v=spf1 a mx ip4:192.0.2.1 include:x.example -all" None
    = Some (Ok rec)
    /\ Spflib.Lookups rec = 3.
Proof.
  eexists. split; [vm_compute; reflexivity|].
  rewrite (X29_Lookups_without_resolver 1
             "v=spf1 a mx ip4:192.0.2.1 include:x.example -all").
  - vm_compute. reflexivity.
  - vm_compute. reflexivity.
  - vm_compute. discriminate.
Defined.

Lemma X30_Print_second_line_witness :
  exists (rec : Spflib.SPFRecord) (body : string),
    Spflib.Parse 1 "v=spf1 mx -all" None = Some (Ok rec)
    /\ Spflib.Print rec
       = "Total Lookups: " ++ Itoa (Spflib.Lookups rec) ++ newline
         ++ "v=spf1 mx -all" ++ newline ++ body.
Proof.
  assert (E : exists rec, Spflib.Parse 1 "v=spf1 mx -all" None = Some (Ok rec))
    by (eexists; vm_compute; reflexivity).
  destruct E as [rec E].
  destruct (X30_Print_second_line _ _ _ _ E) as (body & _ & H).
  exists rec, body. split; [exact E|]. apply H. vm_compute. reflexivity.
Defined.
